(** * CloudWise FinOps: the statistical core of the anomaly detector and reporter

    A shallow embedding of the four analytical tools

      - [anomaly_detector/tools/CalculateBaseline.py]
      - [anomaly_detector/tools/DetectSpike.py]
      - [anomaly_detector/tools/DetectTrendChange.py]
      - [reporter/tools/CreateForecast.py]

    and the properties of them that the specification states.

    Conventions of the embedding.

    - A Python [float] is a real number ([R]): arithmetic on floats is
      exact, and the only non-finite value is the [float('inf')] that
      [DetectSpike.run] writes itself (type [ext]).  NaN, the overflow of
      float arithmetic and binary rounding are outside the model; a property
      that exact arithmetic has and rounded arithmetic can lose is stated
      only for inputs on which the arithmetic of the source is exact or
      cannot lose it, and the statement says so.
    - A JSON number is a Python [int] when its literal is an integer ([JInt])
      and a [float] otherwise ([JNum]); [float] of an [int] beyond the range
      of a double raises [OverflowError].
    - [json.loads], [float] on a string and [datetime.strptime] are library
      code.  A tool takes the outcome of [json.loads] on its string field
      ([loaded]): the decoded value, [JSONDecodeError], or one of the two
      other exceptions that [json.loads] raises; the two string conversions
      are the fields of [builtins].
    - A [datetime] produced by [strptime(_, "%Y-%m-%d")] is its proleptic
      Gregorian ordinal ([toordinal()], a [Z]): comparison, [weekday()] and
      adding a [timedelta(days=_)] only depend on it.
    - A [run] method returns a string to its caller (a result or an error
      text) or lets an exception escape: [Exc (reply _ _)].  The prose summary
      that precedes the JSON payload in the returned string is not modelled;
      the payload is a record. *)

From Stdlib Require Import Reals Lra Lia ZArith List String Ascii Bool Arith.
From Stdlib Require Import Permutation Sorted.
Import ListNotations.

Local Open Scope R_scope.

(** ** Python values, exceptions and builtins *)

Module Py.

(** The exception classes the tools can meet.  [Exception] is the base class
    named by the catch-all handlers; it is never raised itself. *)
Inductive exn : Type :=
| Exception
| TypeError
| ValueError
| JSONDecodeError
| StatisticsError
| KeyError
| AttributeError
| ZeroDivisionError
| OverflowError
| IndexError
| RecursionError.

Definition exn_eqb (a b : exn) : bool :=
  match a, b with
  | Exception, Exception | TypeError, TypeError | ValueError, ValueError
  | JSONDecodeError, JSONDecodeError | StatisticsError, StatisticsError
  | KeyError, KeyError | AttributeError, AttributeError
  | ZeroDivisionError, ZeroDivisionError | OverflowError, OverflowError
  | IndexError, IndexError | RecursionError, RecursionError => true
  | _, _ => false
  end.

(** [isinstance e cls]: [JSONDecodeError] and [StatisticsError] derive from
    [ValueError]; everything derives from [Exception]. *)
Definition isinstance (e cls : exn) : bool :=
  match cls with
  | Exception => true
  | ValueError =>
      match e with
      | ValueError | JSONDecodeError | StatisticsError => true
      | _ => false
      end
  | _ => exn_eqb e cls
  end.

(** A computation that returns a value or raises. *)
Inductive Exc (A : Type) : Type :=
| Ok (a : A)
| Raise (e : exn).
Arguments Ok {A} a.
Arguments Raise {A} e.

Definition bind {A B : Type} (c : Exc A) (k : A -> Exc B) : Exc B :=
  match c with
  | Ok a => k a
  | Raise e => Raise e
  end.

(** [try: c / except cls...: h e]: the handler runs when the raised exception
    is an instance of one of the listed classes. *)
Definition try_except {A : Type} (c : Exc A) (classes : list exn)
    (h : exn -> Exc A) : Exc A :=
  match c with
  | Ok a => Ok a
  | Raise e => if existsb (isinstance e) classes then h e else Raise e
  end.

(** What a [run] method hands back to its caller: the result payload or one
    of its error texts. *)
Inductive reply (E A : Type) : Type :=
| Result (a : A)
| Error (msg : E).
Arguments Result {E A} a.
Arguments Error {E A} msg.

(** Values produced by [json.loads]. A [dict] is an association list read
    from the left; an integer literal is an [int] ([JInt]), any other number
    a [float] ([JNum]). *)
#[local] Unset Elimination Schemes.
Inductive json : Type :=
| JNull
| JBool (b : bool)
| JInt (z : Z)
| JNum (r : R)
| JStr (s : string)
| JArr (items : list json)
| JObj (fields : list (string * json)).
#[local] Set Elimination Schemes.

(** The values on which [key in j] raises: numbers, booleans and [null]. *)
Definition is_scalar (j : json) : bool :=
  match j with
  | JNull | JBool _ | JInt _ | JNum _ => true
  | JStr _ | JArr _ | JObj _ => false
  end.

(** The outcome of [json.loads] on a string field: the decoded value, or
    the exception it raises.  Text that is not JSON raises
    [JSONDecodeError]; an integer literal with more digits than the
    interpreter converts raises a plain [ValueError], and nesting beyond the
    recursion limit raises [RecursionError]. *)
Inductive loaded : Type :=
| Decoded (j : json)
| Undecodable
| DigitLimit
| TooDeep.

Definition json_loads (s : loaded) : Exc json :=
  match s with
  | Decoded j => Ok j
  | Undecodable => Raise JSONDecodeError
  | DigitLimit => Raise ValueError
  | TooDeep => Raise RecursionError
  end.

(** The two library conversions from strings; [None] is [ValueError]. *)
Record builtins : Type := {
  float_of_str : string -> option R;
  strptime_ymd : string -> option Z
}.

Fixpoint lookup (key : string) (fields : list (string * json)) : option json :=
  match fields with
  | [] => None
  | (k, v) :: rest => if String.eqb k key then Some v else lookup key rest
  end.

Definition is_str (key : string) (j : json) : bool :=
  match j with
  | JStr s => String.eqb s key
  | _ => false
  end.

Definition substring_of (needle hay : string) : bool :=
  match String.index 0 needle hay with
  | Some _ => true
  | None => false
  end.

(** [key in j] *)
Definition contains (key : string) (j : json) : Exc bool :=
  match j with
  | JObj fields =>
      Ok (match lookup key fields with Some _ => true | None => false end)
  | JArr items => Ok (existsb (is_str key) items)
  | JStr s => Ok (substring_of key s)
  | JNull | JBool _ | JInt _ | JNum _ => Raise TypeError
  end.

(** [j[key]] for a string key *)
Definition getitem (j : json) (key : string) : Exc json :=
  match j with
  | JObj fields =>
      match lookup key fields with
      | Some v => Ok v
      | None => Raise KeyError
      end
  | _ => Raise TypeError
  end.

(** [j.get(key, default)], with the default left symbolic ([None] here). *)
Definition get (j : json) (key : string) : Exc (option json) :=
  match j with
  | JObj fields => Ok (lookup key fields)
  | _ => Raise AttributeError
  end.

(** The least magnitude of an [int] that [float] refuses: the integers
    below it round to a double, [2^1024 - 2^970] and beyond do not. *)
Definition float_limit : Z := (2 ^ 1024 - 2 ^ 970)%Z.
Arguments float_limit : simpl never.

(** [float(j)] *)
Definition float (lib : builtins) (j : json) : Exc R :=
  match j with
  | JNum r => Ok r
  | JInt z =>
      if (Z.abs z <? float_limit)%Z then Ok (IZR z) else Raise OverflowError
  | JBool b => Ok (if b then 1 else 0)
  | JStr s =>
      match float_of_str lib s with
      | Some r => Ok r
      | None => Raise ValueError
      end
  | JNull | JArr _ | JObj _ => Raise TypeError
  end.

(** [datetime.strptime(j, "%Y-%m-%d")] *)
Definition strptime (lib : builtins) (j : json) : Exc Z :=
  match j with
  | JStr s =>
      match strptime_ymd lib s with
      | Some d => Ok d
      | None => Raise ValueError
      end
  | _ => Raise TypeError
  end.

(** Comparisons on floats as booleans. *)
Definition Rltb (a b : R) : bool := if Rlt_dec a b then true else false.
Definition Rleb (a b : R) : bool := if Rle_dec a b then true else false.
Definition Reqb (a b : R) : bool := if Req_dec_T a b then true else false.

(** A float that may be [float('inf')]. *)
Inductive ext : Type :=
| Fin (r : R)
| PInf.

(** [z > t] for a finite [t] *)
Definition ext_gtb (z : ext) (t : R) : bool :=
  match z with
  | Fin r => Rltb t r
  | PInf => true
  end.

(** [a <= v] where [a] came out of a JSON document *)
Definition json_le_float (a : json) (v : R) : Exc bool :=
  match a with
  | JNum r => Ok (Rleb r v)
  | JInt z => Ok (Rleb (IZR z) v)
  | JBool b => Ok (Rleb (if b then 1 else 0) v)
  | _ => Raise TypeError
  end.

(** [v <= b] where [b] came out of a JSON document *)
Definition float_le_json (v : R) (b : json) : Exc bool :=
  match b with
  | JNum r => Ok (Rleb v r)
  | JInt z => Ok (Rleb v (IZR z))
  | JBool c => Ok (Rleb v (if c then 1 else 0))
  | _ => Raise TypeError
  end.

(** [round(x, ndigits)]: to the nearest multiple of [10^-ndigits], ties to
    the even one. *)
Definition round_half_even (x : R) : Z :=
  let f := Int_part x in
  let d := x - IZR f in
  if Rltb d (1 / 2) then f
  else if Rltb (1 / 2) d then (f + 1)%Z
  else if Z.even f then f else (f + 1)%Z.

Definition round (x : R) (ndigits : nat) : R :=
  IZR (round_half_even (x * 10 ^ ndigits)) / 10 ^ ndigits.

(** [round] leaves [float('inf')] as it is. *)
Definition ext_round (z : ext) (ndigits : nat) : ext :=
  match z with
  | Fin r => Fin (round r ndigits)
  | PInf => PInf
  end.

(** The builtin [sum]: a left fold from [0]. *)
Definition sum (l : list R) : R := fold_left Rplus l 0.

(** [statistics.mean] *)
Definition mean (l : list R) : Exc R :=
  match l with
  | [] => Raise StatisticsError
  | _ => Ok (sum l / INR (List.length l))
  end.

(** [statistics.stdev]: the sample standard deviation (N-1 denominator).
    Exact: the [OverflowError] that the library raises on data near the
    largest double is outside the model. *)
Definition stdev (l : list R) : Exc R :=
  match l with
  | [] | [_] => Raise StatisticsError
  | _ =>
      let m := sum l / INR (List.length l) in
      Ok (sqrt (sum (map (fun x => (x - m) * (x - m)) l) / (INR (List.length l) - 1)))
  end.

(** [x / y] on floats.  Where the source divides under a test that its
    divisor is positive or not zero, or by a literal, the model writes the
    quotient of reals directly. *)
Definition div (x y : R) : Exc R :=
  if Reqb y 0 then Raise ZeroDivisionError else Ok (x / y).

(** [l[-k:]] for [k > 0] *)
Definition last_n {A : Type} (k : nat) (l : list A) : list A :=
  skipn (List.length l - k) l.

(** [l[0]] and [l[-1]] *)
Definition first_item {A : Type} (l : list A) : Exc A :=
  match l with
  | [] => Raise IndexError
  | a :: _ => Ok a
  end.

Definition last_item {A : Type} (l : list A) : Exc A :=
  match rev l with
  | [] => Raise IndexError
  | a :: _ => Ok a
  end.

(** [date.weekday()]: Monday is 0. *)
Definition weekday (d : Z) : Z := ((d + 6) mod 7)%Z.

(** [datetime.max] as an ordinal (9999-12-31). *)
Definition max_ordinal : Z := 3652059%Z.

(** [d + timedelta(days=k)] *)
Definition add_days (d k : Z) : Exc Z :=
  if ((d + k >? max_ordinal) || (d + k <? 1))%Z then Raise OverflowError
  else Ok (d + k)%Z.

End Py.

Import Py.

Declare Scope exc_scope.
Notation "x <- c ;; k" := (bind c (fun x => k))
  (at level 61, c at next level, right associativity) : exc_scope.
Notation "' p <- c ;; k" := (bind c (fun x => let 'p := x in k))
  (at level 61, p pattern, c at next level, right associativity) : exc_scope.
Local Open Scope exc_scope.

(** ** DetectSpike *)

Module DetectSpike.

Inductive Severity : Type := NONE | LOW | MEDIUM | HIGH | CRITICAL.

Inductive error_text : Type :=
| NegativeCurrentValue
| MissingBaselineFields
| InvalidBaselineJSON
| InvalidBaselineStructure (e : exn)
| BadThresholdPercent
| BadZScoreThreshold
| ErrorDetectingSpike (e : exn).

(** The [result] dict of [run]. *)
Record SpikeResult : Type := {
  is_spike : bool;
  current_value : R;
  baseline_mean : R;
  deviation_amount : R;
  deviation_percent : R;
  z_score : ext;
  severity : Severity;
  confidence : R;
  percent_threshold : R;
  z_score_threshold : R;
  percent_exceeded : bool;
  z_score_exceeded : bool;
  within_95_percent : bool;
  within_99_percent : bool
}.

(** Step 2, the body of the first [try]: [inl] is a [return] taken inside. *)
Definition parse_baseline (lib : builtins) (baseline : loaded)
    : Exc (error_text + json * R * R) :=
  baseline_data <- json_loads baseline ;;
  has_mean <- contains "baseline_mean" baseline_data ;;
  missing <- (if negb has_mean then Ok true
              else has_std <- contains "std_deviation" baseline_data ;;
                   Ok (negb has_std)) ;;
  if (missing : bool) then Ok (inl MissingBaselineFields)
  else
    m <- getitem baseline_data "baseline_mean" ;;
    baseline_mean <- float lib m ;;
    s <- getitem baseline_data "std_deviation" ;;
    std_deviation <- float lib s ;;
    Ok (inr (baseline_data, baseline_mean, std_deviation)).

(** Step 4: the percentage deviation and whether it exceeds the threshold. *)
Definition percent_deviation (current_value baseline_mean threshold_percent : R)
    : R * bool :=
  if Reqb baseline_mean 0 then
    if Rltb 0 current_value then (100, true) else (0, false)
  else
    let deviation_percent := (current_value - baseline_mean) / baseline_mean * 100 in
    (deviation_percent, Rltb threshold_percent deviation_percent).

(** Step 5: the Z-score. *)
Definition zscore (current_value baseline_mean std_deviation : R) : ext :=
  if Reqb std_deviation 0 then
    if Reqb current_value baseline_mean then Fin 0 else PInf
  else Fin ((current_value - baseline_mean) / std_deviation).

(** Step 7 *)
Definition severity_of (deviation_percent : R) : Severity :=
  if Rleb deviation_percent 20 then NONE
  else if Rleb deviation_percent 35 then LOW
  else if Rleb deviation_percent 50 then MEDIUM
  else if Rleb deviation_percent 100 then HIGH
  else CRITICAL.

(** The place of a level on the ladder of step 7. *)
Definition rank (s : Severity) : nat :=
  match s with
  | NONE => 0
  | LOW => 1
  | MEDIUM => 2
  | HIGH => 3
  | CRITICAL => 4
  end.

(** Step 8. [min(100, abs(z) / t * 50)]: for [z = inf] and the validated
    [t > 0] the second argument is [inf] and [min] keeps [100]. *)
Definition z_score_confidence (z : ext) (z_score_threshold : R) : R :=
  match z with
  | Fin r => Rmin 100 (Rabs r / z_score_threshold * 50)
  | PInf => 100
  end.

Definition threshold_confidence (deviation_percent threshold_percent : R) : R :=
  Rmin 100 (deviation_percent / threshold_percent * 50).

Definition confidence_of (z : ext) (deviation_percent threshold_percent
    z_score_threshold : R) : R :=
  round ((z_score_confidence z z_score_threshold
          + threshold_confidence deviation_percent threshold_percent) / 2) 1.

(** Step 9: [ci.get("lower", 0) <= v <= ci.get("upper", float('inf'))] for
    [ci = baseline_data.get("confidence_intervals", {}).get(level, {})].
    The second comparison of the chain runs only when the first holds. *)
Definition within_interval (baseline_data : json) (level : string) (v : R)
    : Exc bool :=
  cis <- get baseline_data "confidence_intervals" ;;
  ci <- (match cis with
         | Some c => get c level
         | None => Ok None
         end) ;;
  lower <- (match ci with Some c => get c "lower" | None => Ok None end) ;;
  above <- (match lower with
            | Some a => json_le_float a v
            | None => Ok (Rleb 0 v)
            end) ;;
  if (above : bool) then
    upper <- (match ci with Some c => get c "upper" | None => Ok None end) ;;
    match upper with
    | Some b => float_le_json v b
    | None => Ok true
    end
  else Ok false.

(** Steps 4 to 10, the body of the second [try]. *)
Definition detect (baseline_data : json) (current_value baseline_mean
    std_deviation threshold_percent z_score_threshold : R) : Exc SpikeResult :=
  let '(deviation_percent, is_spike_threshold) :=
    percent_deviation current_value baseline_mean threshold_percent in
  let z := zscore current_value baseline_mean std_deviation in
  let is_spike_zscore := ext_gtb z z_score_threshold in
  let is_spike := is_spike_threshold && is_spike_zscore in
  within_95_interval <- within_interval baseline_data "95_percent" current_value ;;
  within_99_interval <- within_interval baseline_data "99_percent" current_value ;;
  Ok {| is_spike := is_spike;
        current_value := current_value;
        baseline_mean := baseline_mean;
        deviation_amount := round (current_value - baseline_mean) 2;
        deviation_percent := round deviation_percent 2;
        z_score := ext_round z 2;
        severity := severity_of deviation_percent;
        confidence :=
          confidence_of z deviation_percent threshold_percent z_score_threshold;
        percent_threshold := threshold_percent;
        z_score_threshold := z_score_threshold;
        percent_exceeded := is_spike_threshold;
        z_score_exceeded := is_spike_zscore;
        within_95_percent := within_95_interval;
        within_99_percent := within_99_interval |}.

Definition run (lib : builtins) (current_value : R) (baseline : loaded)
    (threshold_percent z_score_threshold : R)
    : Exc (reply error_text SpikeResult) :=
  if Rltb current_value 0 then Ok (Error NegativeCurrentValue)
  else
    parsed <-
      try_except
        (try_except (parse_baseline lib baseline) [JSONDecodeError]
           (fun _ => Ok (inl InvalidBaselineJSON)))
        [ValueError; KeyError]
        (fun e => Ok (inl (InvalidBaselineStructure e))) ;;
    match parsed with
    | inl msg => Ok (Error msg)
    | inr (baseline_data, baseline_mean, std_deviation) =>
        if Rleb threshold_percent 0 then Ok (Error BadThresholdPercent)
        else if Rleb z_score_threshold 0 then Ok (Error BadZScoreThreshold)
        else
          try_except
            (r <- detect baseline_data current_value baseline_mean
                    std_deviation threshold_percent z_score_threshold ;;
             Ok (Result r))
            [Exception]
            (fun e => Ok (Error (ErrorDetectingSpike e)))
    end.

End DetectSpike.

(** ** The validation loop

    [CalculateBaseline.run], [DetectTrendChange.run] and [CreateForecast.run]
    repeat the same loop over the decoded array (their step 3): an entry
    without a ["cost"] or ["date"] key is passed over, and so is one whose
    conversion raises [ValueError] or [TypeError]; the membership test itself
    stands outside the inner [try]. *)

Module Series.

Record point : Type := { date : Z; cost : R }.

Definition read_entry (lib : builtins) (entry : json) : Exc (option point) :=
  has_cost <- contains "cost" entry ;;
  skip <- (if negb has_cost then Ok true
           else has_date <- contains "date" entry ;; Ok (negb has_date)) ;;
  if (skip : bool) then Ok None
  else
    try_except
      (c <- getitem entry "cost" ;;
       cost <- float lib c ;;
       date_str <- getitem entry "date" ;;
       date_obj <- strptime lib date_str ;;
       Ok (Some {| date := date_obj; cost := cost |}))
      [ValueError; TypeError]
      (fun _ => Ok None).

Fixpoint read_entries (lib : builtins) (history : list json)
    : Exc (list point) :=
  match history with
  | [] => Ok []
  | entry :: rest =>
      p <- read_entry lib entry ;;
      ps <- read_entries lib rest ;;
      Ok (match p with Some x => x :: ps | None => ps end)
  end.

(** What an entry makes the loop body raise past its inner handler, if
    anything: the membership test on a number, a boolean or [null] raises
    [TypeError], and in an object that has both keys [float] raises
    [OverflowError] on an integer cost beyond the range of a double. *)
Definition stops_loop (entry : json) : option exn :=
  match entry with
  | JNull | JBool _ | JInt _ | JNum _ => Some TypeError
  | JObj fields =>
      match lookup "cost" fields, lookup "date" fields with
      | Some (JInt z), Some _ =>
          if (Z.abs z <? float_limit)%Z then None else Some OverflowError
      | _, _ => None
      end
  | JStr _ | JArr _ => None
  end.

(** [data_points.sort(key=lambda x: x["date"])]: [list.sort] is stable, an
    entry stays in front of the later-supplied entries of the same date. *)
Fixpoint insert_by_date (p : point) (l : list point) : list point :=
  match l with
  | [] => [p]
  | q :: rest =>
      if (date p <=? date q)%Z then p :: q :: rest
      else q :: insert_by_date p rest
  end.

Definition sort_by_date (l : list point) : list point :=
  fold_right insert_by_date [] l.

(** The order that the sort establishes, and the test for one date. *)
Definition by_date (p q : point) : Prop := (date p <= date q)%Z.

Definition on_day (d : Z) (p : point) : bool := (date p =? d)%Z.

(** Whether a list of dates never steps down. *)
Fixpoint ascending (dates : list Z) : bool :=
  match dates with
  | [] => true
  | d :: rest =>
      match rest with
      | [] => true
      | e :: _ => (d <=? e)%Z && ascending rest
      end
  end.

End Series.

Import Series.

(** ** The least-squares fit

    Steps 5 and 6 of [DetectTrendChange.run] and of [CreateForecast.run]: a
    regression of the costs on their positions [0 .. n-1]. *)

Module Regression.

Record fit : Type := { slope : R; intercept : R; r_squared : R }.

(** [list(range(n))] *)
Definition x_values (n : nat) : list R := map INR (seq 0 n).

(** [sum(f(x, y) for x, y in zip(xs, ys))] *)
Definition sum_zip (f : R -> R -> R) (xs ys : list R) : R :=
  sum (map (fun xy => f (fst xy) (snd xy)) (combine xs ys)).

(** [None] is the [denominator == 0] exit, which each tool answers with an
    error text of its own.  [has_spread] is the tool's test on [ss_total]
    before it divides: [ss_total != 0] in the trend tool, [ss_total > 0] in
    the forecast tool.  The arithmetic is exact: the [OverflowError] of
    [** 2] on a deviation beyond about 1.3e154 and the rounding of the sums
    are outside the model, so the properties below that depend on them
    carry bounds on the costs. *)
Definition linear_fit (has_spread : R -> bool) (y_values : list R)
    : Exc (option fit) :=
  let n := List.length y_values in
  let xs := x_values n in
  mean_x <- mean xs ;;
  mean_y <- mean y_values ;;
  let numerator := sum_zip (fun x y => (x - mean_x) * (y - mean_y)) xs y_values in
  let denominator := sum (map (fun x => (x - mean_x) ^ 2) xs) in
  if Reqb denominator 0 then Ok None
  else
    let slope := numerator / denominator in
    let intercept := mean_y - slope * mean_x in
    let predicted_values := map (fun x => slope * x + intercept) xs in
    let ss_total := sum (map (fun y => (y - mean_y) ^ 2) y_values) in
    let ss_residual := sum_zip (fun y pred => (y - pred) ^ 2) y_values predicted_values in
    let r_squared :=
      if has_spread ss_total then 1 - ss_residual / ss_total else 0 in
    Ok (Some {| slope := slope; intercept := intercept; r_squared := r_squared |}).

Inductive Direction : Type := stable | increasing | decreasing.

(** The three-way direction rule with stability threshold [t]. *)
Definition direction_of (slope t : R) : Direction :=
  if Rltb (Rabs slope) t then stable
  else if Rltb 0 slope then increasing
  else decreasing.

End Regression.

Import Regression.

(** ** CalculateBaseline *)

Module CalculateBaseline.

Inductive error_text : Type :=
| NotAnArray
| InsufficientHistory (provided : nat)
| InvalidJSON
| WindowTooSmall
| TooFewValid (valid : nat)
| StatisticsFailure (e : exn)
| BaselineFailure (e : exn).

Inductive Stability : Type := Stable | Moderate | HighlyVariable.

Record interval : Type := { lower : R; upper : R }.

(** The [result] dict of [run]; [seasonal_factors] lists Monday to Sunday,
    [stability] is the label of the summary sentence. *)
Record BaselineResult : Type := {
  baseline_mean : R;
  std_deviation : R;
  coefficient_of_variation : R;
  stability : Stability;
  ci_95_percent : interval;
  ci_99_percent : interval;
  seasonal_factors : list R;
  sample_size : nat;
  window_days : Z;
  date_range : Z * Z;
  seasonal_adjustment_enabled : bool
}.

(** Step 1, the first [try]. *)
Definition parse_history (cost_history : loaded) : Exc (error_text + list json) :=
  try_except
    (history <- json_loads cost_history ;;
     match history with
     | JArr items =>
         if (List.length items <? 14)%nat
         then Ok (inl (InsufficientHistory (List.length items)))
         else Ok (inr items)
     | _ => Ok (inl NotAnArray)
     end)
    [JSONDecodeError]
    (fun _ => Ok (inl InvalidJSON)).

(** Step 2: the window, capped to the number of supplied entries. *)
Definition capped_window (window_days : Z) (history : list json) : Z :=
  if (window_days >? Z.of_nat (List.length history))%Z
  then Z.of_nat (List.length history) else window_days.

(** Step 4: [costs[-window_days:]] and [dates[-window_days:]], the entries
    in the order in which they were supplied. *)
Definition window (window_days : Z) (valid : list point) : list point :=
  last_n (Z.to_nat window_days) valid.

(** Step 6, one weekday: [day_costs[day_num]] and its multiplier. *)
Definition day_costs (window_points : list point) (day_num : Z) : list R :=
  map cost (filter (fun p => (weekday (date p) =? day_num)%Z) window_points).

Definition seasonal_factor (window_points : list point) (baseline_mean : R)
    (day_num : Z) : Exc R :=
  match day_costs window_points day_num with
  | [] => Ok 1
  | costs =>
      day_avg <- mean costs ;;
      Ok (if Rltb 0 baseline_mean then round (day_avg / baseline_mean) 3 else 1)
  end.

Fixpoint for_each {A B : Type} (f : A -> Exc B) (l : list A) : Exc (list B) :=
  match l with
  | [] => Ok []
  | a :: rest => b <- f a ;; bs <- for_each f rest ;; Ok (b :: bs)
  end.

Definition week : list Z := [0; 1; 2; 3; 4; 5; 6]%Z.

Definition seasonal (enable : bool) (window_points : list point)
    (baseline_mean : R) : Exc (list R) :=
  if enable && (14 <=? List.length window_points)%nat
  then for_each (seasonal_factor window_points baseline_mean) week
  else Ok (map (fun _ => 1) week).

Definition stability_of (cv : R) : Stability :=
  if Rltb cv 15 then Stable else if Rltb cv 30 then Moderate else HighlyVariable.

(** Steps 5 to 10 on the selected window. *)
Definition baseline_of_window (enable : bool) (window_days : Z)
    (window_points : list point) : Exc BaselineResult :=
  let window_costs := map cost window_points in
  let window_dates := map date window_points in
  baseline_mean <- mean window_costs ;;
  std_deviation <- (if (1 <? List.length window_costs)%nat
                    then stdev window_costs else Ok 0) ;;
  seasonal_factors <- seasonal enable window_points baseline_mean ;;
  let confidence_95_lower := baseline_mean - 2 * std_deviation in
  let confidence_95_upper := baseline_mean + 2 * std_deviation in
  let confidence_99_lower := baseline_mean - 3 * std_deviation in
  let confidence_99_upper := baseline_mean + 3 * std_deviation in
  let cv :=
    if Rltb 0 baseline_mean then std_deviation / baseline_mean * 100 else 0 in
  first_date <- first_item window_dates ;;
  last_date <- last_item window_dates ;;
  Ok {| baseline_mean := round baseline_mean 2;
        std_deviation := round std_deviation 2;
        coefficient_of_variation := round cv 2;
        stability := stability_of cv;
        ci_95_percent :=
          {| lower := round (Rmax 0 confidence_95_lower) 2;
             upper := round confidence_95_upper 2 |};
        ci_99_percent :=
          {| lower := round (Rmax 0 confidence_99_lower) 2;
             upper := round confidence_99_upper 2 |};
        seasonal_factors := seasonal_factors;
        sample_size := List.length window_costs;
        window_days := window_days;
        date_range := (first_date, last_date);
        seasonal_adjustment_enabled := enable |}.

Definition day_names : list string :=
  ["Monday"; "Tuesday"; "Wednesday"; "Thursday"; "Friday"; "Saturday";
   "Sunday"]%string.

(** The [result] dict of step 10 as the JSON document that [run] returns
    ([json.dumps]) and that a later [json.loads] reads back: the keys in the
    order of the dict literal.  The two pieces of prose, the summary
    sentence and the formatted date range, are taken as they come. *)
Definition result_json (summary date_range_text : string) (r : BaselineResult)
    : json :=
  JObj
    [("summary"%string, JStr summary);
     ("baseline_mean"%string, JNum (baseline_mean r));
     ("std_deviation"%string, JNum (std_deviation r));
     ("coefficient_of_variation"%string, JNum (coefficient_of_variation r));
     ("confidence_intervals"%string,
      JObj
        [("95_percent"%string,
          JObj [("lower"%string, JNum (lower (ci_95_percent r)));
                ("upper"%string, JNum (upper (ci_95_percent r)))]);
         ("99_percent"%string,
          JObj [("lower"%string, JNum (lower (ci_99_percent r)));
                ("upper"%string, JNum (upper (ci_99_percent r)))])]);
     ("seasonal_factors"%string,
      JObj (combine day_names (map JNum (seasonal_factors r))));
     ("sample_size"%string, JInt (Z.of_nat (sample_size r)));
     ("window_days"%string, JInt (window_days r));
     ("date_range"%string, JStr date_range_text);
     ("seasonal_adjustment_enabled"%string,
      JBool (seasonal_adjustment_enabled r))].

(** Steps 3 to 10, the body of the second [try]. *)
Definition compute (lib : builtins) (history : list json) (window_days : Z)
    (enable : bool) : Exc (reply error_text BaselineResult) :=
  valid <- read_entries lib history ;;
  if (List.length valid <? 14)%nat
  then Ok (Error (TooFewValid (List.length valid)))
  else
    r <- baseline_of_window enable window_days (window window_days valid) ;;
    Ok (Result r).

Definition run (lib : builtins) (cost_history : loaded) (window_days : Z)
    (enable_seasonal_adjustment : bool)
    : Exc (reply error_text BaselineResult) :=
  parsed <- parse_history cost_history ;;
  match parsed with
  | inl msg => Ok (Error msg)
  | inr history =>
      if (window_days <? 7)%Z then Ok (Error WindowTooSmall)
      else
        let window_days := capped_window window_days history in
        try_except
          (try_except
             (compute lib history window_days enable_seasonal_adjustment)
             [StatisticsError]
             (fun e => Ok (Error (StatisticsFailure e))))
          [Exception]
          (fun e => Ok (Error (BaselineFailure e)))
  end.

End CalculateBaseline.

(** ** DetectTrendChange *)

Module DetectTrendChange.

Inductive error_text : Type :=
| NotAnArray
| InsufficientHistory (provided : nat)
| InvalidJSON
| LookbackTooSmall
| NegativeSlopeThreshold
| TooFewValid (valid : nat)
| IdenticalDates
| StatisticsFailure (e : exn)
| TrendFailure (e : exn).

Inductive Strength : Type :=
| VeryStrongTrend | StrongTrend | ModerateTrend | WeakTrend | NoClearTrend.

Record TrendResult : Type := {
  trend_direction : Direction;
  slope : R;
  intercept : R;
  r_squared : R;
  r_squared_interpretation : Strength;
  is_significant : bool;
  confidence : R;
  projection_7_day : R;
  projection_30_day : R;
  projection_90_day : R;
  days_analyzed : nat;
  start_date : Z;
  end_date : Z;
  start_cost : R;
  end_cost : R;
  total_change : R;
  min_slope : R;
  lookback_days : Z
}.

Definition interpret_r_squared (r_squared : R) : Strength :=
  if Rleb 0.9 r_squared then VeryStrongTrend
  else if Rleb 0.7 r_squared then StrongTrend
  else if Rleb 0.5 r_squared then ModerateTrend
  else if Rleb 0.3 r_squared then WeakTrend
  else NoClearTrend.

(** Step 1, the first [try]. *)
Definition parse_history (cost_history : loaded) : Exc (error_text + list json) :=
  try_except
    (history <- json_loads cost_history ;;
     match history with
     | JArr items =>
         if (List.length items <? 7)%nat
         then Ok (inl (InsufficientHistory (List.length items)))
         else Ok (inr items)
     | _ => Ok (inl NotAnArray)
     end)
    [JSONDecodeError]
    (fun _ => Ok (inl InvalidJSON)).

(** Step 3: the validated entries, sorted by date; [inl] is the early
    [return] for fewer than 7 of them. *)
Definition data_points (lib : builtins) (history : list json)
    : Exc (error_text + list point) :=
  valid <- read_entries lib history ;;
  if (List.length valid <? 7)%nat
  then Ok (inl (TooFewValid (List.length valid)))
  else Ok (inr (sort_by_date valid)).

(** Step 4 *)
Definition lookback (lookback_days : Z) (points : list point) : list point :=
  let lookback_data := last_n (Z.to_nat lookback_days) points in
  if (List.length lookback_data <? 7)%nat then points else lookback_data.

(** Steps 5 to 11 on the lookback series. *)
Definition analyse (lookback_days : Z) (min_slope_threshold : R)
    (lookback_data : list point) : Exc (reply error_text TrendResult) :=
  let n := List.length lookback_data in
  let y_values := map cost lookback_data in
  fitted <- linear_fit (fun ss_total => negb (Reqb ss_total 0)) y_values ;;
  match fitted with
  | None => Ok (Error IdenticalDates)
  | Some f =>
      let slope := Regression.slope f in
      let r_squared := Regression.r_squared f in
      let projected_7day := slope * 7 in
      let projected_30day := slope * 30 in
      let projected_90day := slope * 90 in
      let is_significant :=
        Rltb 0.5 r_squared
        && Rleb min_slope_threshold (Rabs slope)
        && Rltb 100 (Rabs projected_30day) in
      let r_squared_confidence := r_squared * 70 in
      let sample_size_confidence := Rmin 30 (INR n / 14 * 30) in
      first <- first_item lookback_data ;;
      last <- last_item lookback_data ;;
      Ok (Result
            {| trend_direction := direction_of slope min_slope_threshold;
               slope := round slope 2;
               intercept := round (Regression.intercept f) 2;
               r_squared := round r_squared 3;
               r_squared_interpretation := interpret_r_squared r_squared;
               is_significant := is_significant;
               confidence := round (r_squared_confidence + sample_size_confidence) 1;
               projection_7_day := round projected_7day 2;
               projection_30_day := round projected_30day 2;
               projection_90_day := round projected_90day 2;
               days_analyzed := n;
               start_date := date first;
               end_date := date last;
               start_cost := cost first;
               end_cost := cost last;
               total_change := round (cost last - cost first) 2;
               min_slope := min_slope_threshold;
               lookback_days := lookback_days |})
  end.

(** Steps 3 to 11, the body of the second [try]. *)
Definition compute (lib : builtins) (history : list json) (lookback_days : Z)
    (min_slope_threshold : R) : Exc (reply error_text TrendResult) :=
  points <- data_points lib history ;;
  match points with
  | inl msg => Ok (Error msg)
  | inr sorted =>
      analyse lookback_days min_slope_threshold (lookback lookback_days sorted)
  end.

Definition run (lib : builtins) (cost_history : loaded) (lookback_days : Z)
    (min_slope_threshold : R) : Exc (reply error_text TrendResult) :=
  parsed <- parse_history cost_history ;;
  match parsed with
  | inl msg => Ok (Error msg)
  | inr history =>
      if (lookback_days <? 7)%Z then Ok (Error LookbackTooSmall)
      else if Rltb min_slope_threshold 0 then Ok (Error NegativeSlopeThreshold)
      else
        try_except
          (try_except
             (compute lib history lookback_days min_slope_threshold)
             [StatisticsError]
             (fun e => Ok (Error (StatisticsFailure e))))
          [Exception]
          (fun e => Ok (Error (TrendFailure e)))
  end.

End DetectTrendChange.

(** ** CreateForecast *)

Module CreateForecast.

Inductive error_text : Type :=
| ForecastDaysTooSmall
| ForecastDaysTooLarge
| InvalidConfidenceLevel
| NotAnArray
| InsufficientHistory (provided : nat)
| InvalidJSON
| TooFewValid (valid : nat)
| InsufficientVariance
| ForecastFailure (e : exn).

Inductive Strength : Type := strong | moderate | weak.

Inductive RiskFactor : Type :=
| LowRSquared
| LimitedHistory (days : nat)
| HighVolatility
| RapidTrend.

(** The locals of step 4 to 6. *)
Record History : Type := {
  points : list point;
  mean_cost : R;
  std_dev : R;
  line : fit
}.

(** The locals of one turn of the loop of step 7. *)
Record DayForecast : Type := {
  forecast_date : Z;
  day_offset : Z;
  point_forecast : R;
  interval_width : R;
  lower_bound : R;
  upper_bound : R
}.

(** An item of the [forecasts] list. *)
Record ForecastEntry : Type := {
  entry_date : Z;
  entry_day_offset : Z;
  forecast_cost : R;
  ci_lower : R;
  ci_upper : R
}.

Record ForecastResult : Type := {
  forecast_period : Z * Z;
  total_forecasted_cost : R;
  avg_daily_forecast : R;
  confidence_level : R;
  trend_direction : Direction;
  trend_strength : Strength;
  days_analyzed : nat;
  avg_daily_cost : R;
  std_deviation : R;
  date_range : Z * Z;
  daily_change_rate : R;
  r_squared : R;
  percent_change_vs_historical : R;
  forecasts : list ForecastEntry;
  monthly_30_day_total : R;
  monthly_30_day_range : option (R * R);
  risk_factors : list RiskFactor
}.

Definition valid_confidence_levels : list R := [0.80; 0.90; 0.95; 0.99].

(** [z_scores[confidence_level]] *)
Definition z_scores (confidence_level : R) : Exc R :=
  if Reqb confidence_level 0.80 then Ok 1.28
  else if Reqb confidence_level 0.90 then Ok 1.645
  else if Reqb confidence_level 0.95 then Ok 1.96
  else if Reqb confidence_level 0.99 then Ok 2.576
  else Raise KeyError.

(** Step 2, the first [try]. *)
Definition parse_history (historical_data : loaded)
    : Exc (error_text + list json) :=
  try_except
    (history <- json_loads historical_data ;;
     match history with
     | JArr items =>
         if (List.length items <? 30)%nat
         then Ok (inl (InsufficientHistory (List.length items)))
         else Ok (inr items)
     | _ => Ok (inl NotAnArray)
     end)
    [JSONDecodeError]
    (fun _ => Ok (inl InvalidJSON)).

(** Steps 3 to 6: the validated entries sorted by date, their statistics
    and the fitted line; [inl] is an early [return]. *)
Definition history_of (lib : builtins) (history : list json)
    : Exc (error_text + History) :=
  valid <- read_entries lib history ;;
  if (List.length valid <? 30)%nat
  then Ok (inl (TooFewValid (List.length valid)))
  else
    let data_points := sort_by_date valid in
    let costs := map cost data_points in
    mean_cost <- mean costs ;;
    std_dev <- (if (1 <? List.length costs)%nat then stdev costs else Ok 0) ;;
    fitted <- linear_fit (fun ss_total => Rltb 0 ss_total) costs ;;
    match fitted with
    | None => Ok (inl InsufficientVariance)
    | Some f =>
        Ok (inr {| points := data_points; mean_cost := mean_cost;
                   std_dev := std_dev; line := f |})
    end.

(** Step 7, one turn of the loop. *)
Definition forecast_day (h : History) (z_score : R) (last_date : Z) (day : Z)
    : Exc DayForecast :=
  forecast_date <- add_days last_date day ;;
  let n := Z.of_nat (List.length (points h)) in
  let x_forecast := (n + day - 1)%Z in
  let point_forecast := slope (line h) * IZR x_forecast + intercept (line h) in
  let time_uncertainty_factor := 1 + IZR day / 30 in
  let interval_width := z_score * std_dev h * time_uncertainty_factor in
  let lower_bound := Rmax 0 (point_forecast - interval_width) in
  let upper_bound := point_forecast + interval_width in
  Ok {| forecast_date := forecast_date;
        day_offset := day;
        point_forecast := point_forecast;
        interval_width := interval_width;
        lower_bound := lower_bound;
        upper_bound := upper_bound |}.

Definition entry_of (d : DayForecast) : ForecastEntry :=
  {| entry_date := forecast_date d;
     entry_day_offset := day_offset d;
     forecast_cost := round (point_forecast d) 2;
     ci_lower := round (lower_bound d) 2;
     ci_upper := round (upper_bound d) 2 |}.

(** [range(1, forecast_days + 1)] *)
Definition days (forecast_days : Z) : list Z :=
  map Z.of_nat (seq 1 (Z.to_nat forecast_days)).

(** Step 7: the whole loop. *)
Definition forecast_loop (h : History) (confidence_level : R)
    (forecast_days : Z) : Exc (list DayForecast) :=
  last <- last_item (points h) ;;
  z_score <- z_scores confidence_level ;;
  CalculateBaseline.for_each (forecast_day h z_score (date last))
    (days forecast_days).

Definition strength_of (r_squared : R) : Strength :=
  if Rltb 0.7 r_squared then strong
  else if Rltb 0.4 r_squared then moderate
  else weak.

(** Step 10: the four tests in order; the third divides by the mean. *)
Definition risks (h : History) : Exc (list RiskFactor) :=
  let r1 := if Rltb (Regression.r_squared (line h)) 0.5 then [LowRSquared] else [] in
  let r2 := if (List.length (points h) <? 60)%nat
            then [LimitedHistory (List.length (points h))] else [] in
  cv <- div (std_dev h) (mean_cost h) ;;
  let r3 := if Rltb 0.3 cv then [HighVolatility] else [] in
  let r4 := if Rltb (mean_cost h * 0.05) (Rabs (slope (line h)))
            then [RapidTrend] else [] in
  Ok (r1 ++ r2 ++ r3 ++ r4).

(** Steps 8 to 11. *)
Definition summarise (h : History) (confidence_level : R)
    (daily : list DayForecast) : Exc ForecastResult :=
  let forecasts := map entry_of daily in
  let total_forecasted_cost := sum (map forecast_cost forecasts) in
  avg_daily_forecast <- div total_forecasted_cost (INR (List.length forecasts)) ;;
  let historical_avg_daily := mean_cost h in
  let percent_change :=
    if Rltb 0 historical_avg_daily
    then (avg_daily_forecast - historical_avg_daily) / historical_avg_daily * 100
    else 0 in
  let trend_direction := direction_of (slope (line h)) (mean_cost h * 0.01) in
  let trend_strength := strength_of (Regression.r_squared (line h)) in
  risk_factors <- risks h ;;
  first_forecast <- first_item forecasts ;;
  last_forecast <- last_item forecasts ;;
  first_point <- first_item (points h) ;;
  last_point <- last_item (points h) ;;
  let thirty := (30 <=? List.length forecasts)%nat in
  Ok {| forecast_period := (entry_date first_forecast, entry_date last_forecast);
        total_forecasted_cost := round total_forecasted_cost 2;
        avg_daily_forecast := round avg_daily_forecast 2;
        confidence_level := confidence_level;
        trend_direction := trend_direction;
        trend_strength := trend_strength;
        days_analyzed := List.length (points h);
        avg_daily_cost := round historical_avg_daily 2;
        std_deviation := round (std_dev h) 2;
        date_range := (date first_point, date last_point);
        daily_change_rate := round (slope (line h)) 2;
        r_squared := round (Regression.r_squared (line h)) 3;
        percent_change_vs_historical := round percent_change 1;
        forecasts := firstn 7 forecasts;
        monthly_30_day_total :=
          if thirty
          then round (sum (map forecast_cost (firstn 30 forecasts))) 2
          else total_forecasted_cost;
        monthly_30_day_range :=
          if thirty
          then Some (round (sum (map ci_lower (firstn 30 forecasts))) 2,
                     round (sum (map ci_upper (firstn 30 forecasts))) 2)
          else None;
        risk_factors := risk_factors |}.

(** Steps 3 to 11, the body of the second [try]. *)
Definition compute (lib : builtins) (history : list json) (forecast_days : Z)
    (confidence_level : R) : Exc (reply error_text ForecastResult) :=
  analysed <- history_of lib history ;;
  match analysed with
  | inl msg => Ok (Error msg)
  | inr h =>
      daily <- forecast_loop h confidence_level forecast_days ;;
      r <- summarise h confidence_level daily ;;
      Ok (Result r)
  end.

Definition run (lib : builtins) (historical_data : loaded) (forecast_days : Z)
    (confidence_level : R) : Exc (reply error_text ForecastResult) :=
  if (forecast_days <? 1)%Z then Ok (Error ForecastDaysTooSmall)
  else if (forecast_days >? 90)%Z then Ok (Error ForecastDaysTooLarge)
  else if negb (existsb (Reqb confidence_level) valid_confidence_levels)
  then Ok (Error InvalidConfidenceLevel)
  else
    parsed <- parse_history historical_data ;;
    match parsed with
    | inl msg => Ok (Error msg)
    | inr history =>
        try_except
          (compute lib history forecast_days confidence_level)
          [Exception]
          (fun e => Ok (Error (ForecastFailure e)))
    end.

End CreateForecast.

(** ** Inputs of the worked examples

    The general statements below hold for every pair of string conversions.
    The worked examples fix one: dates are read in the zero-padded form
    [YYYY-MM-DD] and costs written as strings in the form of unsigned decimal
    digits, on which [strptime] and [float] agree with the functions here. *)

Module Examples.

Local Open Scope Z_scope.

Definition digit (c : ascii) : option Z :=
  let n := Z.of_N (N_of_ascii c) in
  if (48 <=? n) && (n <=? 57) then Some (n - 48) else None.

Fixpoint digits (acc : Z) (s : string) : option Z :=
  match s with
  | EmptyString => Some acc
  | String c rest =>
      match digit c with
      | Some d => digits (10 * acc + d) rest
      | None => None
      end
  end.

Definition number (s : string) : option Z :=
  match s with
  | EmptyString => None
  | _ => digits 0 s
  end.

Definition is_leap (y : Z) : bool :=
  (y mod 4 =? 0) && (negb (y mod 100 =? 0) || (y mod 400 =? 0)).

Definition days_in_month (y m : Z) : Z :=
  if m =? 2 then (if is_leap y then 29 else 28)
  else if (m =? 4) || (m =? 6) || (m =? 9) || (m =? 11) then 30
  else 31.

Definition days_before_year (y : Z) : Z :=
  let p := y - 1 in p * 365 + p / 4 - p / 100 + p / 400.

Definition days_before_month (y m : Z) : Z :=
  fold_right Z.add 0
    (map (fun k => days_in_month y (Z.of_nat k)) (seq 1 (Z.to_nat m - 1))).

(** [date(y, m, d).toordinal()] *)
Definition ordinal (y m d : Z) : Z :=
  days_before_year y + days_before_month y m + d.

Definition iso_date (s : string) : option Z :=
  match s with
  | String y1 (String y2 (String y3 (String y4 (String "-"
      (String m1 (String m2 (String "-" (String d1 (String d2 ""))))))))) =>
      match number (String y1 (String y2 (String y3 (String y4 ""))))%string,
            number (String m1 (String m2 ""))%string,
            number (String d1 (String d2 ""))%string with
      | Some y, Some m, Some d =>
          if (1 <=? y) && (1 <=? m) && (m <=? 12) && (1 <=? d)
             && (d <=? days_in_month y m)
          then Some (ordinal y m d) else None
      | _, _, _ => None
      end
  | _ => None
  end.

Definition example_lib : builtins :=
  {| float_of_str := fun s => option_map IZR (number s);
     strptime_ymd := iso_date |}.

Local Open Scope R_scope.

(** [{"date": d, "cost": c}] *)
Definition entry (d : string) (c : R) : json :=
  JObj [("date"%string, JStr d); ("cost"%string, JNum c)].

Definition january_2025 : list string :=
    ["2025-01-01";
     "2025-01-02";
     "2025-01-03";
     "2025-01-04";
     "2025-01-05";
     "2025-01-06";
     "2025-01-07";
     "2025-01-08";
     "2025-01-09";
     "2025-01-10";
     "2025-01-11";
     "2025-01-12";
     "2025-01-13";
     "2025-01-14";
     "2025-01-15";
     "2025-01-16";
     "2025-01-17";
     "2025-01-18";
     "2025-01-19";
     "2025-01-20";
     "2025-01-21";
     "2025-01-22";
     "2025-01-23";
     "2025-01-24";
     "2025-01-25";
     "2025-01-26";
     "2025-01-27";
     "2025-01-28";
     "2025-01-29";
     "2025-01-30"]%string.

(** The ordinals of 2025-01-01 .. 2025-01-30. *)
Definition january_ordinals : list Z := map (fun k => 739252 + Z.of_nat k)%Z (seq 0 30).

(** Thirty days of history at one and the same cost. *)
Definition flat_history (c : R) : loaded :=
  Decoded (JArr (map (fun d => entry d c) january_2025)).

(** What step 3 to 6 of the forecast tool make of such a history: the
    points in date order, their mean, no spread and a level line. *)
Definition flat_points (c : R) : list point :=
  map (fun o => {| date := o; cost := c |}) january_ordinals.

Definition flat (c : R) : CreateForecast.History :=
  {| CreateForecast.points := flat_points c;
     CreateForecast.mean_cost := c;
     CreateForecast.std_dev := 0;
     CreateForecast.line := {| slope := 0; intercept := c; r_squared := 0 |} |}.

(** Fourteen days supplied newest first: 2025-01-14 down to 2025-01-08 at
    100 a day, then 2025-01-07 down to 2025-01-01 at 1 a day. *)
Definition newest_first_entries : list json :=
  map (fun d => entry d 100) (rev (skipn 7 (firstn 14 january_2025)))
  ++ map (fun d => entry d 1) (rev (firstn 7 january_2025)).

Definition newest_first_history : loaded := Decoded (JArr newest_first_entries).

(** The same fourteen entries after validation. *)
Definition newest_first_valid : list point :=
  map (fun o => {| date := o; cost := 100 |})
    (rev (skipn 7 (firstn 14 january_ordinals)))
  ++ map (fun o => {| date := o; cost := 1 |}) (rev (firstn 7 january_ordinals)).

(** Seven entries, the first two for the same day. *)
Definition duplicate_day_history : list json :=
  [entry "2025-01-01" 10; entry "2025-01-01" 20; entry "2025-01-02" 30;
   entry "2025-01-03" 40; entry "2025-01-04" 50; entry "2025-01-05" 60;
   entry "2025-01-06" 70].

(** The same seven entries after validation. *)
Definition duplicate_day_valid : list point :=
  [{| date := 739252; cost := 10 |}; {| date := 739252; cost := 20 |};
   {| date := 739253; cost := 30 |}; {| date := 739254; cost := 40 |};
   {| date := 739255; cost := 50 |}; {| date := 739256; cost := 60 |};
   {| date := 739257; cost := 70 |}].

(** The thirty January entries with a bare number in front of them. *)
Definition scalar_entry_history : list json :=
  JNum 5 :: map (fun d => entry d 1) january_2025.

(** A fortnight whose costs rise by 10 a day from 100, and the same after
    validation. *)
Definition linear_history : list json :=
  map (fun k => entry (nth k january_2025 EmptyString) (100 + 10 * INR k))
    (seq 0 14).

Definition linear_valid : list point :=
  map (fun k => {| date := 739252 + Z.of_nat k; cost := 100 + 10 * INR k |})
    (seq 0 14).

(** Thirty days whose costs rise by 10 a day from 100, and the same after
    validation. *)
Definition linear_month_history : list json :=
  map (fun k => entry (nth k january_2025 EmptyString) (100 + 10 * INR k))
    (seq 0 30).

Definition linear_month_valid : list point :=
  map (fun k => {| date := 739252 + Z.of_nat k; cost := 100 + 10 * INR k |})
    (seq 0 30).

(** Fourteen well-formed days behind an entry whose cost is the integer
    10^400, and a baseline whose mean is that integer. *)
Definition huge_cost_history : list json :=
  JObj [("date"%string, JStr "2025-01-01"); ("cost"%string, JInt (10 ^ 400))]
  :: map (fun d => entry d 1) january_2025.

Definition huge_mean_baseline : loaded :=
  Decoded
    (JObj [("baseline_mean"%string, JInt (10 ^ 400));
           ("std_deviation"%string, JNum 50)]).

(** The baseline of the tool's own test block. *)
Definition sample_baseline : loaded :=
  Decoded
    (JObj
       [("baseline_mean"%string, JNum 1000);
        ("std_deviation"%string, JNum 50);
        ("confidence_intervals"%string,
         JObj [("95_percent"%string,
                JObj [("lower"%string, JNum 900); ("upper"%string, JNum 1100)]);
               ("99_percent"%string,
                JObj [("lower"%string, JNum 850); ("upper"%string, JNum 1150)])])]).

(** A baseline over a series that was zero throughout. *)
Definition zero_baseline : loaded :=
  Decoded
    (JObj [("baseline_mean"%string, JNum 0); ("std_deviation"%string, JNum 0)]).

(** A baseline whose mean is [null]. *)
Definition null_mean_baseline : loaded :=
  Decoded
    (JObj [("baseline_mean"%string, JNull); ("std_deviation"%string, JNum 50)]).

End Examples.

Import Examples.

(** ** The formulas of the specification

    Section 4.3 of the specification, in its own words; the properties below
    compare the tool's flags with them. *)

Module Spec.

(** "deviationPercent = (current - mean)/mean * 100; special case mean == 0:
    deviation is 100 if current > 0 else 0" *)
Definition deviationPercent (current mean : R) : R :=
  if Reqb mean 0 then (if Rltb 0 current then 100 else 0)
  else (current - mean) / mean * 100.

(** "zScore = (current - mean)/stdDeviation; special case stdDeviation == 0:
    0 if current == mean, else +inf" *)
Definition zScore (current mean stdDeviation : R) : ext :=
  if Reqb stdDeviation 0 then (if Reqb current mean then Fin 0 else PInf)
  else Fin ((current - mean) / stdDeviation).

(** Sections 4.1 and 4.2, step 1: the series is sorted ascending by date
    and "the most recent windowDays observations" are selected. *)
Definition recentWindow (windowDays : nat) (valid : list point) : list point :=
  last_n windowDays (sort_by_date valid).

End Spec.

Example iso_date_2025_01_01 : iso_date "2025-01-01" = Some 739252%Z.
Proof. reflexivity. Qed.

Example january_dates : map iso_date january_2025 = map Some january_ordinals.
Proof. vm_compute. reflexivity. Qed.

(** * Properties *)

(** ** Comparisons and rounding *)

Lemma Rltb_true_iff (a b : R) : Rltb a b = true <-> a < b.
Proof. unfold Rltb. destruct (Rlt_dec a b); split; intros; try easy. Qed.

Lemma Rltb_false_iff (a b : R) : Rltb a b = false <-> b <= a.
Proof.
  unfold Rltb. destruct (Rlt_dec a b); split; intros; try easy; lra.
Qed.

Lemma Rleb_true_iff (a b : R) : Rleb a b = true <-> a <= b.
Proof. unfold Rleb. destruct (Rle_dec a b); split; intros; try easy. Qed.

Lemma Rleb_false_iff (a b : R) : Rleb a b = false <-> b < a.
Proof.
  unfold Rleb. destruct (Rle_dec a b); split; intros; try easy; lra.
Qed.

Lemma Reqb_true_iff (a b : R) : Reqb a b = true <-> a = b.
Proof. unfold Reqb. destruct (Req_dec_T a b); split; intros; try easy. Qed.

Lemma Reqb_false_iff (a b : R) : Reqb a b = false <-> a <> b.
Proof. unfold Reqb. destruct (Req_dec_T a b); split; intros; try easy. Qed.

(** Settles every comparison of the goal that linear arithmetic decides. *)
Ltac settle :=
  repeat match goal with
    | |- context [Rltb ?a ?b] =>
        first [ rewrite (proj2 (Rltb_true_iff a b)) by lra
              | rewrite (proj2 (Rltb_false_iff a b)) by lra ]
    | |- context [Rleb ?a ?b] =>
        first [ rewrite (proj2 (Rleb_true_iff a b)) by lra
              | rewrite (proj2 (Rleb_false_iff a b)) by lra ]
    | |- context [Reqb ?a ?b] =>
        first [ rewrite (proj2 (Reqb_true_iff a b)) by lra
              | rewrite (proj2 (Reqb_false_iff a b)) by lra ]
    end.

Lemma Int_part_bounds (x : R) : IZR (Int_part x) <= x < IZR (Int_part x) + 1.
Proof. destruct (base_Int_part x). lra. Qed.

Lemma Int_part_IZR (z : Z) : Int_part (IZR z) = z.
Proof. symmetry. apply Int_part_spec. lra. Qed.

Lemma Int_part_mono (x y : R) : x <= y -> (Int_part x <= Int_part y)%Z.
Proof.
  intros Hxy.
  destruct (Z_le_gt_dec (Int_part x) (Int_part y)) as [H | H]; [exact H |].
  exfalso.
  assert (Hz : (Int_part y + 1 <= Int_part x)%Z) by lia.
  apply IZR_le in Hz. rewrite plus_IZR in Hz.
  pose proof (Int_part_bounds x). pose proof (Int_part_bounds y). lra.
Qed.

Lemma round_half_even_range (x : R) :
  (Int_part x <= round_half_even x <= Int_part x + 1)%Z.
Proof.
  unfold round_half_even.
  destruct (Rltb _ _); [lia |].
  destruct (Rltb _ _); [lia |].
  destruct (Z.even _); lia.
Qed.

Lemma round_half_even_mono (x y : R) :
  x <= y -> (round_half_even x <= round_half_even y)%Z.
Proof.
  intros Hxy.
  pose proof (Int_part_mono x y Hxy) as Hf.
  destruct (Z.eq_dec (Int_part x) (Int_part y)) as [E | N].
  - unfold round_half_even. rewrite E.
    destruct (Rltb (x - _) _) eqn:A.
    + destruct (Rltb (y - _) _); [lia |].
      destruct (Rltb _ (y - _)); [lia |]. destruct (Z.even _); lia.
    + apply Rltb_false_iff in A.
      assert (B : Rltb (y - IZR (Int_part y)) (1 / 2) = false)
        by (apply Rltb_false_iff; lra).
      rewrite B.
      destruct (Rltb (1 / 2) (x - _)) eqn:C.
      * apply Rltb_true_iff in C.
        assert (D : Rltb (1 / 2) (y - IZR (Int_part y)) = true)
          by (apply Rltb_true_iff; lra).
        rewrite D. lia.
      * destruct (Rltb _ (y - _)); destruct (Z.even _); lia.
  - pose proof (round_half_even_range x). pose proof (round_half_even_range y).
    lia.
Qed.

Lemma round_half_even_IZR (z : Z) : round_half_even (IZR z) = z.
Proof.
  unfold round_half_even. rewrite Int_part_IZR.
  replace (IZR z - IZR z) with 0 by ring. settle. reflexivity.
Qed.

Lemma pow10_pos (n : nat) : 0 < 10 ^ n.
Proof. apply pow_lt. lra. Qed.

(** Rounding never reverses the order of two values. *)
Lemma round_mono (x y : R) (n : nat) : x <= y -> round x n <= round y n.
Proof.
  intros Hxy. unfold round. pose proof (pow10_pos n) as Hp.
  apply Rmult_le_compat_r; [left; apply Rinv_0_lt_compat; exact Hp |].
  apply IZR_le, round_half_even_mono.
  apply Rmult_le_compat_r; lra.
Qed.

(** A whole number is its own rounding. *)
Lemma round_IZR (z : Z) (n : nat) : round (IZR z) n = IZR z.
Proof.
  unfold round. pose proof (pow10_pos n) as Hp.
  replace (IZR z * 10 ^ n) with (IZR (z * 10 ^ Z.of_nat n)).
  - rewrite round_half_even_IZR, mult_IZR.
    rewrite <- pow_IZR. field. lra.
  - rewrite mult_IZR, <- pow_IZR. reflexivity.
Qed.

(** ** DetectSpike *)

Section SpikeFacts.
Import DetectSpike.

Lemma spike_run_result (lib : builtins) (v : R) (b : loaded) (tp zt : R)
    (r : SpikeResult) :
  run lib v b tp zt = Ok (Result r) ->
  exists bd m s,
    parse_baseline lib b = Ok (inr (bd, m, s)) /\
    0 <= v /\ 0 < tp /\ 0 < zt /\
    detect bd v m s tp zt = Ok r.
Proof.
  unfold run. destruct (Rltb v 0) eqn:Hv; [discriminate |].
  apply Rltb_false_iff in Hv.
  destruct (parse_baseline lib b) as [[msg | [[bd m] s]] | e]; cbn.
  - discriminate.
  - destruct (Rleb tp 0) eqn:Htp; [discriminate |].
    destruct (Rleb zt 0) eqn:Hzt; [discriminate |].
    apply Rleb_false_iff in Htp, Hzt.
    destruct (detect bd v m s tp zt) as [r' | e] eqn:Hd; cbn; [| discriminate].
    intros H. injection H as <-. exists bd, m, s. auto.
  - destruct e; cbn; discriminate.
Qed.

Lemma detect_fields (bd : json) (v m s tp zt : R) (r : SpikeResult) :
  detect bd v m s tp zt = Ok r ->
  is_spike r = snd (percent_deviation v m tp) && ext_gtb (zscore v m s) zt /\
  percent_exceeded r = snd (percent_deviation v m tp) /\
  z_score_exceeded r = ext_gtb (zscore v m s) zt /\
  DetectSpike.baseline_mean r = m /\
  confidence r = confidence_of (zscore v m s) (fst (percent_deviation v m tp)) tp zt.
Proof.
  unfold detect. destruct (percent_deviation v m tp) as [d f].
  destruct (within_interval bd "95_percent" v); cbn; [| discriminate].
  destruct (within_interval bd "99_percent" v); cbn; [| discriminate].
  intros H. injection H as <-. cbn. auto.
Qed.

Lemma percent_deviation_spec (v m tp : R) :
  fst (percent_deviation v m tp) = Spec.deviationPercent v m.
Proof.
  unfold percent_deviation, Spec.deviationPercent.
  destruct (Reqb m 0); [destruct (Rltb 0 v) |]; reflexivity.
Qed.

Lemma zscore_spec (v m s : R) : zscore v m s = Spec.zScore v m s.
Proof. reflexivity. Qed.

Lemma spike_flag_mono (m s tp zt v1 v2 : R) :
  0 < tp -> 0 < zt -> 0 <= v1 <= v2 ->
  snd (percent_deviation v1 m tp) && ext_gtb (zscore v1 m s) zt = true ->
  snd (percent_deviation v2 m tp) && ext_gtb (zscore v2 m s) zt = true.
Proof.
  intros Htp Hzt Hv H. apply andb_true_iff in H as [Hp Hz].
  apply andb_true_iff.
  unfold percent_deviation, zscore in *.
  destruct (Reqb m 0) eqn:Hm.
  - apply Reqb_true_iff in Hm. subst m.
    destruct (Rltb 0 v1) eqn:H1; [| discriminate].
    apply Rltb_true_iff in H1.
    assert (H2 : Rltb 0 v2 = true) by (apply Rltb_true_iff; lra).
    rewrite H2. split; [reflexivity |].
    destruct (Reqb s 0) eqn:Hs.
    + assert (E : Reqb v2 0 = false) by (apply Reqb_false_iff; lra).
      rewrite E. reflexivity.
    + apply Reqb_false_iff in Hs.
      cbn in *; apply Rltb_true_iff in Hz; apply Rltb_true_iff.
      all: replace ((v1 - 0) / s) with (v1 / s) in Hz by (field; exact Hs).
      all: replace ((v2 - 0) / s) with (v2 / s) by (field; exact Hs).
      all: destruct (Rlt_dec 0 s) as [Ps | Ns].
      all: try (assert (0 < / s) by (apply Rinv_0_lt_compat; lra); unfold Rdiv in *; nra).
      all: assert (0 < / - s) by (apply Rinv_0_lt_compat; lra).
      all: assert (/ - s = - / s) by (field; exact Hs).
      all: unfold Rdiv in *; nra.
  - apply Reqb_false_iff in Hm. cbn in Hp |- *.
    apply Rltb_true_iff in Hp.
    assert (Pm : 0 < m).
    { destruct (Rlt_dec 0 m) as [P | N]; [exact P | exfalso].
      assert (0 < / - m) by (apply Rinv_0_lt_compat; lra).
      assert (/ - m = - / m) by (field; exact Hm).
      unfold Rdiv in Hp. nra. }
    assert (Im : 0 < / m) by (apply Rinv_0_lt_compat; exact Pm).
    assert (D1 : tp * m < (v1 - m) * 100).
    { unfold Rdiv in Hp.
      replace ((v1 - m) * 100) with ((v1 - m) * / m * 100 * m) by (field; lra).
      nra. }
    split.
    + apply Rltb_true_iff. unfold Rdiv.
      replace tp with (tp * m * / m) by (field; lra).
      replace ((v2 - m) * / m * 100) with ((v2 - m) * 100 * / m) by ring.
      apply Rmult_lt_compat_r; [exact Im | nra].
    + assert (V1 : m < v1) by nra.
      destruct (Reqb s 0) eqn:Hs.
      * assert (E : Reqb v2 m = false) by (apply Reqb_false_iff; lra).
        rewrite E. reflexivity.
      * apply Reqb_false_iff in Hs. cbn in *.
        apply Rltb_true_iff in Hz. apply Rltb_true_iff.
        destruct (Rlt_dec 0 s) as [Ps | Ns].
        -- assert (0 < / s) by (apply Rinv_0_lt_compat; lra).
           unfold Rdiv in *. nra.
        -- exfalso.
           assert (0 < / - s) by (apply Rinv_0_lt_compat; lra).
           assert (/ - s = - / s) by (field; exact Hs).
           unfold Rdiv in *. nra.
Qed.

(** Evaluates [run] on one of the example baselines. *)
Ltac run_spike :=
  unfold run, sample_baseline, zero_baseline; settle; cbn; settle; cbn;
  unfold detect, within_interval; cbn;
  repeat match goal with
    | |- context [percent_deviation ?v ?m ?t] => destruct (percent_deviation v m t)
    | |- context [if Rleb ?a ?b then _ else _] => destruct (Rleb a b); cbn
    end;
  eexists; reflexivity.

Lemma run_on_sample_baseline (v tp zt : R) :
  0 <= v -> 0 < tp -> 0 < zt ->
  exists r, run example_lib v sample_baseline tp zt = Ok (Result r).
Proof. intros. run_spike. Qed.

Lemma run_on_zero_baseline (v tp zt : R) :
  0 <= v -> 0 < tp -> 0 < zt ->
  exists r, run example_lib v zero_baseline tp zt = Ok (Result r).
Proof. intros. run_spike. Qed.

(** C7: for a fixed baseline and fixed thresholds, whenever the tool
    answers both [v1] and [v2] with a result and [0 <= v1 <= v2], a spike at
    [v1] is a spike at [v2]. *)
Theorem is_spike_monotone (lib : builtins) (b : loaded) (tp zt v1 v2 : R)
    (r1 r2 : SpikeResult) :
  0 <= v1 <= v2 ->
  run lib v1 b tp zt = Ok (Result r1) ->
  run lib v2 b tp zt = Ok (Result r2) ->
  is_spike r1 = true -> is_spike r2 = true.
Proof.
  intros Hv H1 H2 S1.
  apply spike_run_result in H1 as (bd1 & m1 & s1 & P1 & _ & Htp & Hzt & D1).
  apply spike_run_result in H2 as (bd2 & m2 & s2 & P2 & _ & _ & _ & D2).
  rewrite P1 in P2. injection P2 as <- <- <-.
  apply detect_fields in D1 as (E1 & _). apply detect_fields in D2 as (E2 & _).
  rewrite E2. rewrite E1 in S1.
  exact (spike_flag_mono m1 s1 tp zt v1 v2 Htp Hzt Hv S1).
Qed.

Lemma spike_at_1400 :
  exists r, run example_lib 1400 sample_baseline 20 2 = Ok (Result r) /\ is_spike r = true.
Proof.
  destruct (run_on_sample_baseline 1400 20 2) as [r Hr]; try lra.
  exists r. split; [exact Hr |].
  apply spike_run_result in Hr as (bd & m & s & P & _ & _ & _ & D).
  injection P as <- <- <-.
  apply detect_fields in D as (E & _). rewrite E.
  unfold percent_deviation, zscore. settle. cbn. settle. reflexivity.
Qed.

Lemma is_spike_monotone_witness :
  exists r1 r2,
    run example_lib 1400 sample_baseline 20 2 = Ok (Result r1) /\
    run example_lib 1500 sample_baseline 20 2 = Ok (Result r2) /\
    is_spike r1 = true /\ is_spike r2 = true.
Proof.
  destruct spike_at_1400 as (r1 & H1 & S1).
  destruct (run_on_sample_baseline 1500 20 2) as [r2 H2]; try lra.
  exists r1, r2. repeat split; try assumption.
  apply (is_spike_monotone example_lib sample_baseline 20 2 1400 1500 r1 r2);
    try assumption.
  lra.
Defined.

(** C2, as stated, fails: on a baseline of mean 0 the tool reports a spike
    at 50 under a threshold of 150 percent, although the deviation of the
    specification is 100, which does not exceed 150. *)
Lemma spike_on_zero_baseline :
  exists r,
    run example_lib 50 zero_baseline 150 2 = Ok (Result r) /\
    is_spike r = true /\
    ~ (Spec.deviationPercent 50 0 > 150 /\ ext_gtb (Spec.zScore 50 0 0) 2 = true).
Proof.
  destruct (run_on_zero_baseline 50 150 2) as [r Hr]; try lra.
  exists r. split; [exact Hr |].
  apply spike_run_result in Hr as (bd & m & s & P & _ & _ & _ & D).
  injection P as <- <- <-.
  apply detect_fields in D as (E & _). split.
  - rewrite E. unfold percent_deviation, zscore. settle. reflexivity.
  - unfold Spec.deviationPercent. settle. lra.
Qed.

(** C2, amended: [is_spike] holds exactly when the Z-score exceeds its
    threshold and either the mean is not 0 and the percentage deviation
    exceeds [threshold_percent], or the mean is 0 and the current value is
    positive (whatever [threshold_percent] is). *)
Theorem is_spike_iff (lib : builtins) (v : R) (b : loaded) (tp zt : R)
    (r : SpikeResult) :
  run lib v b tp zt = Ok (Result r) ->
  exists bd m s,
    parse_baseline lib b = Ok (inr (bd, m, s)) /\
    (is_spike r = true <->
     ((m = 0 /\ 0 < v) \/ (m <> 0 /\ Spec.deviationPercent v m > tp)) /\
     ext_gtb (Spec.zScore v m s) zt = true).
Proof.
  intros H. apply spike_run_result in H as (bd & m & s & P & _ & _ & _ & D).
  exists bd, m, s. split; [exact P |].
  apply detect_fields in D as (E & _). rewrite E, andb_true_iff.
  rewrite zscore_spec.
  unfold percent_deviation, Spec.deviationPercent.
  destruct (Reqb m 0) eqn:Hm.
  - apply Reqb_true_iff in Hm.
    destruct (Rltb 0 v) eqn:Hv; cbn.
    + apply Rltb_true_iff in Hv. intuition.
    + apply Rltb_false_iff in Hv. intuition; try discriminate; lra.
  - apply Reqb_false_iff in Hm. cbn. rewrite Rltb_true_iff.
    intuition.
Qed.

Lemma is_spike_iff_witness :
  exists r bd m s,
    run example_lib 1400 sample_baseline 20 2 = Ok (Result r) /\
    parse_baseline example_lib sample_baseline = Ok (inr (bd, m, s)) /\
    (is_spike r = true <->
     ((m = 0 /\ 0 < 1400) \/ (m <> 0 /\ Spec.deviationPercent 1400 m > 20)) /\
     ext_gtb (Spec.zScore 1400 m s) 2 = true).
Proof.
  destruct (run_on_sample_baseline 1400 20 2) as [r Hr]; try lra.
  destruct (is_spike_iff example_lib 1400 sample_baseline 20 2 r Hr)
    as (bd & m & s & P & I).
  exists r, bd, m, s. auto.
Defined.

(** C6: on the baseline of the tool's own test block (mean 1000, standard
    deviation 50) and the default thresholds, a current value of 0 is
    answered with confidence -75, below the range 0..100 that step 8
    announces. *)
Theorem confidence_below_zero :
  exists r,
    run example_lib 0 sample_baseline 20 2 = Ok (Result r) /\
    confidence r = -75.
Proof.
  destruct (run_on_sample_baseline 0 20 2) as [r Hr]; try lra.
  exists r. split; [exact Hr |].
  apply spike_run_result in Hr as (bd & m & s & P & _ & _ & _ & D).
  injection P as <- <- <-.
  apply detect_fields in D as (_ & _ & _ & _ & C). rewrite C.
  unfold confidence_of, percent_deviation, zscore, z_score_confidence,
    threshold_confidence. settle. cbn.
  replace (Rabs ((0 - 1000) / 50)) with 20.
  2:{ rewrite Rabs_left; lra. }
  rewrite (Rmin_left 100) by lra. rewrite (Rmin_right 100) by lra.
  replace ((100 + (0 - 1000) / 1000 * 100 / 20 * 50) / 2) with (IZR (-75)) by lra.
  apply round_IZR.
Qed.

(** C5: on a baseline whose mean is [null], [float(None)] raises
    [TypeError]; the handlers of the first [try] name [JSONDecodeError],
    [ValueError] and [KeyError] only, and the exception leaves [run]. *)
Theorem type_error_escapes (lib : builtins) :
  run lib 1 null_mean_baseline 20 2 = Raise TypeError.
Proof. unfold run. settle. reflexivity. Qed.

(** A baseline that decodes to a number is not caught either: the
    membership test of step 2 raises [TypeError]. *)
Lemma type_error_on_scalar_baseline (lib : builtins) (x : R) :
  run lib 1 (Decoded (JNum x)) 20 2 = Raise TypeError.
Proof. unfold run. settle. reflexivity. Qed.

End SpikeFacts.

(** ** Sums and sample statistics *)

Lemma fold_left_Rplus_acc (l : list R) (a : R) :
  fold_left Rplus l a = a + fold_left Rplus l 0.
Proof.
  revert a. induction l as [| x l IH]; intros a; cbn.
  - ring.
  - rewrite (IH (a + x)), (IH (0 + x)). ring.
Qed.

Lemma sum_nil : sum [] = 0.
Proof. reflexivity. Qed.

Lemma sum_cons (x : R) (l : list R) : sum (x :: l) = x + sum l.
Proof. unfold sum. cbn. rewrite fold_left_Rplus_acc. ring. Qed.

Lemma sum_app (l1 l2 : list R) : sum (l1 ++ l2) = sum l1 + sum l2.
Proof.
  induction l1 as [| x l1 IH]; cbn [app].
  - rewrite sum_nil. ring.
  - rewrite !sum_cons, IH. ring.
Qed.

Lemma sum_nonneg (l : list R) : Forall (fun x => 0 <= x) l -> 0 <= sum l.
Proof.
  induction 1 as [| x l Hx _ IH].
  - rewrite sum_nil. lra.
  - rewrite sum_cons. lra.
Qed.

Lemma sum_map_zero {A : Type} (f : A -> R) (l : list A) :
  (forall a, In a l -> f a = 0) -> sum (map f l) = 0.
Proof.
  induction l as [| a l IH]; intros H; cbn [map].
  - apply sum_nil.
  - rewrite sum_cons, (H a) by (left; reflexivity).
    rewrite IH by (intros b Hb; apply H; right; exact Hb). ring.
Qed.

Lemma sum_map_const {A : Type} (c : R) (l : list A) :
  sum (map (fun _ => c) l) = INR (List.length l) * c.
Proof.
  induction l as [| a l IH]; cbn [map List.length].
  - rewrite sum_nil. cbn. ring.
  - rewrite sum_cons, IH, S_INR. ring.
Qed.

Lemma sum_squares_nonneg {A : Type} (f : A -> R) (l : list A) :
  0 <= sum (map (fun a => f a * f a) l).
Proof.
  apply sum_nonneg, Forall_forall. intros x Hx.
  apply in_map_iff in Hx as (a & <- & _). nra.
Qed.

Lemma mean_ok (l : list R) :
  l <> [] -> mean l = Ok (sum l / INR (List.length l)).
Proof. destruct l; [congruence | reflexivity]. Qed.

Lemma stdev_ok (l : list R) :
  (2 <= List.length l)%nat ->
  exists s, stdev l = Ok s /\ 0 <= s.
Proof.
  intros H. destruct l as [| x [| y l]]; cbn in H; try lia.
  cbn [stdev]. eexists. split; [reflexivity | apply sqrt_pos].
Qed.

Lemma stdev_nonneg (l : list R) (s : R) : stdev l = Ok s -> 0 <= s.
Proof.
  destruct l as [| x [| y l]]; cbn [stdev]; try discriminate.
  intros H. injection H as <-. apply sqrt_pos.
Qed.

(** A series of one and the same cost has that cost as its mean and no
    spread. *)
Lemma mean_const {A : Type} (c : R) (l : list A) :
  l <> [] -> mean (map (fun _ => c) l) = Ok c.
Proof.
  intros H. rewrite mean_ok by (destruct l; [congruence | discriminate]).
  rewrite sum_map_const, length_map. f_equal. field.
  destruct l; [congruence |]. cbn [List.length]. rewrite S_INR.
  pose proof (pos_INR (List.length l)). lra.
Qed.

Lemma stdev_eq (l : list R) :
  (2 <= List.length l)%nat ->
  stdev l =
  Ok (sqrt (sum (map (fun x => (x - sum l / INR (List.length l))
                              * (x - sum l / INR (List.length l))) l)
            / (INR (List.length l) - 1))).
Proof.
  intros H. destruct l as [| x [| y l]]; cbn in H; try lia. reflexivity.
Qed.

Lemma stdev_const {A : Type} (c : R) (l : list A) :
  (2 <= List.length l)%nat -> stdev (map (fun _ => c) l) = Ok 0.
Proof.
  intros H. rewrite stdev_eq by (rewrite length_map; exact H).
  rewrite sum_map_const, length_map.
  replace (INR (List.length l) * c / INR (List.length l)) with c
    by (field; apply not_0_INR; lia).
  rewrite map_map, sum_map_zero by (intros; ring).
  unfold Rdiv. rewrite Rmult_0_l, sqrt_0. reflexivity.
Qed.

(** ** The validation loop and the sort *)

Lemma read_entry_entry (lib : builtins) (d : string) (c : R) (o : Z) :
  strptime_ymd lib d = Some o ->
  read_entry lib (entry d c) = Ok (Some {| date := o; cost := c |}).
Proof. intros H. unfold read_entry, entry. cbn. rewrite H. reflexivity. Qed.

Lemma read_entries_cons (lib : builtins) (e : json) (rest : list json)
    (p : point) (ps : list point) :
  read_entry lib e = Ok (Some p) ->
  read_entries lib rest = Ok ps ->
  read_entries lib (e :: rest) = Ok (p :: ps).
Proof. intros H1 H2. cbn. rewrite H1. cbn. rewrite H2. reflexivity. Qed.

Lemma read_entries_app (lib : builtins) (a b : list json) (pa pb : list point) :
  read_entries lib a = Ok pa ->
  read_entries lib b = Ok pb ->
  read_entries lib (a ++ b) = Ok (pa ++ pb).
Proof.
  revert pa. induction a as [| e a IH]; intros pa Ha Hb; cbn in *.
  - injection Ha as <-. exact Hb.
  - destruct (read_entry lib e) as [p | x]; cbn in *; [| discriminate].
    destruct (read_entries lib a) as [ps | x]; cbn in *; [| discriminate].
    rewrite (IH ps eq_refl Hb). cbn. injection Ha as <-.
    destruct p; reflexivity.
Qed.

Lemma read_entries_map (lib : builtins) (c : R) (ds : list string) (os : list Z) :
  map (strptime_ymd lib) ds = map Some os ->
  read_entries lib (map (fun d => entry d c) ds)
  = Ok (map (fun o => {| date := o; cost := c |}) os).
Proof.
  revert os. induction ds as [| d ds IH]; intros [| o os] H; cbn in H;
    try discriminate.
  - reflexivity.
  - injection H as Hd Hds. cbn [map].
    apply read_entries_cons; [apply read_entry_entry; exact Hd | apply IH; exact Hds].
Qed.

Lemma read_entries_indexed (lib : builtins) (d : nat -> string) (o : nat -> Z)
    (c : nat -> R) (ks : list nat) :
  map (fun k => strptime_ymd lib (d k)) ks = map (fun k => Some (o k)) ks ->
  read_entries lib (map (fun k => entry (d k) (c k)) ks)
  = Ok (map (fun k => {| date := o k; cost := c k |}) ks).
Proof.
  induction ks as [| k ks IH]; intros H; cbn [map] in *; [reflexivity |].
  injection H as Hk Hks.
  apply read_entries_cons; [apply read_entry_entry; exact Hk | apply IH; exact Hks].
Qed.

(** The loop keeps no more entries than it is given. *)
Lemma read_entries_length (lib : builtins) (history : list json) (ps : list point) :
  read_entries lib history = Ok ps -> (List.length ps <= List.length history)%nat.
Proof.
  revert ps. induction history as [| e h IH]; intros ps H; cbn in H.
  - injection H as <-. cbn. lia.
  - destruct (read_entry lib e) as [p | x]; cbn in H; [| discriminate].
    destruct (read_entries lib h) as [qs | x]; cbn in H; [| discriminate].
    specialize (IH qs eq_refl). injection H as <-.
    destruct p; cbn; lia.
Qed.

Lemma insert_by_date_perm (p : point) (l : list point) :
  Permutation (p :: l) (insert_by_date p l).
Proof.
  induction l as [| q l IH]; cbn.
  - apply Permutation_refl.
  - destruct (date p <=? date q)%Z.
    + apply Permutation_refl.
    + eapply perm_trans; [apply perm_swap |]. apply perm_skip, IH.
Qed.

Lemma sort_by_date_perm (l : list point) : Permutation l (sort_by_date l).
Proof.
  induction l as [| p l IH]; cbn.
  - apply perm_nil.
  - eapply perm_trans; [apply perm_skip, IH | apply insert_by_date_perm].
Qed.

Lemma insert_by_date_sorted (p : point) (l : list point) :
  StronglySorted by_date l -> StronglySorted by_date (insert_by_date p l).
Proof.
  induction 1 as [| q l Hl IH Hq]; cbn.
  - constructor; constructor.
  - destruct (date p <=? date q)%Z eqn:E.
    + apply Z.leb_le in E. constructor.
      * constructor; assumption.
      * constructor; [exact E |].
        eapply Forall_impl; [| exact Hq].
        intros r Hr. unfold by_date in *. lia.
    + apply Z.leb_gt in E. constructor; [exact IH |].
      apply Forall_forall. intros r Hr.
      apply (Permutation_in _ (Permutation_sym (insert_by_date_perm p l))) in Hr.
      destruct Hr as [<- | Hr].
      * unfold by_date. lia.
      * rewrite Forall_forall in Hq. apply Hq, Hr.
Qed.

Lemma sort_by_date_sorted (l : list point) : StronglySorted by_date (sort_by_date l).
Proof.
  induction l as [| p l IH]; cbn.
  - constructor.
  - apply insert_by_date_sorted, IH.
Qed.

Lemma insert_by_date_stable (d : Z) (p : point) (l : list point) :
  filter (on_day d) (insert_by_date p l) = filter (on_day d) (p :: l).
Proof.
  induction l as [| q l IH]; cbn [insert_by_date].
  - reflexivity.
  - destruct (date p <=? date q)%Z eqn:E; [reflexivity |].
    apply Z.leb_gt in E.
    cbn [filter] in *. rewrite IH. unfold on_day.
    destruct (date p =? d)%Z eqn:Ep; destruct (date q =? d)%Z eqn:Eq;
      try reflexivity.
    apply Z.eqb_eq in Ep, Eq. lia.
Qed.

(** The sort keeps the entries of one date in the order they were given. *)
Lemma sort_by_date_stable (d : Z) (l : list point) :
  filter (on_day d) (sort_by_date l) = filter (on_day d) l.
Proof.
  induction l as [| p l IH]; cbn [sort_by_date fold_right].
  - reflexivity.
  - change (fold_right insert_by_date [] l) with (sort_by_date l).
    rewrite insert_by_date_stable. cbn [filter]. rewrite IH. reflexivity.
Qed.

Lemma sort_by_date_length (l : list point) :
  List.length (sort_by_date l) = List.length l.
Proof. symmetry. apply Permutation_length, sort_by_date_perm. Qed.

(** A series that is in date order already is left as it is. *)
Lemma sort_by_date_ascending (l : list point) :
  ascending (map date l) = true -> sort_by_date l = l.
Proof.
  induction l as [| p l IH]; intros H; [reflexivity |].
  cbn [sort_by_date fold_right].
  change (fold_right insert_by_date [] l) with (sort_by_date l).
  destruct l as [| q l]; [reflexivity |].
  cbn [map ascending] in H. apply andb_true_iff in H as [Hpq Hrest].
  rewrite (IH Hrest). cbn [insert_by_date]. rewrite Hpq. reflexivity.
Qed.

(** ** Loops *)

Lemma for_each_total {A B : Type} (f : A -> Exc B) (l : list A) :
  (forall a, In a l -> exists b, f a = Ok b) ->
  exists bs, CalculateBaseline.for_each f l = Ok bs.
Proof.
  induction l as [| a l IH]; intros H; cbn.
  - eexists; reflexivity.
  - destruct (H a (or_introl eq_refl)) as [b Hb]. rewrite Hb. cbn.
    destruct IH as [bs Hbs]; [intros x Hx; apply H; right; exact Hx |].
    rewrite Hbs. cbn. eexists; reflexivity.
Qed.

Lemma for_each_In {A B : Type} (f : A -> Exc B) (l : list A) (bs : list B) (b : B) :
  CalculateBaseline.for_each f l = Ok bs -> In b bs ->
  exists a, In a l /\ f a = Ok b.
Proof.
  revert bs. induction l as [| a l IH]; intros bs H Hb; cbn in H.
  - injection H as <-. destruct Hb.
  - destruct (f a) as [b0 | e] eqn:Ha; cbn in H; [| discriminate].
    destruct (CalculateBaseline.for_each f l) as [bs0 | e]; cbn in H; [| discriminate].
    injection H as <-. destruct Hb as [<- | Hb].
    + exists a. split; [left; reflexivity | exact Ha].
    + destruct (IH bs0 eq_refl Hb) as (x & Hx & Hfx).
      exists x. split; [right; exact Hx | exact Hfx].
Qed.

Lemma for_each_nth {A B : Type} (f : A -> Exc B) (l : list A) (bs : list B)
    (k : nat) (a : A) :
  CalculateBaseline.for_each f l = Ok bs -> nth_error l k = Some a ->
  exists b, f a = Ok b /\ nth_error bs k = Some b.
Proof.
  revert bs k. induction l as [| x l IH]; intros bs k H Hk; cbn in H.
  - destruct k; discriminate.
  - destruct (f x) as [b0 | e] eqn:Hx; cbn in H; [| discriminate].
    destruct (CalculateBaseline.for_each f l) as [bs0 | e]; cbn in H; [| discriminate].
    injection H as <-. destruct k as [| k]; cbn in Hk |- *.
    + injection Hk as <-. exists b0. auto.
    + apply (IH bs0 k eq_refl Hk).
Qed.

Lemma for_each_length {A B : Type} (f : A -> Exc B) (l : list A) (bs : list B) :
  CalculateBaseline.for_each f l = Ok bs -> List.length bs = List.length l.
Proof.
  revert bs. induction l as [| x l IH]; intros bs H; cbn in H.
  - injection H as <-. reflexivity.
  - destruct (f x) as [b0 | e]; cbn in H; [| discriminate].
    destruct (CalculateBaseline.for_each f l) as [bs0 | e]; cbn in H; [| discriminate].
    injection H as <-. cbn. rewrite (IH bs0 eq_refl). reflexivity.
Qed.

Lemma first_item_ok {A : Type} (l : list A) :
  l <> [] -> exists a, first_item l = Ok a.
Proof. destruct l as [| a l]; [congruence |]. intros _. exists a. reflexivity. Qed.

Lemma last_item_ok {A : Type} (l : list A) :
  l <> [] -> exists a, last_item l = Ok a.
Proof.
  intros H. unfold last_item. destruct (rev l) as [| a r] eqn:E.
  - apply (f_equal (@rev A)) in E. rewrite rev_involutive in E. cbn in E.
    congruence.
  - exists a. reflexivity.
Qed.

(** ** The least-squares fit *)

Lemma x_values_length (n : nat) : List.length (x_values n) = n.
Proof. unfold x_values. rewrite length_map, length_seq. reflexivity. Qed.

(** With two positions or more, the positions are not all equal: the
    [denominator == 0] exit of the fit is never taken. *)
Lemma denominator_pos (n : nat) (mean_x : R) :
  (2 <= n)%nat -> 0 < sum (map (fun x => (x - mean_x) ^ 2) (x_values n)).
Proof.
  intros H. destruct n as [| [| k]]; try lia.
  unfold x_values. cbn [seq map]. rewrite !sum_cons.
  assert (0 <= sum (map (fun x => (x - mean_x) ^ 2) (map INR (seq 2 k)))).
  { apply sum_nonneg, Forall_forall. intros x Hx.
    apply in_map_iff in Hx as (a & <- & _). apply pow2_ge_0. }
  cbn [INR]. nra.
Qed.

Lemma linear_fit_total (has_spread : R -> bool) (ys : list R) :
  (2 <= List.length ys)%nat -> exists f, linear_fit has_spread ys = Ok (Some f).
Proof.
  intros H. unfold linear_fit.
  rewrite (mean_ok (x_values _))
    by (intros E; apply (f_equal (@List.length R)) in E;
        rewrite x_values_length in E; cbn in E; lia).
  rewrite (mean_ok ys) by (destruct ys; [cbn in H; lia | discriminate]).
  cbn [bind].
  pose proof (denominator_pos (List.length ys)
                (sum (x_values (List.length ys))
                 / INR (List.length (x_values (List.length ys)))) H) as D.
  rewrite (proj2 (Reqb_false_iff _ 0)) by lra.
  eexists. reflexivity.
Qed.

(** The line fitted to a series of one and the same cost is level. *)
Lemma linear_fit_const {A : Type} (has_spread : R -> bool) (c : R) (l : list A) :
  (2 <= List.length l)%nat -> has_spread 0 = false ->
  linear_fit has_spread (map (fun _ => c) l)
  = Ok (Some {| slope := 0; intercept := c; r_squared := 0 |}).
Proof.
  intros H Hs. unfold linear_fit. rewrite length_map.
  rewrite (mean_ok (x_values _))
    by (intros E; apply (f_equal (@List.length R)) in E;
        rewrite x_values_length in E; cbn in E; lia).
  rewrite mean_const by (destruct l; [cbn in H; lia | discriminate]).
  cbn [bind].
  set (mx := sum (x_values (List.length l)) / INR (List.length (x_values (List.length l)))).
  pose proof (denominator_pos (List.length l) mx H) as D.
  rewrite (proj2 (Reqb_false_iff _ 0)) by lra.
  assert (N : sum_zip (fun x y => (x - mx) * (y - c)) (x_values (List.length l))
                (map (fun _ => c) l) = 0).
  { unfold sum_zip. apply sum_map_zero. intros [x y] Hxy. cbn.
    apply in_combine_r in Hxy. apply in_map_iff in Hxy as (a & <- & _). ring. }
  rewrite N.
  assert (T : sum (map (fun y => (y - c) ^ 2) (map (fun _ : A => c) l)) = 0).
  { rewrite map_map. apply sum_map_zero. intros; ring. }
  rewrite T, Hs.
  do 2 f_equal. f_equal; unfold Rdiv; ring.
Qed.

(** ** CreateForecast *)

Section ForecastFacts.
Import CreateForecast.

Lemma z_scores_valid (cl : R) :
  existsb (Reqb cl) valid_confidence_levels = true ->
  exists z, z_scores cl = Ok z /\ 0 < z.
Proof.
  unfold valid_confidence_levels, z_scores. cbn [existsb].
  destruct (Reqb cl 0.80); [intros _; eexists; split; [reflexivity | lra] |].
  destruct (Reqb cl 0.90); [intros _; eexists; split; [reflexivity | lra] |].
  destruct (Reqb cl 0.95); [intros _; eexists; split; [reflexivity | lra] |].
  destruct (Reqb cl 0.99); [intros _; eexists; split; [reflexivity | lra] |].
  discriminate.
Qed.

Lemma z_scores_pos (cl z : R) : z_scores cl = Ok z -> 0 < z.
Proof.
  unfold z_scores.
  repeat (destruct (Reqb cl _); [intros H; injection H as <-; lra |]).
  discriminate.
Qed.

(** What [history_of] hands on when it does not return early. *)
Lemma history_of_inr (lib : builtins) (history : list json) (h : History) :
  history_of lib history = Ok (inr h) ->
  exists valid,
    read_entries lib history = Ok valid /\
    (30 <= List.length valid)%nat /\
    points h = sort_by_date valid /\
    mean (map cost (points h)) = Ok (mean_cost h) /\
    stdev (map cost (points h)) = Ok (std_dev h) /\
    linear_fit (fun ss_total => Rltb 0 ss_total) (map cost (points h))
    = Ok (Some (line h)).
Proof.
  unfold history_of.
  destruct (read_entries lib history) as [valid | e]; cbn [bind]; [| discriminate].
  destruct (List.length valid <? 30)%nat eqn:L; [discriminate |].
  apply Nat.ltb_ge in L.
  destruct (mean (map cost (sort_by_date valid))) as [m | e] eqn:M; cbn [bind];
    [| discriminate].
  assert (L1 : (1 <? List.length (map cost (sort_by_date valid)))%nat = true).
  { apply Nat.ltb_lt. rewrite length_map, sort_by_date_length. lia. }
  rewrite L1.
  destruct (stdev (map cost (sort_by_date valid))) as [s | e] eqn:S; cbn [bind];
    [| discriminate].
  destruct (linear_fit _ _) as [[f |] | e] eqn:F; cbn [bind]; try discriminate.
  intros H. injection H as <-. cbn. exists valid. repeat split; auto.
Qed.

(** The history of thirty or more valid entries is always analysed. *)
Lemma history_of_total (lib : builtins) (history : list json) (valid : list point) :
  read_entries lib history = Ok valid ->
  (30 <= List.length valid)%nat ->
  exists h, history_of lib history = Ok (inr h) /\ points h = sort_by_date valid.
Proof.
  intros Hr L. unfold history_of. rewrite Hr. cbn [bind].
  rewrite (proj2 (Nat.ltb_ge _ _) L).
  assert (Ls : List.length (map cost (sort_by_date valid)) = List.length valid)
    by (rewrite length_map; apply sort_by_date_length).
  rewrite mean_ok
    by (intros E; apply (f_equal (@List.length R)) in E; rewrite Ls in E; cbn in E; lia).
  cbn [bind]. rewrite (proj2 (Nat.ltb_lt _ _)) by lia.
  destruct (stdev_ok (map cost (sort_by_date valid))) as (s & S & _); [lia |].
  rewrite S. cbn [bind].
  destruct (linear_fit_total (fun t => Rltb 0 t) (map cost (sort_by_date valid)))
    as [f F]; [lia |].
  rewrite F. eexists. split; reflexivity.
Qed.

Lemma forecast_day_fields (h : History) (z : R) (last day : Z) (f : DayForecast) :
  forecast_day h z last day = Ok f ->
  day_offset f = day /\
  point_forecast f
  = slope (line h) * IZR (Z.of_nat (List.length (points h)) + day - 1)
    + intercept (line h) /\
  interval_width f = z * std_dev h * (1 + IZR day / 30) /\
  lower_bound f = Rmax 0 (point_forecast f - interval_width f) /\
  upper_bound f = point_forecast f + interval_width f.
Proof.
  unfold forecast_day. destruct (add_days last day); cbn [bind]; [| discriminate].
  intros H. injection H as <-. cbn. auto.
Qed.

Lemma forecast_day_ok (h : History) (z : R) (last day : Z) :
  (1 <= last + day <= max_ordinal)%Z ->
  exists f, forecast_day h z last day = Ok f.
Proof.
  intros H. unfold forecast_day, add_days.
  destruct (last + day >? max_ordinal)%Z eqn:A; [lia |].
  destruct (last + day <? 1)%Z eqn:B; [lia |].
  cbn. eexists. reflexivity.
Qed.

Lemma days_range (fd day : Z) : In day (days fd) -> (1 <= day <= fd)%Z.
Proof.
  unfold days. intros H. apply in_map_iff in H as (k & <- & Hk).
  apply in_seq in Hk. lia.
Qed.

Lemma forecast_loop_inv (h : History) (cl : R) (fd : Z) (daily : list DayForecast) :
  forecast_loop h cl fd = Ok daily ->
  exists last z,
    last_item (points h) = Ok last /\ z_scores cl = Ok z /\
    CalculateBaseline.for_each (forecast_day h z (date last)) (days fd) = Ok daily.
Proof.
  unfold forecast_loop.
  destruct (last_item (points h)) as [last | e]; cbn [bind]; [| discriminate].
  destruct (z_scores cl) as [z | e]; cbn [bind]; [| discriminate].
  intros H. exists last, z. auto.
Qed.

Lemma forecast_loop_total (h : History) (cl : R) (fd : Z) (last : point) :
  last_item (points h) = Ok last ->
  existsb (Reqb cl) valid_confidence_levels = true ->
  (1 <= date last)%Z -> (date last + fd <= max_ordinal)%Z ->
  exists daily, forecast_loop h cl fd = Ok daily.
Proof.
  intros Hl Hc H1 H2. unfold forecast_loop. rewrite Hl. cbn [bind].
  destruct (z_scores_valid cl Hc) as (z & Hz & _). rewrite Hz. cbn [bind].
  apply for_each_total. intros day Hd. apply days_range in Hd.
  apply forecast_day_ok. lia.
Qed.

Lemma forecast_loop_length (h : History) (cl : R) (fd : Z) (daily : list DayForecast) :
  forecast_loop h cl fd = Ok daily -> List.length daily = Z.to_nat fd.
Proof.
  intros H. apply forecast_loop_inv in H as (last & z & _ & _ & H).
  apply for_each_length in H. rewrite H. unfold days.
  rewrite length_map, length_seq. reflexivity.
Qed.

(** The preview of the result is the head of the loop's list. *)
Lemma summarise_forecasts (h : History) (cl : R) (daily : list DayForecast)
    (r : ForecastResult) :
  summarise h cl daily = Ok r -> forecasts r = firstn 7 (map entry_of daily).
Proof.
  unfold summarise.
  destruct (div _ _); cbn [bind]; [| discriminate].
  destruct (risks h); cbn [bind]; [| discriminate].
  destruct (first_item (map entry_of daily)); cbn [bind]; [| discriminate].
  destruct (last_item (map entry_of daily)); cbn [bind]; [| discriminate].
  destruct (first_item (points h)); cbn [bind]; [| discriminate].
  destruct (last_item (points h)); cbn [bind]; [| discriminate].
  intros H. injection H as <-. reflexivity.
Qed.

Lemma summarise_total (h : History) (cl : R) (daily : list DayForecast) :
  daily <> [] -> points h <> [] -> mean_cost h <> 0 ->
  exists r, summarise h cl daily = Ok r.
Proof.
  intros Hd Hp Hm. unfold summarise.
  assert (Hn : INR (List.length (map entry_of daily)) <> 0).
  { apply not_0_INR. rewrite length_map. destruct daily; [congruence | cbn; lia]. }
  unfold div at 1. rewrite (proj2 (Reqb_false_iff _ _) Hn). cbn [bind].
  unfold risks, div. rewrite (proj2 (Reqb_false_iff _ _) Hm). cbn [bind].
  assert (He : map entry_of daily <> [])
    by (destruct daily; [congruence | discriminate]).
  destruct (first_item_ok _ He) as [a Ha]. rewrite Ha. cbn [bind].
  destruct (last_item_ok _ He) as [b Hb]. rewrite Hb. cbn [bind].
  destruct (first_item_ok _ Hp) as [c Hc]. rewrite Hc. cbn [bind].
  destruct (last_item_ok _ Hp) as [d Hd']. rewrite Hd'. cbn [bind].
  eexists. reflexivity.
Qed.

(** Step 10 divides by the mean of the costs: on a mean of zero it raises. *)
Lemma summarise_zero_mean (h : History) (cl : R) (daily : list DayForecast) :
  daily <> [] -> mean_cost h = 0 ->
  summarise h cl daily = Raise ZeroDivisionError.
Proof.
  intros Hd Hm. unfold summarise.
  assert (Hn : INR (List.length (map entry_of daily)) <> 0).
  { apply not_0_INR. rewrite length_map. destruct daily; [congruence | cbn; lia]. }
  unfold div at 1. rewrite (proj2 (Reqb_false_iff _ _) Hn). cbn [bind].
  unfold risks, div. rewrite (proj2 (Reqb_true_iff _ _) Hm). reflexivity.
Qed.

Lemma forecast_run_result (lib : builtins) (b : loaded) (fd : Z) (cl : R)
    (r : ForecastResult) :
  run lib b fd cl = Ok (Result r) ->
  exists history h daily,
    b = Decoded (JArr history) /\
    (1 <= fd <= 90)%Z /\
    history_of lib history = Ok (inr h) /\
    forecast_loop h cl fd = Ok daily /\
    summarise h cl daily = Ok r.
Proof.
  unfold run.
  destruct (fd <? 1)%Z eqn:A; [discriminate |].
  destruct (fd >? 90)%Z eqn:B; [discriminate |].
  apply Z.ltb_ge in A. rewrite Z.gtb_ltb in B. apply Z.ltb_ge in B.
  destruct (negb _); [discriminate |].
  unfold parse_history.
  destruct b as [j | | |]; cbn; try discriminate.
  destruct j; cbn; try discriminate.
  destruct (Nat.leb _ _); cbn; [discriminate |].
  unfold compute.
  destruct (history_of lib items) as [[msg | h] | e] eqn:Hh; cbn; try discriminate.
  destruct (forecast_loop h cl fd) as [daily | e] eqn:Hl; cbn; [| discriminate].
  destruct (summarise h cl daily) as [r' | e] eqn:S; cbn; [| discriminate].
  intros H. injection H as <-.
  exists items, h, daily. split; [reflexivity |]. split; [lia |]. auto.
Qed.

(** *** A flat series *)

Lemma history_of_flat (c : R) :
  history_of example_lib (map (fun d => entry d c) january_2025)
  = Ok (inr (flat c)).
Proof.
  unfold history_of.
  rewrite (read_entries_map example_lib c january_2025 january_ordinals january_dates).
  cbn [bind].
  change (map (fun o => {| date := o; cost := c |}) january_ordinals)
    with (flat_points c).
  assert (L : List.length (flat_points c) = 30%nat) by reflexivity.
  rewrite L. cbn [Nat.ltb Nat.leb].
  rewrite sort_by_date_ascending
    by (unfold flat_points; rewrite map_map; cbn [date]; rewrite map_id; reflexivity).
  unfold flat_points at 1 2 3 4. rewrite !map_map. cbn [cost].
  rewrite mean_const by discriminate. cbn [bind].
  rewrite length_map.
  change (1 <? List.length january_ordinals)%nat with true. cbn match.
  rewrite stdev_const by (cbn; lia). cbn [bind].
  rewrite linear_fit_const; [reflexivity | cbn; lia | apply Rltb_false_iff; lra].
Qed.

Lemma flat_last (c : R) :
  last_item (points (flat c)) = Ok {| date := 739281; cost := c |}.
Proof. reflexivity. Qed.

Lemma flat_loop (c : R) :
  exists daily, forecast_loop (flat c) 0.80 30 = Ok daily /\ List.length daily = 30%nat.
Proof.
  destruct (forecast_loop_total (flat c) 0.80 30 _ (flat_last c)) as [daily H].
  - cbn. settle. reflexivity.
  - cbn. lia.
  - cbn. unfold max_ordinal. lia.
  - exists daily. split; [exact H |]. apply forecast_loop_length in H. exact H.
Qed.

Lemma run_flat (c : R) (r : reply error_text ForecastResult) :
  (forall daily, forecast_loop (flat c) 0.80 30 = Ok daily ->
     try_except (x <- summarise (flat c) 0.80 daily ;; Ok (Result x)) [Exception]
       (fun e => Ok (Error (ForecastFailure e))) = Ok r) ->
  run example_lib (flat_history c) 30 0.80 = Ok r.
Proof.
  intros H. unfold run.
  change (30 <? 1)%Z with false. change (30 >? 90)%Z with false. cbn match.
  unfold valid_confidence_levels. cbn [existsb]. settle. cbn [orb negb].
  unfold flat_history, parse_history. cbn [json_loads bind try_except].
  change (List.length (map (fun d => entry d c) january_2025) <? 30)%nat with false.
  cbn match. cbn [bind try_except]. unfold compute.
  rewrite history_of_flat. cbn [bind].
  destruct (flat_loop c) as (daily & L & _). rewrite L. cbn [bind].
  apply (H daily L).
Qed.

Lemma flat_run_result (c : R) :
  c <> 0 ->
  exists r daily,
    run example_lib (flat_history c) 30 0.80 = Ok (Result r) /\
    forecast_loop (flat c) 0.80 30 = Ok daily /\
    forecasts r = firstn 7 (map entry_of daily).
Proof.
  intros Hc. destruct (flat_loop c) as (daily & L & Len).
  destruct (summarise_total (flat c) 0.80 daily) as [r S].
  - destruct daily; [discriminate | discriminate].
  - discriminate.
  - exact Hc.
  - exists r, daily. split; [| split; [exact L | apply (summarise_forecasts _ _ _ _ S)]].
    apply run_flat. intros d L'. rewrite L in L'. injection L' as <-.
    rewrite S. reflexivity.
Qed.

Lemma flat_day (c : R) (daily : list DayForecast) (k : nat) :
  forecast_loop (flat c) 0.80 30 = Ok daily -> (k < 30)%nat ->
  exists f,
    nth_error daily k = Some f /\
    day_offset f = Z.of_nat (S k) /\
    point_forecast f = c /\ interval_width f = 0 /\
    lower_bound f = Rmax 0 c /\ upper_bound f = c.
Proof.
  intros L Hk. apply forecast_loop_inv in L as (last & z & Hl & Hz & F).
  assert (Hn : nth_error (days 30) k = Some (Z.of_nat (S k))).
  { unfold days. rewrite nth_error_map, nth_error_seq.
    change (Z.to_nat 30) with 30%nat.
    rewrite (proj2 (Nat.ltb_lt _ _) Hk). reflexivity. }
  destruct (for_each_nth _ _ _ _ _ F Hn) as (f & Hf & Hnth).
  exists f. split; [exact Hnth |].
  apply forecast_day_fields in Hf as (Ho & Hp & Hw & Hlo & Hup).
  cbn [flat line std_dev slope intercept] in Hp, Hw.
  assert (P : point_forecast f = c) by (rewrite Hp; ring).
  assert (W : interval_width f = 0) by (rewrite Hw; ring).
  rewrite Hlo, Hup, P, W.
  repeat split; try assumption; try (f_equal; ring); ring.
Qed.

(** The bounds of a forecast day are in order exactly when the upper one is
    not negative: the lower one is clamped at 0, the upper one is not. *)
Lemma bounds_ordered_iff (lib : builtins) (history : list json) (fd : Z) (cl : R)
    (h : History) (daily : list DayForecast) (f : DayForecast) :
  history_of lib history = Ok (inr h) ->
  forecast_loop h cl fd = Ok daily ->
  In f daily ->
  (lower_bound f <= upper_bound f <-> 0 <= upper_bound f).
Proof.
  intros Hh L Hf.
  apply history_of_inr in Hh as (valid & _ & _ & _ & _ & Hs & _).
  apply forecast_loop_inv in L as (last & z & _ & Hz & F).
  pose proof (z_scores_pos cl z Hz) as Pz.
  pose proof (stdev_nonneg _ _ Hs) as Ps.
  destruct (for_each_In _ _ _ _ F Hf) as (day & Hd & Hfd).
  apply days_range in Hd.
  apply forecast_day_fields in Hfd as (_ & _ & Hw & Hlo & Hup).
  assert (W : 0 <= interval_width f).
  { rewrite Hw. apply Rmult_le_pos; [apply Rmult_le_pos; lra |].
    assert (1 <= IZR day) by (apply IZR_le; lia). lra. }
  rewrite Hlo, Hup. unfold Rmax.
  destruct (Rle_dec 0 (point_forecast f - interval_width f)); split; intros; lra.
Qed.

(** Whenever the mean of an accepted series is zero, step 10 raises and the
    forecaster answers with its error text. *)
Lemma forecast_fails_on_zero_mean (lib : builtins) (history : list json)
    (fd : Z) (cl : R) (h : History) (daily : list DayForecast) :
  (1 <= fd <= 90)%Z ->
  existsb (Reqb cl) valid_confidence_levels = true ->
  history_of lib history = Ok (inr h) ->
  forecast_loop h cl fd = Ok daily ->
  mean_cost h = 0 ->
  run lib (Decoded (JArr history)) fd cl
  = Ok (Error (ForecastFailure ZeroDivisionError)).
Proof.
  intros Hfd Hcl Hh L Hm.
  pose proof Hh as Hh'.
  apply history_of_inr in Hh' as (valid & Hr & Hv & _).
  pose proof (read_entries_length _ _ _ Hr) as Hl.
  unfold run.
  rewrite (proj2 (Z.ltb_ge _ _)) by lia.
  rewrite Z.gtb_ltb, (proj2 (Z.ltb_ge _ _)) by lia.
  rewrite Hcl. cbn [negb].
  unfold parse_history. cbn [json_loads bind try_except].
  rewrite (proj2 (Nat.ltb_ge _ _)) by lia. cbn [bind try_except].
  unfold compute. rewrite Hh. cbn [bind]. rewrite L. cbn [bind].
  rewrite summarise_zero_mean; [reflexivity | | exact Hm].
  apply forecast_loop_length in L. intros E. rewrite E in L. cbn in L. lia.
Qed.

(** C4: thirty valid entries whose costs are all zero are accepted, and the
    forecaster answers with its error text: step 10 divides the standard
    deviation by the mean without the test for a positive mean that the
    percent-change line of step 8 and the baseline tool make. *)
Theorem forecast_of_zero_costs_fails :
  run example_lib (flat_history 0) 30 0.80
  = Ok (Error (ForecastFailure ZeroDivisionError)).
Proof.
  apply run_flat. intros daily L.
  rewrite summarise_zero_mean; [reflexivity | | reflexivity].
  apply forecast_loop_length in L. destruct daily; [discriminate | discriminate].
Qed.

(** C9: for thirty days at a cost of -5 the first forecast point of the
    result has the lower bound 0 and the upper bound -5. *)
Theorem upper_bound_below_lower_bound :
  exists r e,
    run example_lib (flat_history (-5)) 30 0.80 = Ok (Result r) /\
    nth_error (forecasts r) 0 = Some e /\
    ci_lower e = 0 /\ ci_upper e = -5.
Proof.
  destruct (flat_run_result (-5)) as (r & daily & Hr & L & F); [lra |].
  destruct (flat_day (-5) daily 0 L) as (f & Hn & _ & _ & _ & Hlo & Hup); [lia |].
  exists r, (entry_of f). split; [exact Hr |].
  rewrite F. destruct daily as [| f0 rest]; [discriminate |].
  cbn in Hn. injection Hn as ->. split; [reflexivity |].
  unfold entry_of. cbn [ci_lower ci_upper]. rewrite Hlo, Hup.
  rewrite Rmax_left by lra. split; [apply (round_IZR 0) | apply (round_IZR (-5))].
Qed.

(** C3, as stated, fails: for thirty days at a cost of 5 the input is
    accepted and the widths of day 1 and day 2 are the same. *)
Lemma flat_series_width_constant :
  exists r h daily f1 f2,
    run example_lib (flat_history 5) 30 0.80 = Ok (Result r) /\
    history_of example_lib (map (fun d => entry d 5) january_2025) = Ok (inr h) /\
    forecast_loop h 0.80 30 = Ok daily /\
    nth_error daily 0 = Some f1 /\ nth_error daily 1 = Some f2 /\
    day_offset f1 = 1%Z /\ day_offset f2 = 2%Z /\
    ~ interval_width f1 < interval_width f2.
Proof.
  destruct (flat_run_result 5) as (r & daily & Hr & L & _); [lra |].
  destruct (flat_day 5 daily 0 L) as (f1 & N1 & O1 & _ & W1 & _); [lia |].
  destruct (flat_day 5 daily 1 L) as (f2 & N2 & O2 & _ & W2 & _); [lia |].
  exists r, (flat 5), daily, f1, f2.
  repeat split; try assumption; try apply history_of_flat.
  rewrite W1, W2. lra.
Qed.

(** *** A series that rises along a line *)

Lemma linear_month_read :
  read_entries example_lib linear_month_history = Ok linear_month_valid.
Proof.
  unfold linear_month_history, linear_month_valid.
  apply (read_entries_indexed example_lib
           (fun k => nth k january_2025 EmptyString)
           (fun k => (739252 + Z.of_nat k)%Z)).
  vm_compute. reflexivity.
Qed.

Lemma linear_month_sorted : sort_by_date linear_month_valid = linear_month_valid.
Proof. reflexivity. Qed.

(** The sum of a list lies between its length times a lower and an upper
    bound of its items. *)
Lemma sum_bounds (lo hi : R) (l : list R) :
  Forall (fun x => lo <= x <= hi) l ->
  INR (List.length l) * lo <= sum l <= INR (List.length l) * hi.
Proof.
  induction 1 as [| x l Hx _ IH].
  - rewrite sum_nil. cbn. lra.
  - rewrite sum_cons. change (List.length (x :: l)) with (S (List.length l)).
    rewrite S_INR. lra.
Qed.

(** Two items that differ keep the sum of squared deviations away from 0,
    whatever the centre is. *)
Lemma two_squares (x y m : R) :
  (y - x) * (y - x) / 2 <= (x - m) * (x - m) + (y - m) * (y - m).
Proof.
  assert (E : (x - m) * (x - m) + (y - m) * (y - m)
              = (y - x) * (y - x) / 2 + (x + y - 2 * m) * (x + y - 2 * m) / 2)
    by field.
  rewrite E. pose proof (Rle_0_sqr (x + y - 2 * m)) as S. unfold Rsqr in S. lra.
Qed.

(** The spread of the rising series is a number of ordinary size. *)
Lemma linear_month_spread (s : R) :
  stdev (map cost linear_month_valid) = Ok s -> 1 <= s <= 100000.
Proof.
  rewrite stdev_eq by (cbn; lia).
  set (e := sqrt _). intros H.
  assert (Es : s = e) by congruence.
  rewrite Es. unfold e. clear H Es e.
  set (l := map cost linear_month_valid).
  set (m := sum l / INR (List.length l)).
  assert (Hl : Forall (fun x => 100 <= x <= 390) l).
  { unfold l, linear_month_valid. rewrite map_map. apply Forall_map, Forall_forall.
    intros k Hk. apply in_seq in Hk. cbn [cost].
    assert (0 <= INR k) by apply pos_INR.
    assert (INR k <= 29) by (replace 29 with (INR 29) by (cbn; lra); apply le_INR; lia).
    lra. }
  assert (Hm : 100 <= m <= 390).
  { destruct (sum_bounds 100 390 l Hl) as [A B].
    assert (N : INR (List.length l) = 30) by (cbn; lra).
    unfold m. rewrite N in *. lra. }
  set (sq := fun x => (x - m) * (x - m)).
  assert (Hsq : Forall (fun t => 0 <= t <= 290 * 290) (map sq l)).
  { apply Forall_map. apply Forall_forall. intros x Hx.
    apply (proj1 (Forall_forall _ _) Hl) in Hx. unfold sq.
    assert (P : 0 <= (290 - (x - m)) * (290 + (x - m))) by (apply Rmult_le_pos; lra).
    pose proof (Rle_0_sqr (x - m)) as Q. unfold Rsqr in Q.
    replace ((x - m) * (x - m))
      with (290 * 290 - (290 - (x - m)) * (290 + (x - m))) in * by ring.
    lra. }
  destruct (sum_bounds 0 (290 * 290) (map sq l) Hsq) as [_ Up].
  assert (Lo : 50 <= sum (map sq l)).
  { unfold l, linear_month_valid.
    change (seq 0 30) with (0%nat :: 1%nat :: seq 2 28). cbn [map cost].
    rewrite !sum_cons.
    match goal with
    | |- context [sum ?t] =>
        assert (0 <= sum t)
          by (apply sum_nonneg; do 2 apply Forall_map; apply Forall_forall;
              intros k _; unfold sq; apply Rle_0_sqr)
    end.
    pose proof (two_squares (100 + 10 * INR 0) (100 + 10 * INR 1) m) as T.
    unfold sq at 1 2. cbn [INR] in *. lra. }
  rewrite length_map in Up.
  assert (N : INR (List.length l) = 30) by (cbn; lra).
  rewrite N in *.
  assert (Hv : forall t, 50 <= t -> t <= 30 * (290 * 290) ->
                 1 <= t / (30 - 1) <= 100000).
  { intros t A B.
    split; (apply Rmult_le_reg_r with (30 - 1); [lra |];
            unfold Rdiv; rewrite Rmult_assoc, Rinv_l by lra; lra). }
  specialize (Hv _ Lo Up). clear Lo Up Hsq.
  generalize dependent (sum (map sq l) / (30 - 1)). intros v [V1 V2].
  split.
  - rewrite <- sqrt_1. apply sqrt_le_1; lra.
  - apply Rle_trans with v; [| lra].
    rewrite <- (sqrt_square v) at 2 by lra.
    apply sqrt_le_1; [lra | | ].
    + apply Rmult_le_pos; lra.
    + rewrite <- (Rmult_1_r v) at 1. apply Rmult_le_compat_l; lra.
Qed.

(** Every number between 1 and 10^5 passes for a spread of ordinary size. *)
Lemma ordinary_size (s : R) : 1 <= s <= 100000 -> / 10 ^ 300 <= s <= 10 ^ 300.
Proof.
  intros [A B].
  assert (P : 1 <= 10 ^ 300) by (apply pow_R1_Rle; lra).
  split.
  - apply Rle_trans with 1; [| exact A].
    rewrite <- Rinv_1. apply Rinv_le_contravar; lra.
  - apply Rle_trans with (10 ^ 5); [cbn; lra |].
    apply Rle_pow; [lra | lia].
Qed.

Lemma days_at (fd d : Z) :
  (1 <= d <= fd)%Z -> nth_error (days fd) (Z.to_nat (d - 1)) = Some d.
Proof.
  intros H. unfold days. rewrite nth_error_map, nth_error_seq.
  rewrite (proj2 (Nat.ltb_lt _ _)) by lia. cbn. f_equal. lia.
Qed.

(** C3, amended: the width of the forecast day at offset [d] is the
    tabulated z-value times the sample standard deviation of the whole
    series times [1 + d/30], for every offset from 1 to [forecast_days]; it
    never shrinks as [d] grows, it grows strictly when the standard
    deviation is a number of ordinary size (from 10^-300 to 10^300, where
    the product is neither absorbed by rounding nor out of range), and it
    is the same for every day when the standard deviation is zero (a
    series of one and the same cost). *)
Theorem interval_width_growth (lib : builtins) (history : list json) (fd : Z)
    (cl : R) (h : History) (daily : list DayForecast) :
  history_of lib history = Ok (inr h) ->
  forecast_loop h cl fd = Ok daily ->
  exists z,
    z_scores cl = Ok z /\
    stdev (map cost (points h)) = Ok (std_dev h) /\
    (forall d, (1 <= d <= fd)%Z ->
       exists f, nth_error daily (Z.to_nat (d - 1)) = Some f /\ day_offset f = d) /\
    (forall f, In f daily ->
       interval_width f = z * std_dev h * (1 + IZR (day_offset f) / 30)) /\
    (forall f1 f2, In f1 daily -> In f2 daily ->
       (day_offset f1 < day_offset f2)%Z ->
       interval_width f1 <= interval_width f2 /\
       (/ 10 ^ 300 <= std_dev h <= 10 ^ 300 ->
        interval_width f1 < interval_width f2) /\
       (std_dev h = 0 -> interval_width f1 = interval_width f2)).
Proof.
  intros Hh L.
  apply history_of_inr in Hh as (valid & _ & _ & _ & _ & Hs & _).
  apply forecast_loop_inv in L as (last & z & _ & Hz & F).
  pose proof (z_scores_pos cl z Hz) as Pz.
  pose proof (stdev_nonneg _ _ Hs) as Ps.
  assert (W : forall f, In f daily ->
            interval_width f = z * std_dev h * (1 + IZR (day_offset f) / 30)).
  { intros f Hf. destruct (for_each_In _ _ _ _ F Hf) as (day & _ & Hd).
    apply forecast_day_fields in Hd as (-> & _ & Hw & _). exact Hw. }
  exists z. split; [exact Hz |]. split; [exact Hs |].
  split.
  { intros d Hd.
    destruct (for_each_nth _ _ _ _ _ F (days_at fd d Hd)) as (f & Hf & Hn).
    exists f. split; [exact Hn |].
    apply forecast_day_fields in Hf as (Ho & _). exact Ho. }
  split; [exact W |].
  intros f1 f2 H1 H2 Hlt. rewrite (W f1 H1), (W f2 H2).
  apply IZR_lt in Hlt.
  assert (P : 0 <= z * std_dev h) by (apply Rmult_le_pos; lra).
  split; [apply Rmult_le_compat_l; [exact P | lra] |]. split.
  - intros [N _].
    assert (0 < / 10 ^ 300) by (apply Rinv_0_lt_compat, pow_lt; lra).
    apply Rmult_lt_compat_l; [| lra].
    apply Rmult_lt_0_compat; lra.
  - intros E. rewrite E. ring.
Qed.

Lemma interval_width_growth_witness :
  exists h daily f1 f2,
    history_of example_lib linear_month_history = Ok (inr h) /\
    forecast_loop h 0.80 30 = Ok daily /\
    nth_error daily 0 = Some f1 /\ nth_error daily 1 = Some f2 /\
    day_offset f1 = 1%Z /\ day_offset f2 = 2%Z /\
    / 10 ^ 300 <= std_dev h <= 10 ^ 300 /\
    interval_width f1 < interval_width f2.
Proof.
  destruct (history_of_total example_lib linear_month_history linear_month_valid
              linear_month_read) as (h & Hh & Hp); [cbn; lia |].
  rewrite linear_month_sorted in Hp.
  destruct (forecast_loop_total h 0.80 30
              {| date := 739281; cost := 100 + 10 * INR 29 |}) as (daily & L).
  - rewrite Hp. reflexivity.
  - cbn. settle. reflexivity.
  - cbn. lia.
  - cbn. unfold max_ordinal. lia.
  - destruct (interval_width_growth example_lib linear_month_history 30 0.80 h daily
                Hh L) as (z & _ & Hs & Hn & _ & Hm).
    destruct (Hn 1%Z) as (f1 & N1 & O1); [lia |].
    destruct (Hn 2%Z) as (f2 & N2 & O2); [lia |].
    assert (S : / 10 ^ 300 <= std_dev h <= 10 ^ 300).
    { apply ordinary_size, linear_month_spread. rewrite <- Hp. exact Hs. }
    exists h, daily, f1, f2.
    split; [exact Hh |]. split; [exact L |].
    split; [exact N1 |]. split; [exact N2 |].
    split; [exact O1 |]. split; [exact O2 |]. split; [exact S |].
    apply (Hm f1 f2).
    + exact (nth_error_In _ _ N1).
    + exact (nth_error_In _ _ N2).
    + lia.
    + exact S.
Defined.
End ForecastFacts.

(** ** CalculateBaseline *)

Section BaselineFacts.
Import CalculateBaseline.

Lemma seasonal_total (enable : bool) (pts : list point) (m : R) :
  exists fs, seasonal enable pts m = Ok fs.
Proof.
  unfold seasonal. destruct (enable && _); [| eexists; reflexivity].
  apply for_each_total. intros d _. unfold seasonal_factor.
  destruct (day_costs pts d) as [| c cs]; [eexists; reflexivity |].
  cbn [mean bind]. eexists. reflexivity.
Qed.

(** Steps 5 to 10 never raise on a window that is not empty. *)
Lemma baseline_of_window_total (enable : bool) (w : Z) (pts : list point) :
  pts <> [] -> exists r, baseline_of_window enable w pts = Ok r.
Proof.
  intros H. unfold baseline_of_window.
  assert (Hc : map cost pts <> []) by (destruct pts; [congruence | discriminate]).
  assert (Hd : map date pts <> []) by (destruct pts; [congruence | discriminate]).
  rewrite (mean_ok _ Hc). cbn [bind].
  destruct (1 <? List.length (map cost pts))%nat eqn:L.
  - apply Nat.ltb_lt in L.
    destruct (stdev_ok (map cost pts)) as (s & S & _); [lia |].
    rewrite S. cbn [bind].
    destruct (seasonal_total enable pts (sum (map cost pts) / INR (List.length (map cost pts))))
      as [fs F]. rewrite F. cbn [bind].
    destruct (first_item_ok _ Hd) as [a Ha]. rewrite Ha. cbn [bind].
    destruct (last_item_ok _ Hd) as [b Hb]. rewrite Hb. cbn [bind].
    eexists. reflexivity.
  - cbn [bind].
    destruct (seasonal_total enable pts (sum (map cost pts) / INR (List.length (map cost pts))))
      as [fs F]. rewrite F. cbn [bind].
    destruct (first_item_ok _ Hd) as [a Ha]. rewrite Ha. cbn [bind].
    destruct (last_item_ok _ Hd) as [b Hb]. rewrite Hb. cbn [bind].
    eexists. reflexivity.
Qed.

(** The fields of the result in terms of the window's mean [m] and
    standard deviation [s]. *)
Lemma baseline_of_window_fields (enable : bool) (w : Z) (pts : list point)
    (r : BaselineResult) :
  baseline_of_window enable w pts = Ok r ->
  exists m s first last,
    mean (map cost pts) = Ok m /\ 0 <= s /\
    first_item (map date pts) = Ok first /\
    last_item (map date pts) = Ok last /\
    baseline_mean r = round m 2 /\
    std_deviation r = round s 2 /\
    ci_95_percent r
    = {| lower := round (Rmax 0 (m - 2 * s)) 2; upper := round (m + 2 * s) 2 |} /\
    ci_99_percent r
    = {| lower := round (Rmax 0 (m - 3 * s)) 2; upper := round (m + 3 * s) 2 |} /\
    sample_size r = List.length pts /\
    date_range r = (first, last).
Proof.
  unfold baseline_of_window.
  destruct (mean (map cost pts)) as [m | e]; cbn [bind]; [| discriminate].
  destruct (if (1 <? List.length (map cost pts))%nat then stdev (map cost pts) else Ok 0)
    as [s | e] eqn:S; cbn [bind]; [| discriminate].
  assert (Ps : 0 <= s).
  { destruct (1 <? _)%nat; [apply (stdev_nonneg _ _ S) |].
    injection S as <-. lra. }
  destruct (seasonal enable pts m); cbn [bind]; [| discriminate].
  destruct (first_item (map date pts)) as [d1 | e]; cbn [bind]; [| discriminate].
  destruct (last_item (map date pts)) as [d2 | e]; cbn [bind]; [| discriminate].
  intros H. injection H as <-. cbn.
  exists m, s, d1, d2. rewrite length_map. repeat split; auto.
Qed.

Lemma baseline_run_result (lib : builtins) (b : loaded) (w : Z) (enable : bool)
    (r : BaselineResult) :
  run lib b w enable = Ok (Result r) ->
  exists history valid,
    b = Decoded (JArr history) /\ (7 <= w)%Z /\
    read_entries lib history = Ok valid /\
    (14 <= List.length valid)%nat /\
    baseline_of_window enable (capped_window w history)
      (window (capped_window w history) valid) = Ok r.
Proof.
  unfold run, parse_history.
  destruct b as [j | | |]; cbn; try discriminate.
  destruct j; cbn; try discriminate.
  destruct (Nat.leb _ _); cbn; [discriminate |].
  destruct (w <? 7)%Z eqn:W; [discriminate |]. apply Z.ltb_ge in W.
  unfold compute.
  destruct (read_entries lib items) as [valid | e] eqn:Hr; cbn.
  - destruct (Nat.leb (List.length valid) 13) eqn:L; cbn.
    { discriminate. }
    apply Nat.leb_gt in L.
    destruct (baseline_of_window _ _ _) as [r' | e] eqn:B; cbn.
    + intros H. injection H as <-. exists items, valid. repeat split; auto.
    + destruct e; cbn; discriminate.
  - destruct e; cbn; discriminate.
Qed.

Lemma window_nonempty (w : Z) (valid : list point) :
  (7 <= w)%Z -> (14 <= List.length valid)%nat -> window w valid <> [].
Proof.
  intros Hw Hv E. apply (f_equal (@List.length point)) in E.
  unfold window, last_n in E. rewrite length_skipn in E. cbn in E. lia.
Qed.

Lemma capped_window_ge (w : Z) (history : list json) :
  (7 <= w)%Z -> (14 <= List.length history)%nat -> (7 <= capped_window w history)%Z.
Proof. intros. unfold capped_window. destruct (w >? _)%Z; lia. Qed.

(** Fourteen valid entries and a window of at least 7 always give a
    baseline. *)
Lemma baseline_run_total (lib : builtins) (history : list json)
    (valid : list point) (w : Z) (enable : bool) :
  read_entries lib history = Ok valid ->
  (14 <= List.length valid)%nat -> (7 <= w)%Z ->
  exists r,
    run lib (Decoded (JArr history)) w enable = Ok (Result r) /\
    baseline_of_window enable (capped_window w history)
      (window (capped_window w history) valid) = Ok r.
Proof.
  intros Hr Hv Hw.
  pose proof (read_entries_length _ _ _ Hr) as Hl.
  unfold run, parse_history. cbn [json_loads bind try_except].
  rewrite (proj2 (Nat.ltb_ge _ _)) by lia. cbn [bind try_except].
  rewrite (proj2 (Z.ltb_ge _ _) Hw).
  unfold compute. rewrite Hr. cbn [bind].
  rewrite (proj2 (Nat.ltb_ge _ _) Hv).
  destruct (baseline_of_window_total enable (capped_window w history)
              (window (capped_window w history) valid)) as [r B].
  - apply window_nonempty; [apply capped_window_ge; [exact Hw | lia] | exact Hv].
  - rewrite B. cbn. exists r. auto.
Qed.

(** C10: in every result of the baseline tool the 95 percent interval lies
    inside the 99 percent interval. *)
Theorem ci95_inside_ci99 (lib : builtins) (b : loaded) (w : Z) (enable : bool)
    (r : BaselineResult) :
  run lib b w enable = Ok (Result r) ->
  lower (ci_99_percent r) <= lower (ci_95_percent r) /\
  upper (ci_95_percent r) <= upper (ci_99_percent r).
Proof.
  intros H.
  apply baseline_run_result in H as (history & valid & _ & _ & _ & _ & B).
  apply baseline_of_window_fields in B
    as (m & s & a & z & _ & Ps & _ & _ & _ & _ & C95 & C99 & _).
  rewrite C95, C99. cbn [lower upper]. split; apply round_mono.
  - apply Rle_max_compat_l. lra.
  - lra.
Qed.

Lemma ci95_inside_ci99_witness :
  exists r,
    run example_lib (flat_history 1000) 30 true = Ok (Result r) /\
    lower (ci_99_percent r) <= lower (ci_95_percent r) /\
    upper (ci_95_percent r) <= upper (ci_99_percent r).
Proof.
  destruct (baseline_run_total example_lib
              (map (fun d => entry d 1000) january_2025) (flat_points 1000) 30 true)
    as (r & Hr & _).
  - apply read_entries_map, january_dates.
  - cbn. lia.
  - lia.
  - exists r. split; [exact Hr |].
    apply (ci95_inside_ci99 example_lib (flat_history 1000) 30 true r Hr).
Defined.

End BaselineFacts.

Section BaselineOrder.
Import CalculateBaseline.

Lemma newest_first_read :
  read_entries example_lib newest_first_entries = Ok newest_first_valid.
Proof.
  unfold newest_first_entries, newest_first_valid.
  apply read_entries_app; apply read_entries_map; vm_compute; reflexivity.
Qed.

(** C1: the entries of the fortnight arrive newest first; the tool takes its
    window of 7 from the end of the list as supplied, the seven oldest days
    (2025-01-07 back to 2025-01-01, mean 1), where the seven most recent
    days by date have the mean 100. *)
Theorem baseline_window_in_supplied_order :
  exists r,
    run example_lib newest_first_history 7 true = Ok (Result r) /\
    baseline_mean r = 1 /\
    sample_size r = 7%nat /\
    date_range r = (739258, 739252)%Z /\
    mean (map cost (Spec.recentWindow 7 newest_first_valid)) = Ok 100.
Proof.
  destruct (baseline_run_total example_lib newest_first_entries newest_first_valid
              7 true newest_first_read) as (r & Hr & B); [cbn; lia | lia |].
  exists r. split; [exact Hr |].
  apply baseline_of_window_fields in B
    as (m & s & d1 & d2 & M & _ & F & L & Bm & _ & _ & _ & Sz & Dr).
  change (window (capped_window 7 newest_first_entries) newest_first_valid)
    with (map (fun o => {| date := o; cost := 1 |}) (rev (firstn 7 january_ordinals)))
    in M, F, L, Sz.
  rewrite map_map in M. cbn [cost] in M. rewrite mean_const in M by discriminate.
  injection M as <-.
  rewrite map_map in F, L. injection F as <-. injection L as <-.
  rewrite Bm, Sz, Dr. repeat split.
  - apply (round_IZR 1).
  - change (map cost (Spec.recentWindow 7 newest_first_valid))
      with (map (fun _ : Z => 100) (skipn 7 (firstn 14 january_ordinals))).
    apply mean_const. discriminate.
Qed.
End BaselineOrder.

(** ** DetectTrendChange *)

Section TrendFacts.
Import DetectTrendChange.

Lemma data_points_inr (lib : builtins) (history : list json) (pts : list point) :
  data_points lib history = Ok (inr pts) ->
  exists valid,
    read_entries lib history = Ok valid /\
    (7 <= List.length valid)%nat /\ pts = sort_by_date valid.
Proof.
  unfold data_points.
  destruct (read_entries lib history) as [valid | e]; cbn [bind]; [| discriminate].
  destruct (List.length valid <? 7)%nat eqn:L; [discriminate |].
  apply Nat.ltb_ge in L. intros H. injection H as <-. exists valid. auto.
Qed.

Lemma lookback_length (lb : Z) (pts : list point) :
  (7 <= List.length pts)%nat -> (7 <= List.length (lookback lb pts))%nat.
Proof.
  intros H. unfold lookback.
  destruct (List.length (last_n (Z.to_nat lb) pts) <? 7)%nat eqn:L; [exact H |].
  apply Nat.ltb_ge in L. exact L.
Qed.

(** Steps 5 to 11 answer every series of two or more points with a result. *)
Lemma analyse_total (lb : Z) (mst : R) (l : list point) :
  (2 <= List.length l)%nat ->
  exists r, analyse lb mst l = Ok (Result r) /\ days_analyzed r = List.length l.
Proof.
  intros H. unfold analyse.
  destruct (linear_fit_total (fun t => negb (Reqb t 0)) (map cost l)) as [f F];
    [rewrite length_map; exact H |].
  rewrite F. cbn [bind].
  assert (N : l <> []) by (destruct l; [cbn in H; lia | discriminate]).
  destruct (first_item_ok _ N) as [a Ha]. rewrite Ha. cbn [bind].
  destruct (last_item_ok _ N) as [b Hb]. rewrite Hb. cbn [bind].
  eexists. split; reflexivity.
Qed.

(** Seven valid entries, a lookback of at least 7 and a threshold that is
    not negative always give a trend result. *)
Lemma trend_run_total (lib : builtins) (history : list json) (valid : list point)
    (lb : Z) (mst : R) :
  read_entries lib history = Ok valid ->
  (7 <= List.length valid)%nat -> (7 <= lb)%Z -> 0 <= mst ->
  exists r,
    run lib (Decoded (JArr history)) lb mst = Ok (Result r) /\
    days_analyzed r = List.length (lookback lb (sort_by_date valid)).
Proof.
  intros Hr Hv Hl Hm.
  pose proof (read_entries_length _ _ _ Hr) as Hh.
  unfold run, parse_history. cbn [json_loads bind try_except].
  rewrite (proj2 (Nat.ltb_ge _ _)) by lia. cbn [bind try_except].
  rewrite (proj2 (Z.ltb_ge _ _) Hl).
  rewrite (proj2 (Rltb_false_iff _ _) Hm).
  unfold compute, data_points. rewrite Hr. cbn [bind].
  rewrite (proj2 (Nat.ltb_ge _ _) Hv). cbn [bind].
  destruct (analyse_total lb mst (lookback lb (sort_by_date valid))) as (r & A & D).
  - pose proof (lookback_length lb (sort_by_date valid)) as P.
    rewrite sort_by_date_length in P. specialize (P Hv). lia.
  - rewrite A. cbn. exists r. auto.
Qed.

Lemma duplicate_day_read :
  read_entries example_lib duplicate_day_history = Ok duplicate_day_valid.
Proof.
  unfold duplicate_day_history, duplicate_day_valid.
  repeat (apply read_entries_cons; [apply read_entry_entry; reflexivity |]).
  reflexivity.
Qed.




(** The forecast tool prepares its series in the same way. *)
Lemma forecast_series_keeps_duplicates (lib : builtins) (history : list json)
    (h : CreateForecast.History) :
  CreateForecast.history_of lib history = Ok (inr h) ->
  exists valid,
    read_entries lib history = Ok valid /\
    Permutation valid (CreateForecast.points h) /\
    StronglySorted by_date (CreateForecast.points h) /\
    (forall d, filter (on_day d) (CreateForecast.points h) = filter (on_day d) valid).
Proof.
  intros H. apply history_of_inr in H as (valid & Hr & _ & -> & _).
  exists valid. split; [exact Hr |]. split; [apply sort_by_date_perm |].
  split; [apply sort_by_date_sorted |]. intros d. apply sort_by_date_stable.
Qed.

End TrendFacts.

(** * Further properties of the four tools *)

(** ** What escapes a [run] *)

Lemma catch_all {A : Type} (c : Exc A) (h : exn -> A) :
  exists a, try_except c [Exception] (fun e => Ok (h e)) = Ok a.
Proof. destruct c as [a | e]; cbn; eexists; reflexivity. Qed.

Lemma catch_all_cases {A : Type} (c : Exc A) (h : exn -> A) (a : A) :
  try_except c [Exception] (fun e => Ok (h e)) = Ok a ->
  c = Ok a \/ exists e, c = Raise e /\ a = h e.
Proof.
  destruct c as [a' | e]; cbn; intros H; injection H as <-.
  - left. reflexivity.
  - right. exists e. auto.
Qed.

(** What [json.loads] raises and the first [try] of the three history tools
    does not catch. *)
Lemma json_loads_escapes (b : loaded) (e : exn) :
  json_loads b = Raise e /\ isinstance e JSONDecodeError = false <->
  (b = DigitLimit /\ e = ValueError) \/ (b = TooDeep /\ e = RecursionError).
Proof.
  destruct b as [j | | |]; cbn; split.
  - intros [H _]. discriminate.
  - intros [[H _] | [H _]]; discriminate.
  - intros [H N]. injection H as <-. discriminate.
  - intros [[H _] | [H _]]; discriminate.
  - intros [H _]. injection H as <-. auto.
  - intros [[_ ->] | [H _]]; [auto | discriminate].
  - intros [H _]. injection H as <-. auto.
  - intros [[H _] | [_ ->]]; [discriminate | auto].
Qed.

Lemma baseline_parse_history_ok (j : json) :
  exists p, CalculateBaseline.parse_history (Decoded j) = Ok p.
Proof.
  unfold CalculateBaseline.parse_history. cbn.
  destruct j; cbn; try (eexists; reflexivity).
  destruct (Nat.leb _ _); cbn; eexists; reflexivity.
Qed.

Lemma baseline_answers_decoded (lib : builtins) (j : json) (w : Z) (enable : bool) :
  exists rep, CalculateBaseline.run lib (Decoded j) w enable = Ok rep.
Proof.
  unfold CalculateBaseline.run.
  destruct (baseline_parse_history_ok j) as [[msg | history] ->]; cbn [bind].
  - eexists; reflexivity.
  - destruct (w <? 7)%Z; [eexists; reflexivity |].
    apply (catch_all _ (fun e => Error (CalculateBaseline.BaselineFailure e))).
Qed.

(** X1: an exception leaves [CalculateBaseline.run] exactly when
    [json.loads] raises one that is not a [JSONDecodeError] (the plain
    [ValueError] for an integer literal beyond the digit limit, or
    [RecursionError]): the first [try] names [JSONDecodeError] alone, and
    everything after it stands under the catch-all handler.  A document that
    decodes always gets an answer. *)
Theorem baseline_raises_iff (lib : builtins) (b : loaded) (w : Z) (enable : bool)
    (e : exn) :
  CalculateBaseline.run lib b w enable = Raise e <->
  json_loads b = Raise e /\ isinstance e JSONDecodeError = false.
Proof.
  rewrite json_loads_escapes.
  destruct b as [j | | |].
  - destruct (baseline_answers_decoded lib j w enable) as [rep ->].
    split; [discriminate | intros [[H _] | [H _]]; discriminate].
  - cbn. split; [discriminate | intros [[H _] | [H _]]; discriminate].
  - cbn. split.
    + intros H. injection H as <-. auto.
    + intros [[_ ->] | [H _]]; [reflexivity | discriminate].
  - cbn. split.
    + intros H. injection H as <-. auto.
    + intros [[H _] | [_ ->]]; [discriminate | reflexivity].
Qed.

Lemma trend_parse_history_cases (j : json) :
  (exists msg, DetectTrendChange.parse_history (Decoded j) = Ok (inl msg) /\
               msg <> DetectTrendChange.IdenticalDates) \/
  (exists history, DetectTrendChange.parse_history (Decoded j) = Ok (inr history)).
Proof.
  unfold DetectTrendChange.parse_history. cbn.
  destruct j; cbn; try (left; eexists; split; [reflexivity | discriminate]).
  destruct (Nat.leb _ _); cbn.
  - left; eexists; split; [reflexivity | discriminate].
  - right; eexists; reflexivity.
Qed.

Lemma trend_compute_not_degenerate (lib : builtins) (history : list json)
    (lb : Z) (mst : R) (rep : reply DetectTrendChange.error_text DetectTrendChange.TrendResult) :
  DetectTrendChange.compute lib history lb mst = Ok rep ->
  rep <> Error DetectTrendChange.IdenticalDates.
Proof.
  unfold DetectTrendChange.compute.
  destruct (DetectTrendChange.data_points lib history) as [[msg | sorted] | e] eqn:D;
    cbn [bind]; try discriminate.
  - unfold DetectTrendChange.data_points in D.
    destruct (read_entries lib history); cbn [bind] in D; [| discriminate].
    destruct (Nat.ltb _ _); [| discriminate].
    injection D as <-. intros H. injection H as <-. discriminate.
  - apply data_points_inr in D as (valid & _ & Hv & ->).
    destruct (analyse_total lb mst (DetectTrendChange.lookback lb (sort_by_date valid)))
      as (r & -> & _).
    + pose proof (lookback_length lb (sort_by_date valid)) as P.
      rewrite sort_by_date_length in P. specialize (P Hv). lia.
    + intros H. injection H as <-. discriminate.
Qed.

Lemma trend_answers_decoded (lib : builtins) (j : json) (lb : Z) (mst : R) :
  exists rep,
    DetectTrendChange.run lib (Decoded j) lb mst = Ok rep /\
    rep <> Error DetectTrendChange.IdenticalDates.
Proof.
  unfold DetectTrendChange.run.
  destruct (trend_parse_history_cases j) as [(msg & -> & N) | (history & ->)];
    cbn [bind].
  - exists (Error msg). split; [reflexivity |]. intros H. injection H as ->. auto.
  - destruct (lb <? 7)%Z; [eexists; split; [reflexivity | discriminate] |].
    destruct (Rltb mst 0); [eexists; split; [reflexivity | discriminate] |].
    destruct (catch_all
                (try_except (DetectTrendChange.compute lib history lb mst)
                   [StatisticsError]
                   (fun e => Ok (Error (DetectTrendChange.StatisticsFailure e))))
                (fun e => Error (DetectTrendChange.TrendFailure e))) as [rep Hrep].
    exists rep. split; [exact Hrep |].
    apply catch_all_cases in Hrep as [C | (e & _ & ->)]; [| discriminate].
    destruct (DetectTrendChange.compute lib history lb mst) as [rep' | e] eqn:Hc;
      cbn in C.
    + injection C as <-. exact (trend_compute_not_degenerate _ _ _ _ _ Hc).
    + destruct e; cbn in C; try discriminate. injection C as <-. discriminate.
Qed.

(** X2: an exception leaves [DetectTrendChange.run] exactly when
    [json.loads] raises one that is not a [JSONDecodeError]; a document that
    decodes always gets an answer, and the answer is never the "all dates
    are identical" error text: over the positions [0 .. n-1] of seven points
    or more the denominator of the slope is positive. *)
Theorem trend_raises_iff (lib : builtins) (b : loaded) (lb : Z) (mst : R) :
  (forall e,
     DetectTrendChange.run lib b lb mst = Raise e <->
     json_loads b = Raise e /\ isinstance e JSONDecodeError = false) /\
  DetectTrendChange.run lib b lb mst
  <> Ok (Error DetectTrendChange.IdenticalDates).
Proof.
  split.
  - intros e. rewrite json_loads_escapes.
    destruct b as [j | | |].
    + destruct (trend_answers_decoded lib j lb mst) as (rep & -> & _).
      split; [discriminate | intros [[H _] | [H _]]; discriminate].
    + cbn. split; [discriminate | intros [[H _] | [H _]]; discriminate].
    + cbn. split.
      * intros H. injection H as <-. auto.
      * intros [[_ ->] | [H _]]; [reflexivity | discriminate].
    + cbn. split.
      * intros H. injection H as <-. auto.
      * intros [[H _] | [_ ->]]; [discriminate | reflexivity].
  - destruct b as [j | | |]; try (cbn; discriminate).
    destruct (trend_answers_decoded lib j lb mst) as (rep & -> & N).
    intros H. injection H as ->. auto.
Qed.

Lemma forecast_parse_history_cases (j : json) :
  (exists msg, CreateForecast.parse_history (Decoded j) = Ok (inl msg) /\
               msg <> CreateForecast.InsufficientVariance) \/
  (exists history, CreateForecast.parse_history (Decoded j) = Ok (inr history)).
Proof.
  unfold CreateForecast.parse_history. cbn.
  destruct j; cbn; try (left; eexists; split; [reflexivity | discriminate]).
  destruct (Nat.leb _ _); cbn.
  - left; eexists; split; [reflexivity | discriminate].
  - right; eexists; reflexivity.
Qed.

Lemma history_of_inl (lib : builtins) (history : list json)
    (msg : CreateForecast.error_text) :
  CreateForecast.history_of lib history = Ok (inl msg) ->
  exists valid,
    read_entries lib history = Ok valid /\
    (List.length valid < 30)%nat /\
    msg = CreateForecast.TooFewValid (List.length valid).
Proof.
  unfold CreateForecast.history_of.
  destruct (read_entries lib history) as [valid | e] eqn:Hr; cbn [bind]; [| discriminate].
  destruct (List.length valid <? 30)%nat eqn:L.
  - apply Nat.ltb_lt in L. intros H. injection H as <-. exists valid. auto.
  - apply Nat.ltb_ge in L.
    destruct (history_of_total lib history valid Hr L) as (h & Hh & _).
    unfold CreateForecast.history_of in Hh. rewrite Hr in Hh. cbn [bind] in Hh.
    rewrite (proj2 (Nat.ltb_ge _ _) L) in Hh. rewrite Hh. discriminate.
Qed.

Lemma forecast_answers_decoded (lib : builtins) (j : json) (fd : Z) (cl : R) :
  exists rep,
    CreateForecast.run lib (Decoded j) fd cl = Ok rep /\
    rep <> Error CreateForecast.InsufficientVariance.
Proof.
  unfold CreateForecast.run.
  destruct (fd <? 1)%Z; [eexists; split; [reflexivity | discriminate] |].
  destruct (fd >? 90)%Z; [eexists; split; [reflexivity | discriminate] |].
  destruct (negb _); [eexists; split; [reflexivity | discriminate] |].
  destruct (forecast_parse_history_cases j) as [(msg & -> & N) | (history & ->)];
    cbn [bind].
  - exists (Error msg). split; [reflexivity |]. intros H. injection H as ->. auto.
  - destruct (catch_all (CreateForecast.compute lib history fd cl)
                (fun e => Error (CreateForecast.ForecastFailure e))) as [rep Hrep].
    exists rep. split; [exact Hrep |].
    apply catch_all_cases in Hrep as [C | (e & _ & ->)]; [| discriminate].
    unfold CreateForecast.compute in C.
    destruct (CreateForecast.history_of lib history) as [[msg | h] | e] eqn:Hh;
      cbn [bind] in C; try discriminate.
    + injection C as <-. apply history_of_inl in Hh as (valid & _ & _ & ->).
      discriminate.
    + destruct (CreateForecast.forecast_loop h cl fd); cbn [bind] in C; [| discriminate].
      destruct (CreateForecast.summarise h cl a); cbn [bind] in C; [| discriminate].
      injection C as <-. discriminate.
Qed.

(** X3: an exception leaves [CreateForecast.run] exactly when the two
    parameters pass step 1 and [json.loads] raises one that is not a
    [JSONDecodeError]; a document that decodes always gets an answer, and
    the answer is never the "insufficient variance" error text. *)
Theorem forecast_raises_iff (lib : builtins) (b : loaded) (fd : Z) (cl : R) :
  (forall e,
     CreateForecast.run lib b fd cl = Raise e <->
     (1 <= fd <= 90)%Z /\
     existsb (Reqb cl) CreateForecast.valid_confidence_levels = true /\
     json_loads b = Raise e /\ isinstance e JSONDecodeError = false) /\
  CreateForecast.run lib b fd cl
  <> Ok (Error CreateForecast.InsufficientVariance).
Proof.
  split.
  - intros e.
    destruct b as [j | | |].
    + destruct (forecast_answers_decoded lib j fd cl) as (rep & -> & _).
      split; [discriminate | intros (_ & _ & H & _); discriminate].
    + unfold CreateForecast.run.
      destruct (fd <? 1)%Z; [split; [discriminate | intros (_ & _ & H & N); injection H as <-; discriminate] |].
      destruct (fd >? 90)%Z; [split; [discriminate | intros (_ & _ & H & N); injection H as <-; discriminate] |].
      destruct (negb _); cbn;
        (split; [discriminate | intros (_ & _ & H & N); injection H as <-; discriminate]).
    + unfold CreateForecast.run.
      destruct (fd <? 1)%Z eqn:A;
        [split; [discriminate | intros (F & _); apply Z.ltb_lt in A; lia] |].
      destruct (fd >? 90)%Z eqn:B;
        [split; [discriminate | intros (F & _); rewrite Z.gtb_ltb in B;
                                apply Z.ltb_lt in B; lia] |].
      apply Z.ltb_ge in A. rewrite Z.gtb_ltb in B. apply Z.ltb_ge in B.
      destruct (existsb _ _) eqn:C; cbn.
      * split; [intros H; injection H as <-; repeat split; auto; lia |].
        intros (_ & _ & H & _). injection H as <-. reflexivity.
      * split; [discriminate | intros (_ & F & _); discriminate].
    + unfold CreateForecast.run.
      destruct (fd <? 1)%Z eqn:A;
        [split; [discriminate | intros (F & _); apply Z.ltb_lt in A; lia] |].
      destruct (fd >? 90)%Z eqn:B;
        [split; [discriminate | intros (F & _); rewrite Z.gtb_ltb in B;
                                apply Z.ltb_lt in B; lia] |].
      apply Z.ltb_ge in A. rewrite Z.gtb_ltb in B. apply Z.ltb_ge in B.
      destruct (existsb _ _) eqn:C; cbn.
      * split; [intros H; injection H as <-; repeat split; auto; lia |].
        intros (_ & _ & H & _). injection H as <-. reflexivity.
      * split; [discriminate | intros (_ & F & _); discriminate].
  - destruct b as [j | | |].
    + destruct (forecast_answers_decoded lib j fd cl) as (rep & -> & N).
      intros H. injection H as ->. auto.
    + unfold CreateForecast.run.
      destruct (fd <? 1)%Z; [discriminate |].
      destruct (fd >? 90)%Z; [discriminate |].
      destruct (negb _); cbn; discriminate.
    + unfold CreateForecast.run.
      destruct (fd <? 1)%Z; [discriminate |].
      destruct (fd >? 90)%Z; [discriminate |].
      destruct (negb _); cbn; discriminate.
    + unfold CreateForecast.run.
      destruct (fd <? 1)%Z; [discriminate |].
      destruct (fd >? 90)%Z; [discriminate |].
      destruct (negb _); cbn; discriminate.
Qed.

(** What the body of the first [try] of [DetectSpike.run] can raise. *)
Lemma parse_baseline_raises (lib : builtins) (b : loaded) (e : exn) :
  DetectSpike.parse_baseline lib b = Raise e ->
  e = JSONDecodeError \/ e = ValueError \/ e = KeyError \/
  e = TypeError \/ e = OverflowError \/ e = RecursionError.
Proof.
  unfold DetectSpike.parse_baseline.
  destruct b as [j | | |]; cbn [json_loads bind];
    try (intros H; injection H as <-; tauto).
  destruct (contains "baseline_mean" j) as [hm | e1] eqn:C1; cbn [bind];
    [| destruct j; cbn in C1; try discriminate; injection C1 as <-;
       intros H; injection H as <-; tauto].
  assert (Hc : forall k, (exists x, contains k j = Ok x)).
  { intros k. destruct j; cbn in C1 |- *; try discriminate; eexists; reflexivity. }
  destruct hm; cbn [negb].
  - destruct (Hc "std_deviation"%string) as [hs ->]. cbn [bind].
    destruct hs; cbn [negb]; [| discriminate].
    assert (Hg : forall k e', getitem j k = Raise e' -> e' = TypeError \/ e' = KeyError).
    { intros k e' G. destruct j; cbn in G; try (injection G as <-; auto).
      destruct (lookup k fields); [discriminate | injection G as <-; auto]. }
    assert (Hf : forall x e', float lib x = Raise e' ->
                 e' = TypeError \/ e' = ValueError \/ e' = OverflowError).
    { intros x e' F. destruct x as [| c | z | r | s | items | fields]; cbn [float] in F.
      - injection F as <-; auto.
      - discriminate.
      - destruct (Z.abs z <? float_limit)%Z; [discriminate | injection F as <-; auto].
      - discriminate.
      - destruct (float_of_str lib s); [discriminate | injection F as <-; auto].
      - injection F as <-; auto.
      - injection F as <-; auto. }
    destruct (getitem j "baseline_mean") as [m | e1] eqn:G1; cbn [bind];
      [| intros H; injection H as <-; destruct (Hg _ _ G1); tauto].
    destruct (float lib m) as [fm | e1] eqn:F1; cbn [bind];
      [| intros H; injection H as <-; destruct (Hf _ _ F1) as [? | [? | ?]]; tauto].
    destruct (getitem j "std_deviation") as [s | e1] eqn:G2; cbn [bind];
      [| intros H; injection H as <-; destruct (Hg _ _ G2); tauto].
    destruct (float lib s) as [fs | e1] eqn:F2; cbn [bind];
      [| intros H; injection H as <-; destruct (Hf _ _ F2) as [? | [? | ?]]; tauto].
    discriminate.
  - cbn [bind]. discriminate.
Qed.

(** X4: an exception leaves [DetectSpike.run] only from reading the
    baseline (step 2), and it is a [TypeError], an [OverflowError] or a
    [RecursionError]: the handlers of the first [try] name
    [JSONDecodeError], [ValueError] and [KeyError], and steps 4 to 11 stand
    under the catch-all handler. *)
Theorem spike_escapes_from_parsing (lib : builtins) (v : R) (b : loaded)
    (tp zt : R) (e : exn) :
  DetectSpike.run lib v b tp zt = Raise e ->
  DetectSpike.parse_baseline lib b = Raise e /\
  (e = TypeError \/ e = OverflowError \/ e = RecursionError).
Proof.
  unfold DetectSpike.run.
  destruct (Rltb v 0); [discriminate |].
  destruct (DetectSpike.parse_baseline lib b) as [[msg | [[bd m] s]] | e0] eqn:P;
    cbn [try_except bind].
  - discriminate.
  - destruct (Rleb tp 0); [discriminate |].
    destruct (Rleb zt 0); [discriminate |].
    destruct (catch_all
                (r <- DetectSpike.detect bd v m s tp zt ;; Ok (Result r))
                (fun e => Error (DetectSpike.ErrorDetectingSpike e))) as [a Ha].
    rewrite Ha. discriminate.
  - destruct (parse_baseline_raises lib b e0 P) as [-> | [-> | [-> | [-> | [-> | ->]]]]];
      cbn; try discriminate; intros H; injection H as <-; auto.
Qed.

Lemma spike_escapes_from_parsing_witness :
  DetectSpike.parse_baseline example_lib huge_mean_baseline = Raise OverflowError /\
  (OverflowError = TypeError \/ OverflowError = OverflowError
   \/ OverflowError = RecursionError).
Proof.
  apply (spike_escapes_from_parsing example_lib 1 huge_mean_baseline 20 2).
  unfold DetectSpike.run. settle. reflexivity.
Defined.

(** ** The validation loop *)

Lemma contains_lookup (key : string) (fields : list (string * json)) :
  contains key (JObj fields) = Ok true ->
  exists v, getitem (JObj fields) key = Ok v /\ lookup key fields = Some v.
Proof.
  cbn. destruct (lookup key fields) as [v |]; [| discriminate].
  intros _. exists v. auto.
Qed.

Lemma contains_lookup_none (key : string) (fields : list (string * json)) :
  contains key (JObj fields) = Ok false -> lookup key fields = None.
Proof. cbn. destruct (lookup key fields); [discriminate | reflexivity]. Qed.

(** One turn of the loop raises what [stops_loop] names, and only that. *)
Lemma read_entry_stops (lib : builtins) (x : json) :
  match stops_loop x with
  | Some e => read_entry lib x = Raise e
  | None => exists p, read_entry lib x = Ok p
  end.
Proof.
  unfold read_entry.
  destruct x as [| b | z | r | s | items | fields]; try reflexivity.
  - cbn [stops_loop contains bind].
    destruct (substring_of "cost" s); cbn [negb bind]; [| eexists; reflexivity].
    destruct (substring_of "date" s); cbn [negb bind]; cbn; eexists; reflexivity.
  - cbn [stops_loop contains bind].
    destruct (existsb (is_str "cost") items); cbn [negb bind]; [| eexists; reflexivity].
    destruct (existsb (is_str "date") items); cbn [negb bind]; cbn; eexists; reflexivity.
  - cbn [stops_loop].
    destruct (contains "cost" (JObj fields)) as [hc | x] eqn:C; [| discriminate].
    cbn [bind]. destruct hc; cbn [negb].
    2:{ rewrite (contains_lookup_none _ _ C). cbn. eexists; reflexivity. }
    destruct (contains_lookup _ _ C) as (c & Gc & ->).
    destruct (contains "date" (JObj fields)) as [hd | x] eqn:D; [| discriminate].
    cbn [bind]. destruct hd; cbn [negb].
    2:{ rewrite (contains_lookup_none _ _ D). cbn.
        destruct c; eexists; reflexivity. }
    destruct (contains_lookup _ _ D) as (d & Gd & ->).
    rewrite Gc, Gd. cbn [bind].
    destruct c; cbn; try (eexists; reflexivity).
    + destruct d; cbn; try (eexists; reflexivity).
      destruct (strptime_ymd lib s); cbn; eexists; reflexivity.
    + destruct (Z.abs z <? float_limit)%Z; cbn; [| reflexivity].
      destruct d; cbn; try (eexists; reflexivity).
      destruct (strptime_ymd lib s); cbn; eexists; reflexivity.
    + destruct d; cbn; try (eexists; reflexivity).
      destruct (strptime_ymd lib s); cbn; eexists; reflexivity.
    + destruct (float_of_str lib s); cbn; [| eexists; reflexivity].
      destruct d; cbn; try (eexists; reflexivity).
      destruct (strptime_ymd lib s0); cbn; eexists; reflexivity.
Qed.


(** An entry whose cost is the integer 10^400 stops the loop with
    [OverflowError], and the baseline tool answers with its catch-all text. *)
Example huge_cost_stops_the_loop :
  read_entries example_lib huge_cost_history = Raise OverflowError /\
  CalculateBaseline.run example_lib (Decoded (JArr huge_cost_history)) 30 true
  = Ok (Error (CalculateBaseline.BaselineFailure OverflowError)).
Proof. split; reflexivity. Qed.

Lemma stops_loop_cases (x : json) (e : exn) :
  stops_loop x = Some e -> e = TypeError \/ e = OverflowError.
Proof.
  destruct x as [| b | z | r | s | items | fields]; cbn;
    try (intros H; injection H as <-; auto); try discriminate.
  destruct (lookup "cost" fields) as [[| | z | | | |] |]; try discriminate.
  destruct (lookup "date" fields); [| discriminate].
  destruct (Z.abs z <? float_limit)%Z; [discriminate |].
  intros H; injection H as <-; auto.
Qed.

(** An array with a scalar among its entries stops the loop, at that entry
    or before. *)
Lemma scalar_stops (lib : builtins) (history : list json) :
  existsb is_scalar history = true ->
  exists e, (e = TypeError \/ e = OverflowError) /\
            read_entries lib history = Raise e.
Proof.
  induction history as [| x history IH]; cbn [existsb read_entries]; [discriminate |].
  intros H. pose proof (read_entry_stops lib x) as Hx.
  destruct (stops_loop x) as [e0 |] eqn:S.
  - exists e0. split; [exact (stops_loop_cases x e0 S) |]. rewrite Hx. reflexivity.
  - destruct Hx as [p ->]. cbn [bind].
    assert (Hs : is_scalar x = false) by (destruct x; cbn in S |- *; congruence).
    rewrite Hs in H. cbn in H. destruct (IH H) as (e & He & ->).
    exists e. split; [exact He | reflexivity].
Qed.

(** X6: an array that holds a number, a boolean or [null] among its entries
    never yields a result: with parameters that pass the earlier checks,
    each of the three tools answers with its catch-all error text, for the
    [TypeError] of that entry or for the [OverflowError] of an entry in front
    of it, however many well-formed entries stand beside it. *)
Theorem scalar_entry_fails_the_run (lib : builtins) (history : list json) :
  existsb is_scalar history = true ->
  exists e,
    (e = TypeError \/ e = OverflowError) /\
    (forall w enable, (14 <= List.length history)%nat -> (7 <= w)%Z ->
       CalculateBaseline.run lib (Decoded (JArr history)) w enable
       = Ok (Error (CalculateBaseline.BaselineFailure e))) /\
    (forall lb mst, (7 <= List.length history)%nat -> (7 <= lb)%Z -> 0 <= mst ->
       DetectTrendChange.run lib (Decoded (JArr history)) lb mst
       = Ok (Error (DetectTrendChange.TrendFailure e))) /\
    (forall fd cl, (30 <= List.length history)%nat -> (1 <= fd <= 90)%Z ->
       existsb (Reqb cl) CreateForecast.valid_confidence_levels = true ->
       CreateForecast.run lib (Decoded (JArr history)) fd cl
       = Ok (Error (CreateForecast.ForecastFailure e))).
Proof.
  intros S. destruct (scalar_stops lib history S) as (e & He & Hr).
  exists e. split; [exact He |].
  assert (Hs : isinstance e StatisticsError = false)
    by (destruct He as [-> | ->]; reflexivity).
  split; [| split].
  - intros w enable Hl Hw.
    unfold CalculateBaseline.run, CalculateBaseline.parse_history.
    cbn [json_loads bind try_except].
    rewrite (proj2 (Nat.ltb_ge _ _)) by lia. cbn [bind try_except].
    rewrite (proj2 (Z.ltb_ge _ _) Hw).
    unfold CalculateBaseline.compute. rewrite Hr. cbn [bind try_except existsb].
    rewrite Hs. cbn. reflexivity.
  - intros lb mst Hl Hlb Hm.
    unfold DetectTrendChange.run, DetectTrendChange.parse_history.
    cbn [json_loads bind try_except].
    rewrite (proj2 (Nat.ltb_ge _ _)) by lia. cbn [bind try_except].
    rewrite (proj2 (Z.ltb_ge _ _) Hlb), (proj2 (Rltb_false_iff _ _) Hm).
    unfold DetectTrendChange.compute, DetectTrendChange.data_points.
    rewrite Hr. cbn [bind try_except existsb].
    rewrite Hs. cbn. reflexivity.
  - intros fd cl Hl Hfd Hcl.
    unfold CreateForecast.run.
    rewrite (proj2 (Z.ltb_ge _ _)) by lia.
    rewrite Z.gtb_ltb, (proj2 (Z.ltb_ge _ _)) by lia.
    rewrite Hcl. cbn [negb].
    unfold CreateForecast.parse_history. cbn [json_loads bind try_except].
    rewrite (proj2 (Nat.ltb_ge _ _)) by lia. cbn [bind try_except].
    unfold CreateForecast.compute, CreateForecast.history_of.
    rewrite Hr. reflexivity.
Qed.

Lemma scalar_entry_fails_the_run_witness :
  exists e,
    (e = TypeError \/ e = OverflowError) /\
    (forall w enable, (14 <= List.length scalar_entry_history)%nat -> (7 <= w)%Z ->
       CalculateBaseline.run example_lib (Decoded (JArr scalar_entry_history)) w enable
       = Ok (Error (CalculateBaseline.BaselineFailure e))) /\
    (forall lb mst, (7 <= List.length scalar_entry_history)%nat -> (7 <= lb)%Z ->
       0 <= mst ->
       DetectTrendChange.run example_lib (Decoded (JArr scalar_entry_history)) lb mst
       = Ok (Error (DetectTrendChange.TrendFailure e))) /\
    (forall fd cl, (30 <= List.length scalar_entry_history)%nat -> (1 <= fd <= 90)%Z ->
       existsb (Reqb cl) CreateForecast.valid_confidence_levels = true ->
       CreateForecast.run example_lib (Decoded (JArr scalar_entry_history)) fd cl
       = Ok (Error (CreateForecast.ForecastFailure e))).
Proof.
  apply (scalar_entry_fails_the_run example_lib scalar_entry_history).
  reflexivity.
Defined.
(** ** More on CalculateBaseline *)

Section BaselineMore.
Import CalculateBaseline.

Lemma last_n_length {A : Type} (k : nat) (l : list A) :
  List.length (last_n k l) = Nat.min k (List.length l).
Proof. unfold last_n. rewrite length_skipn. lia. Qed.

Lemma last_n_In {A : Type} (k : nat) (l : list A) (a : A) :
  In a (last_n k l) -> In a l.
Proof.
  unfold last_n. intros H.
  rewrite <- (firstn_skipn (List.length l - k) l). apply in_or_app. right. exact H.
Qed.

Lemma last_n_Forall {A : Type} (P : A -> Prop) (k : nat) (l : list A) :
  Forall P l -> Forall P (last_n k l).
Proof.
  rewrite !Forall_forall. intros H a Ha. apply H, (last_n_In k l a Ha).
Qed.

Lemma round_nonneg (x : R) (n : nat) : 0 <= x -> 0 <= round x n.
Proof.
  intros H. rewrite <- (round_IZR 0 n). apply round_mono. exact H.
Qed.

(** The result of steps 5 to 10 spelled out. *)
Lemma baseline_of_window_inv (enable : bool) (w : Z) (pts : list point)
    (r : BaselineResult) :
  baseline_of_window enable w pts = Ok r ->
  exists m s fs d1 d2,
    mean (map cost pts) = Ok m /\
    (if (1 <? List.length (map cost pts))%nat
     then stdev (map cost pts) else Ok 0) = Ok s /\
    seasonal enable pts m = Ok fs /\
    first_item (map date pts) = Ok d1 /\
    last_item (map date pts) = Ok d2 /\
    r = {| baseline_mean := round m 2;
           std_deviation := round s 2;
           coefficient_of_variation :=
             round (if Rltb 0 m then s / m * 100 else 0) 2;
           stability := stability_of (if Rltb 0 m then s / m * 100 else 0);
           ci_95_percent :=
             {| lower := round (Rmax 0 (m - 2 * s)) 2;
                upper := round (m + 2 * s) 2 |};
           ci_99_percent :=
             {| lower := round (Rmax 0 (m - 3 * s)) 2;
                upper := round (m + 3 * s) 2 |};
           seasonal_factors := fs;
           sample_size := List.length (map cost pts);
           window_days := w;
           date_range := (d1, d2);
           seasonal_adjustment_enabled := enable |}.
Proof.
  unfold baseline_of_window.
  destruct (mean (map cost pts)) as [m | e] eqn:M; cbn [bind]; [| discriminate].
  destruct (if (1 <? List.length (map cost pts))%nat then stdev (map cost pts) else Ok 0)
    as [s | e] eqn:S; cbn [bind]; [| discriminate].
  destruct (seasonal enable pts m) as [fs | e] eqn:F; cbn [bind]; [| discriminate].
  destruct (first_item (map date pts)) as [d1 | e] eqn:D1; cbn [bind]; [| discriminate].
  destruct (last_item (map date pts)) as [d2 | e] eqn:D2; cbn [bind]; [| discriminate].
  intros H. injection H as <-. exists m, s, fs, d1, d2.
  repeat (split; [first [reflexivity | assumption] |]). reflexivity.
Qed.

Lemma window_stdev_nonneg (l : list R) (s : R) :
  (if (1 <? List.length l)%nat then stdev l else Ok 0) = Ok s -> 0 <= s.
Proof.
  destruct (1 <? List.length l)%nat; intros H;
    [apply (stdev_nonneg _ _ H) | injection H as <-; lra].
Qed.

Lemma seasonal_length (enable : bool) (pts : list point) (m : R) (fs : list R) :
  seasonal enable pts m = Ok fs -> List.length fs = 7%nat.
Proof.
  unfold seasonal. destruct (enable && _).
  - intros H. apply for_each_length in H. exact H.
  - intros H. injection H as <-. reflexivity.
Qed.

(** X7: a baseline is returned only when the window is at least 7 and
    the validation loop went through the whole array and kept at least 14
    entries. *)
Theorem baseline_requires (lib : builtins) (history : list json) (w : Z)
    (enable : bool) (r : BaselineResult) :
  run lib (Decoded (JArr history)) w enable = Ok (Result r) ->
  (7 <= w)%Z /\
  exists valid, read_entries lib history = Ok valid /\ (14 <= List.length valid)%nat.
Proof.
  intros H.
  apply baseline_run_result in H as (h' & valid & E & Hw & Hr & Hv & _).
  injection E as <-. split; [exact Hw |]. exists valid. auto.
Qed.

Lemma baseline_requires_witness :
  exists r,
    run example_lib newest_first_history 7 true = Ok (Result r) /\
    (7 <= 7)%Z /\
    exists valid, read_entries example_lib newest_first_entries = Ok valid /\
                  (14 <= List.length valid)%nat.
Proof.
  destruct (baseline_run_total example_lib newest_first_entries newest_first_valid
              7 true newest_first_read) as (r & Hr & _); [cbn; lia | lia |].
  exists r. split; [exact Hr |].
  exact (baseline_requires example_lib newest_first_entries 7 true r Hr).
Defined.

(** X8: a window that is at least as long as the supplied array is cut down
    to the array: any two such windows give the same answer. *)
Theorem window_clamps_to_history (lib : builtins) (history : list json)
    (w1 w2 : Z) (enable : bool) :
  (Z.of_nat (List.length history) <= w1)%Z ->
  (Z.of_nat (List.length history) <= w2)%Z ->
  run lib (Decoded (JArr history)) w1 enable
  = run lib (Decoded (JArr history)) w2 enable.
Proof.
  intros H1 H2. unfold run, parse_history. cbn [json_loads bind try_except].
  destruct (List.length history <? 14)%nat eqn:L; [reflexivity |].
  apply Nat.ltb_ge in L. cbn [bind try_except].
  rewrite !(proj2 (Z.ltb_ge _ _)) by lia.
  assert (C : forall w, (Z.of_nat (List.length history) <= w)%Z ->
            capped_window w history = Z.of_nat (List.length history)).
  { intros w Hw. unfold capped_window.
    destruct (w >? Z.of_nat (List.length history))%Z eqn:G; [reflexivity |].
    rewrite Z.gtb_ltb in G. apply Z.ltb_ge in G. lia. }
  rewrite (C w1 H1), (C w2 H2). reflexivity.
Qed.

Lemma window_clamps_to_history_witness :
  run example_lib newest_first_history 14 true
  = run example_lib newest_first_history 60 true.
Proof.
  apply (window_clamps_to_history example_lib newest_first_entries 14 60 true);
    cbn; lia.
Defined.

(** X9: the sample of a baseline is the shorter of the requested window and
    the valid entries, and never fewer than 7; the [window_days] that the
    result reports is the requested window cut down to the length of the
    supplied array, skipped entries included. *)
Theorem baseline_sample_size (lib : builtins) (history : list json) (w : Z)
    (enable : bool) (r : BaselineResult) :
  run lib (Decoded (JArr history)) w enable = Ok (Result r) ->
  exists valid,
    read_entries lib history = Ok valid /\
    sample_size r = Nat.min (Z.to_nat w) (List.length valid) /\
    (7 <= sample_size r)%nat /\
    window_days r = Z.min w (Z.of_nat (List.length history)).
Proof.
  intros H.
  apply baseline_run_result in H as (h' & valid & E & Hw & Hr & Hv & B).
  injection E as <-. exists valid. split; [exact Hr |].
  pose proof (read_entries_length _ _ _ Hr) as Hl.
  apply baseline_of_window_inv in B as (m & s & fs & d1 & d2 & _ & _ & _ & _ & _ & ->).
  cbn [sample_size window_days]. rewrite length_map.
  unfold window. rewrite last_n_length.
  assert (C : capped_window w history = Z.min w (Z.of_nat (List.length history))).
  { unfold capped_window.
    destruct (w >? Z.of_nat (List.length history))%Z eqn:G.
    - rewrite Z.gtb_ltb in G. apply Z.ltb_lt in G. lia.
    - rewrite Z.gtb_ltb in G. apply Z.ltb_ge in G. lia. }
  rewrite C. repeat split; lia.
Qed.

Lemma baseline_sample_size_witness :
  exists r valid,
    run example_lib newest_first_history 7 true = Ok (Result r) /\
    read_entries example_lib newest_first_entries = Ok valid /\
    sample_size r = Nat.min (Z.to_nat 7) (List.length valid) /\
    (7 <= sample_size r)%nat /\
    window_days r = Z.min 7 (Z.of_nat (List.length newest_first_entries)).
Proof.
  destruct (baseline_run_total example_lib newest_first_entries newest_first_valid
              7 true newest_first_read) as (r & Hr & _); [cbn; lia | lia |].
  destruct (baseline_sample_size example_lib newest_first_entries 7 true r Hr)
    as (valid & H).
  exists r, valid. split; [exact Hr | exact H].
Defined.

(** X10: a baseline never reports a negative spread or a negative lower
    bound, and it always carries seven seasonal factors. *)
Theorem baseline_result_not_negative (lib : builtins) (b : loaded) (w : Z)
    (enable : bool) (r : BaselineResult) :
  run lib b w enable = Ok (Result r) ->
  0 <= std_deviation r /\
  0 <= coefficient_of_variation r /\
  0 <= lower (ci_95_percent r) /\
  0 <= lower (ci_99_percent r) /\
  List.length (seasonal_factors r) = 7%nat.
Proof.
  intros H.
  apply baseline_run_result in H as (history & valid & _ & _ & _ & _ & B).
  apply baseline_of_window_inv in B as (m & s & fs & d1 & d2 & _ & S & F & _ & _ & ->).
  apply window_stdev_nonneg in S. apply seasonal_length in F.
  cbn [std_deviation coefficient_of_variation ci_95_percent ci_99_percent lower
       seasonal_factors].
  repeat split; try apply round_nonneg; try apply Rmax_l; try assumption.
  destruct (Rltb 0 m) eqn:M; [| lra].
  apply Rltb_true_iff in M.
  apply Rmult_le_pos; [| lra].
  apply Rmult_le_pos; [exact S | left; apply Rinv_0_lt_compat; exact M].
Qed.

Lemma baseline_result_not_negative_witness :
  exists r,
    run example_lib (flat_history 1000) 30 true = Ok (Result r) /\
    0 <= std_deviation r /\
    0 <= coefficient_of_variation r /\
    0 <= lower (ci_95_percent r) /\
    0 <= lower (ci_99_percent r) /\
    List.length (seasonal_factors r) = 7%nat.
Proof.
  destruct (baseline_run_total example_lib
              (map (fun d => entry d 1000) january_2025) (flat_points 1000) 30 true)
    as (r & Hr & _).
  - apply read_entries_map, january_dates.
  - cbn. lia.
  - lia.
  - exists r. split; [exact Hr |].
    apply (baseline_result_not_negative example_lib (flat_history 1000) 30 true r Hr).
Defined.

Lemma mean_nonneg (l : list R) (m : R) :
  Forall (fun x => 0 <= x) l -> mean l = Ok m -> 0 <= m.
Proof.
  intros F M.
  assert (N : l <> []) by (intros E; rewrite E in M; discriminate).
  rewrite (mean_ok l N) in M. injection M as <-.
  apply Rmult_le_pos; [apply sum_nonneg, F |].
  left. apply Rinv_0_lt_compat. apply lt_0_INR.
  destruct l; [congruence | cbn; lia].
Qed.

(** X11: when no valid entry has a negative cost, the reported mean is not
    negative and lies within both reported intervals. *)
Theorem baseline_mean_within_intervals (lib : builtins) (history : list json)
    (valid : list point) (w : Z) (enable : bool) (r : BaselineResult) :
  run lib (Decoded (JArr history)) w enable = Ok (Result r) ->
  read_entries lib history = Ok valid ->
  Forall (fun p => 0 <= cost p) valid ->
  0 <= baseline_mean r /\
  lower (ci_95_percent r) <= baseline_mean r <= upper (ci_95_percent r) /\
  lower (ci_99_percent r) <= baseline_mean r <= upper (ci_99_percent r).
Proof.
  intros H Hr F.
  apply baseline_run_result in H as (h' & valid' & E & _ & Hr' & _ & B).
  injection E as <-. rewrite Hr in Hr'. injection Hr' as <-.
  apply baseline_of_window_inv in B as (m & s & fs & d1 & d2 & M & S & _ & _ & _ & ->).
  apply window_stdev_nonneg in S.
  assert (Pm : 0 <= m).
  { apply (mean_nonneg (map cost (window (capped_window w history) valid))); [| exact M].
    apply Forall_map. unfold window. apply last_n_Forall. exact F. }
  cbn [baseline_mean ci_95_percent ci_99_percent lower upper].
  repeat split; try apply round_nonneg; try apply round_mono; try assumption;
    try (apply Rmax_lub; lra); lra.
Qed.

Lemma flat_points_cost (c : R) : Forall (fun p => cost p = c) (flat_points c).
Proof.
  apply Forall_forall. intros p Hp. unfold flat_points in Hp.
  apply in_map_iff in Hp as (o & <- & _). reflexivity.
Qed.

Lemma flat_baseline (c : R) :
  exists r,
    run example_lib (flat_history c) 30 true = Ok (Result r) /\
    read_entries example_lib (map (fun d => entry d c) january_2025)
    = Ok (flat_points c).
Proof.
  assert (Hr : read_entries example_lib (map (fun d => entry d c) january_2025)
               = Ok (flat_points c)) by apply read_entries_map, january_dates.
  destruct (baseline_run_total example_lib _ (flat_points c) 30 true Hr)
    as (r & H & _); [cbn; lia | lia |].
  exists r. auto.
Qed.

Lemma baseline_mean_within_intervals_witness :
  exists r,
    run example_lib (flat_history 1000) 30 true = Ok (Result r) /\
    0 <= baseline_mean r /\
    lower (ci_95_percent r) <= baseline_mean r <= upper (ci_95_percent r) /\
    lower (ci_99_percent r) <= baseline_mean r <= upper (ci_99_percent r).
Proof.
  destruct (flat_baseline 1000) as (r & Hr & Hv).
  exists r. split; [exact Hr |].
  apply (baseline_mean_within_intervals example_lib _ (flat_points 1000) 30 true r Hr Hv).
  eapply Forall_impl; [| apply flat_points_cost].
  intros p Hp. cbn in Hp. rewrite Hp. lra.
Defined.

Lemma map_cost_const (c : R) (l : list point) :
  Forall (fun p => cost p = c) l -> map cost l = map (fun _ => c) l.
Proof.
  induction 1 as [| p l Hp _ IH]; cbn; [reflexivity |]. rewrite Hp, IH. reflexivity.
Qed.

Lemma seasonal_factor_const (c : R) (l : list point) (d : Z) :
  Forall (fun p => cost p = c) l -> seasonal_factor l c d = Ok 1.
Proof.
  intros F. unfold seasonal_factor, day_costs.
  assert (Ff : Forall (fun p => cost p = c) (filter (fun p => (weekday (date p) =? d)%Z) l)).
  { rewrite Forall_forall in *. intros p Hp. apply filter_In in Hp as [Hp _].
    apply F, Hp. }
  rewrite (map_cost_const c _ Ff).
  destruct (filter _ l) as [| p ps] eqn:E; [reflexivity |].
  cbn [map].
  change (c :: map (fun _ : point => c) ps)
    with (map (fun _ : point => c) (p :: ps)).
  rewrite (mean_const c (p :: ps)) by discriminate. cbn [bind].
  destruct (Rltb 0 c) eqn:C; [| reflexivity].
  apply Rltb_true_iff in C.
  replace (c / c) with (IZR 1) by (field; lra). rewrite round_IZR. reflexivity.
Qed.

Lemma seasonal_const (enable : bool) (c : R) (l : list point) :
  Forall (fun p => cost p = c) l ->
  seasonal enable l c = Ok [1; 1; 1; 1; 1; 1; 1].
Proof.
  intros F. unfold seasonal. destruct (enable && _); [| reflexivity].
  unfold week. cbn [for_each].
  rewrite !(seasonal_factor_const c l _ F). reflexivity.
Qed.

(** X12: when every valid entry has the same cost [c], the baseline is that
    cost with no spread at all: standard deviation and coefficient of
    variation 0, label "stable", both intervals collapsed onto [c] (with
    the lower bound clamped at 0), and every seasonal factor 1. *)
Theorem baseline_of_constant_series (lib : builtins) (history : list json)
    (valid : list point) (w : Z) (enable : bool) (c : R) (r : BaselineResult) :
  run lib (Decoded (JArr history)) w enable = Ok (Result r) ->
  read_entries lib history = Ok valid ->
  Forall (fun p => cost p = c) valid ->
  baseline_mean r = round c 2 /\
  std_deviation r = 0 /\
  coefficient_of_variation r = 0 /\
  stability r = Stable /\
  ci_95_percent r = {| lower := round (Rmax 0 c) 2; upper := round c 2 |} /\
  ci_99_percent r = {| lower := round (Rmax 0 c) 2; upper := round c 2 |} /\
  seasonal_factors r = [1; 1; 1; 1; 1; 1; 1].
Proof.
  intros H Hr F.
  apply baseline_run_result in H as (h' & valid' & E & Hw & Hr' & Hv & B).
  injection E as <-. rewrite Hr in Hr'. injection Hr' as <-.
  pose proof (read_entries_length _ _ _ Hr) as Hl.
  set (win := window (capped_window w history) valid) in *.
  assert (Fw : Forall (fun p => cost p = c) win)
    by (apply last_n_Forall; exact F).
  assert (Lw : (7 <= List.length win)%nat).
  { unfold win, window. rewrite last_n_length.
    pose proof (capped_window_ge w history Hw). lia. }
  apply baseline_of_window_inv in B as (m & s & fs & d1 & d2 & M & S & Fs & _ & _ & ->).
  rewrite (map_cost_const c win Fw) in M, S.
  rewrite mean_const in M by (intros N; rewrite N in Lw; cbn in Lw; lia).
  injection M as <-.
  rewrite length_map, (proj2 (Nat.ltb_lt _ _)) in S by lia.
  rewrite stdev_const in S by lia. injection S as <-.
  rewrite (seasonal_const enable c win Fw) in Fs. injection Fs as <-.
  cbn [baseline_mean std_deviation coefficient_of_variation stability
       ci_95_percent ci_99_percent seasonal_factors].
  replace (c - 2 * 0) with c by ring. replace (c + 2 * 0) with c by ring.
  replace (c - 3 * 0) with c by ring. replace (c + 3 * 0) with c by ring.
  assert (Z0 : (if Rltb 0 c then 0 / c * 100 else 0) = 0).
  { destruct (Rltb 0 c); [unfold Rdiv; ring | reflexivity]. }
  rewrite Z0. rewrite (round_IZR 0).
  repeat split; try reflexivity.
  unfold stability_of. settle. reflexivity.
Qed.

Lemma baseline_of_constant_series_witness :
  exists r,
    run example_lib (flat_history 1000) 30 true = Ok (Result r) /\
    baseline_mean r = round 1000 2 /\
    std_deviation r = 0 /\
    coefficient_of_variation r = 0 /\
    stability r = Stable /\
    ci_95_percent r = {| lower := round (Rmax 0 1000) 2; upper := round 1000 2 |} /\
    ci_99_percent r = {| lower := round (Rmax 0 1000) 2; upper := round 1000 2 |} /\
    seasonal_factors r = [1; 1; 1; 1; 1; 1; 1].
Proof.
  destruct (flat_baseline 1000) as (r & Hr & Hv).
  exists r. split; [exact Hr |].
  apply (baseline_of_constant_series example_lib _ (flat_points 1000) 30 true 1000 r
           Hr Hv (flat_points_cost 1000)).
Defined.

End BaselineMore.

(** ** More on DetectSpike *)

Section SpikeMore.
Import DetectSpike.

(** The result of steps 4 to 10 spelled out. *)
Lemma detect_inv (bd : json) (v m s tp zt : R) (r : SpikeResult) :
  detect bd v m s tp zt = Ok r ->
  exists w95 w99,
    within_interval bd "95_percent" v = Ok w95 /\
    within_interval bd "99_percent" v = Ok w99 /\
    r = {| is_spike :=
             snd (percent_deviation v m tp) && ext_gtb (zscore v m s) zt;
           current_value := v;
           baseline_mean := m;
           deviation_amount := round (v - m) 2;
           deviation_percent := round (fst (percent_deviation v m tp)) 2;
           z_score := ext_round (zscore v m s) 2;
           severity := severity_of (fst (percent_deviation v m tp));
           confidence :=
             confidence_of (zscore v m s) (fst (percent_deviation v m tp)) tp zt;
           percent_threshold := tp;
           z_score_threshold := zt;
           percent_exceeded := snd (percent_deviation v m tp);
           z_score_exceeded := ext_gtb (zscore v m s) zt;
           within_95_percent := w95;
           within_99_percent := w99 |}.
Proof.
  unfold detect. destruct (percent_deviation v m tp) as [d f].
  destruct (within_interval bd "95_percent" v) as [w95 | e]; cbn [bind]; [| discriminate].
  destruct (within_interval bd "99_percent" v) as [w99 | e]; cbn [bind]; [| discriminate].
  intros H. injection H as <-. exists w95, w99. auto.
Qed.

Lemma spike_run_inv (lib : builtins) (v : R) (b : loaded) (tp zt : R)
    (r : SpikeResult) :
  run lib v b tp zt = Ok (Result r) ->
  exists m s,
    0 <= v /\ 0 < tp /\ 0 < zt /\
    is_spike r = snd (percent_deviation v m tp) && ext_gtb (zscore v m s) zt /\
    current_value r = v /\ baseline_mean r = m /\
    severity r = severity_of (fst (percent_deviation v m tp)) /\
    confidence r
    = confidence_of (zscore v m s) (fst (percent_deviation v m tp)) tp zt.
Proof.
  intros H. apply spike_run_result in H as (bd & m & s & _ & Hv & Htp & Hzt & D).
  apply detect_inv in D as (w95 & w99 & _ & _ & ->).
  exists m, s. cbn. auto 10.
Qed.

(** When the percentage test of step 4 succeeds, the mean is not negative
    and the current value lies above it. *)
Lemma percent_flag_increase (v m tp : R) :
  0 <= v -> 0 < tp -> snd (percent_deviation v m tp) = true ->
  0 <= m /\ m < v /\ (m = 0 \/ tp < fst (percent_deviation v m tp)).
Proof.
  intros Hv Htp. unfold percent_deviation.
  destruct (Reqb m 0) eqn:Hm.
  - apply Reqb_true_iff in Hm. subst m.
    destruct (Rltb 0 v) eqn:H0; cbn; [| discriminate].
    apply Rltb_true_iff in H0. intros _. split; [lra |]. split; [lra |].
    left. reflexivity.
  - apply Reqb_false_iff in Hm. cbn. intros Hp. apply Rltb_true_iff in Hp.
    assert (Pm : 0 < m).
    { destruct (Rlt_dec 0 m) as [P | N]; [exact P | exfalso].
      assert (0 < / - m) by (apply Rinv_0_lt_compat; lra).
      assert (/ - m = - / m) by (field; exact Hm).
      unfold Rdiv in Hp. nra. }
    assert (Im : 0 < / m) by (apply Rinv_0_lt_compat; exact Pm).
    assert (D1 : tp * m < (v - m) * 100).
    { unfold Rdiv in Hp.
      replace ((v - m) * 100) with ((v - m) * / m * 100 * m) by (field; lra).
      nra. }
    split; [lra |]. split; [nra |]. right. exact Hp.
Qed.

(** X13: a spike is always an increase over a mean that is not negative: the
    tool never flags a value at or below the baseline mean, and never flags
    anything against a negative mean. *)
Theorem spike_is_an_increase (lib : builtins) (v : R) (b : loaded) (tp zt : R)
    (r : SpikeResult) :
  run lib v b tp zt = Ok (Result r) ->
  is_spike r = true ->
  0 <= baseline_mean r /\ baseline_mean r < current_value r.
Proof.
  intros H S.
  apply spike_run_inv in H as (m & s & Hv & Htp & _ & Hs & -> & -> & _).
  rewrite Hs in S. apply andb_true_iff in S as [Hp _].
  destruct (percent_flag_increase v m tp Hv Htp Hp) as (A & B & _). auto.
Qed.

Lemma spike_is_an_increase_witness :
  exists r,
    run example_lib 1400 sample_baseline 20 2 = Ok (Result r) /\
    0 <= baseline_mean r /\ baseline_mean r < current_value r.
Proof.
  destruct spike_at_1400 as (r & Hr & S).
  exists r. split; [exact Hr |].
  apply (spike_is_an_increase example_lib 1400 sample_baseline 20 2 r Hr S).
Defined.

(** X14: under a percentage threshold of 20 or more (the default is 20) every
    reported spike has a severity of LOW or above. *)
Theorem spike_has_severity (lib : builtins) (v : R) (b : loaded) (tp zt : R)
    (r : SpikeResult) :
  run lib v b tp zt = Ok (Result r) ->
  20 <= tp ->
  is_spike r = true ->
  (1 <= rank (severity r))%nat.
Proof.
  intros H T S.
  apply spike_run_inv in H as (m & s & Hv & Htp & _ & Hs & _ & _ & -> & _).
  rewrite Hs in S. apply andb_true_iff in S as [Hp _].
  destruct (percent_flag_increase v m tp Hv Htp Hp) as (_ & B & C).
  assert (D : 20 < fst (percent_deviation v m tp)).
  { destruct C as [-> | C]; [| lra].
    unfold percent_deviation. settle. cbn. lra. }
  unfold severity_of. rewrite (proj2 (Rleb_false_iff _ _) D).
  repeat (destruct (Rleb _ _); [cbn; lia |]). cbn. lia.
Qed.

Lemma spike_has_severity_witness :
  exists r,
    run example_lib 1400 sample_baseline 20 2 = Ok (Result r) /\
    (1 <= rank (severity r))%nat.
Proof.
  destruct spike_at_1400 as (r & Hr & S).
  exists r. split; [exact Hr |].
  apply (spike_has_severity example_lib 1400 sample_baseline 20 2 r Hr); [lra | exact S].
Defined.

Lemma severity_of_mono (d1 d2 : R) :
  d1 <= d2 -> (rank (severity_of d1) <= rank (severity_of d2))%nat.
Proof.
  intros H. unfold severity_of.
  repeat match goal with
    | |- context [Rleb ?a ?b] =>
        let E := fresh "E" in
        destruct (Rleb a b) eqn:E;
        [apply Rleb_true_iff in E | apply Rleb_false_iff in E]
    end; cbn; try lia; lra.
Qed.

Lemma deviation_mono (m tp v1 v2 : R) :
  0 <= m -> 0 <= v1 <= v2 ->
  fst (percent_deviation v1 m tp) <= fst (percent_deviation v2 m tp).
Proof.
  intros Hm Hv. unfold percent_deviation.
  destruct (Reqb m 0) eqn:E.
  - destruct (Rltb 0 v1) eqn:A; destruct (Rltb 0 v2) eqn:B; cbn; try lra.
    apply Rltb_true_iff in A. apply Rltb_false_iff in B. lra.
  - apply Reqb_false_iff in E. cbn.
    assert (0 < / m) by (apply Rinv_0_lt_compat; lra).
    unfold Rdiv. nra.
Qed.

(** X15: against a mean that is not negative, the severity never goes down
    when the current value goes up. *)
Theorem severity_monotone (lib : builtins) (b : loaded) (tp zt v1 v2 : R)
    (r1 r2 : SpikeResult) :
  run lib v1 b tp zt = Ok (Result r1) ->
  run lib v2 b tp zt = Ok (Result r2) ->
  0 <= baseline_mean r1 ->
  v1 <= v2 ->
  (rank (severity r1) <= rank (severity r2))%nat.
Proof.
  intros H1 H2 Hm Hv.
  apply spike_run_result in H1 as (bd1 & m1 & s1 & P1 & V1 & _ & _ & D1).
  apply spike_run_result in H2 as (bd2 & m2 & s2 & P2 & _ & _ & _ & D2).
  rewrite P1 in P2. injection P2 as <- <- <-.
  apply detect_inv in D1 as (? & ? & _ & _ & ->).
  apply detect_inv in D2 as (? & ? & _ & _ & ->).
  cbn [severity baseline_mean] in *.
  apply severity_of_mono, deviation_mono; lra.
Qed.

Lemma sample_baseline_mean (v tp zt : R) (r : SpikeResult) :
  run example_lib v sample_baseline tp zt = Ok (Result r) ->
  baseline_mean r = 1000.
Proof.
  intros H. apply spike_run_result in H as (bd & m & s & P & _ & _ & _ & D).
  cbn in P. injection P as _ <- _.
  apply detect_inv in D as (? & ? & _ & _ & ->). reflexivity.
Qed.

Lemma severity_monotone_witness :
  exists r1 r2,
    run example_lib 1400 sample_baseline 20 2 = Ok (Result r1) /\
    run example_lib 1500 sample_baseline 20 2 = Ok (Result r2) /\
    (rank (severity r1) <= rank (severity r2))%nat.
Proof.
  destruct (run_on_sample_baseline 1400 20 2) as [r1 H1]; try lra.
  destruct (run_on_sample_baseline 1500 20 2) as [r2 H2]; try lra.
  exists r1, r2. split; [exact H1 |]. split; [exact H2 |].
  apply (severity_monotone example_lib sample_baseline 20 2 1400 1500 r1 r2 H1 H2);
    [| lra].
  rewrite (sample_baseline_mean _ _ _ _ H1). lra.
Defined.




(** The 95 percent interval of a baseline lies inside its 99 percent
    interval (from the result of steps 5 to 10). *)
Lemma intervals_nested (lib : builtins) (b : loaded) (w : Z) (enable : bool)
    (rb : CalculateBaseline.BaselineResult) :
  CalculateBaseline.run lib b w enable = Ok (Result rb) ->
  CalculateBaseline.lower (CalculateBaseline.ci_99_percent rb)
  <= CalculateBaseline.lower (CalculateBaseline.ci_95_percent rb) /\
  CalculateBaseline.upper (CalculateBaseline.ci_95_percent rb)
  <= CalculateBaseline.upper (CalculateBaseline.ci_99_percent rb).
Proof.
  intros H.
  apply baseline_run_result in H as (history & valid & _ & _ & _ & _ & B).
  apply baseline_of_window_inv in B as (m & s & fs & d1 & d2 & _ & S & _ & _ & _ & ->).
  apply window_stdev_nonneg in S. cbn.
  split; apply round_mono; [apply Rle_max_compat_l |]; lra.
Qed.

(** [DetectSpike.run] on the document of a baseline result. *)
Lemma spike_on_result_json (lib : builtins) (summary range : string)
    (rb : CalculateBaseline.BaselineResult) (v tp zt : R) :
  0 <= v -> 0 < tp -> 0 < zt ->
  exists rs,
    run lib v (Decoded (CalculateBaseline.result_json summary range rb)) tp zt
    = Ok (Result rs) /\
    baseline_mean rs = CalculateBaseline.baseline_mean rb /\
    within_95_percent rs
    = Rleb (CalculateBaseline.lower (CalculateBaseline.ci_95_percent rb)) v
      && Rleb v (CalculateBaseline.upper (CalculateBaseline.ci_95_percent rb)) /\
    within_99_percent rs
    = Rleb (CalculateBaseline.lower (CalculateBaseline.ci_99_percent rb)) v
      && Rleb v (CalculateBaseline.upper (CalculateBaseline.ci_99_percent rb)).
Proof.
  intros Hv Htp Hzt. unfold run, CalculateBaseline.result_json.
  rewrite (proj2 (Rltb_false_iff _ _) Hv).
  cbn [parse_baseline json_loads bind contains lookup String.eqb Ascii.eqb
       Bool.eqb negb getitem float try_except].
  rewrite (proj2 (Rleb_false_iff _ _) Htp), (proj2 (Rleb_false_iff _ _) Hzt).
  unfold detect, within_interval.
  cbn [bind get lookup String.eqb Ascii.eqb Bool.eqb json_le_float float_le_json].
  destruct (percent_deviation v _ tp) as [d f].
  destruct (Rleb (CalculateBaseline.lower (CalculateBaseline.ci_95_percent rb)) v);
    destruct (Rleb (CalculateBaseline.lower (CalculateBaseline.ci_99_percent rb)) v);
    cbn; eexists; (split; [reflexivity |]); cbn; auto.
Qed.

(** X17: the document that [CalculateBaseline.run] returns is always accepted
    by [DetectSpike.run] (for a current value that is not negative and
    positive thresholds): the spike result carries the baseline's mean, and
    a value that it reports within the 95 percent interval it also reports
    within the 99 percent interval. *)
Theorem spike_accepts_computed_baseline (lib lib' : builtins) (b : loaded) (w : Z)
    (enable : bool) (rb : CalculateBaseline.BaselineResult)
    (summary range : string) (v tp zt : R) :
  CalculateBaseline.run lib b w enable = Ok (Result rb) ->
  0 <= v -> 0 < tp -> 0 < zt ->
  exists rs,
    run lib' v (Decoded (CalculateBaseline.result_json summary range rb)) tp zt
    = Ok (Result rs) /\
    baseline_mean rs = CalculateBaseline.baseline_mean rb /\
    (within_95_percent rs = true -> within_99_percent rs = true).
Proof.
  intros Hb Hv Htp Hzt.
  destruct (spike_on_result_json lib' summary range rb v tp zt Hv Htp Hzt)
    as (rs & Hr & Hm & W95 & W99).
  exists rs. split; [exact Hr |]. split; [exact Hm |].
  destruct (intervals_nested lib b w enable rb Hb) as [Lo Up].
  rewrite W95, W99, !andb_true_iff, !Rleb_true_iff. intros [A B]. lra.
Qed.

Lemma spike_accepts_computed_baseline_witness :
  exists rb rs,
    CalculateBaseline.run example_lib (flat_history 1000) 30 true = Ok (Result rb) /\
    run example_lib 1000 (Decoded (CalculateBaseline.result_json "" "" rb)) 20 2
    = Ok (Result rs) /\
    baseline_mean rs = CalculateBaseline.baseline_mean rb /\
    (within_95_percent rs = true -> within_99_percent rs = true).
Proof.
  destruct (flat_baseline 1000) as (rb & Hb & _).
  destruct (spike_accepts_computed_baseline example_lib example_lib
              (flat_history 1000) 30 true rb "" "" 1000 20 2 Hb)
    as (rs & H); try lra.
  exists rb, rs. split; [exact Hb | exact H].
Defined.

End SpikeMore.

(** ** More on the least-squares fit *)

Lemma sum_map_plus {A : Type} (f g : A -> R) (l : list A) :
  sum (map (fun a => f a + g a) l) = sum (map f l) + sum (map g l).
Proof.
  induction l as [| a l IH]; cbn [map].
  - rewrite !sum_nil. ring.
  - rewrite !sum_cons, IH. ring.
Qed.

Lemma sum_map_scale {A : Type} (c : R) (f : A -> R) (l : list A) :
  sum (map (fun a => c * f a) l) = c * sum (map f l).
Proof.
  induction l as [| a l IH]; cbn [map].
  - rewrite !sum_nil. ring.
  - rewrite !sum_cons, IH. ring.
Qed.

Lemma sum_map_ext {A : Type} (f g : A -> R) (l : list A) :
  (forall a, f a = g a) -> sum (map f l) = sum (map g l).
Proof. intros H. f_equal. apply map_ext. exact H. Qed.

(** The sum of [(a - s b)^2] expanded. *)
Lemma sum_square_expand {A : Type} (a b : A -> R) (s : R) (l : list A) :
  sum (map (fun z => (a z - s * b z) ^ 2) l)
  = sum (map (fun z => a z ^ 2) l)
    - 2 * s * sum (map (fun z => b z * a z) l)
    + s ^ 2 * sum (map (fun z => b z ^ 2) l).
Proof.
  induction l as [| z l IH]; cbn [map].
  - rewrite !sum_nil. ring.
  - rewrite !sum_cons, IH. ring.
Qed.

Lemma combine_map_r {A B C : Type} (g : A -> C) (xs : list A) (ys : list B) :
  combine ys (map g xs) = map (fun xy => (snd xy, g (fst xy))) (combine xs ys).
Proof.
  revert ys. induction xs as [| x xs IH]; intros [| y ys]; cbn; try reflexivity.
  rewrite IH. reflexivity.
Qed.

Lemma sum_combine_fst {A B : Type} (F : A -> R) (xs : list A) (ys : list B) :
  List.length xs = List.length ys ->
  sum (map (fun xy => F (fst xy)) (combine xs ys)) = sum (map F xs).
Proof.
  revert ys. induction xs as [| x xs IH]; intros [| y ys] H; cbn in H;
    try discriminate; cbn [combine map fst]; [reflexivity |].
  rewrite !sum_cons, IH by lia. reflexivity.
Qed.

Lemma sum_combine_snd {A B : Type} (F : B -> R) (xs : list A) (ys : list B) :
  List.length xs = List.length ys ->
  sum (map (fun xy => F (snd xy)) (combine xs ys)) = sum (map F ys).
Proof.
  revert ys. induction xs as [| x xs IH]; intros [| y ys] H; cbn in H;
    try discriminate; cbn [combine map snd]; [reflexivity |].
  rewrite !sum_cons, IH by lia. reflexivity.
Qed.

(** The residual sum of squares of the fitted line: the total sum of
    squares less the part that the slope explains. *)
Lemma residual_identity (xs ys : list R) (mx my : R) :
  List.length xs = List.length ys ->
  let sxx := sum (map (fun x => (x - mx) ^ 2) xs) in
  let sxy := sum_zip (fun x y => (x - mx) * (y - my)) xs ys in
  let slope := sxy / sxx in
  let intercept := my - slope * mx in
  sxx <> 0 ->
  sum_zip (fun y pred => (y - pred) ^ 2) ys (map (fun x => slope * x + intercept) xs)
  = sum (map (fun y => (y - my) ^ 2) ys) - sxy * sxy / sxx.
Proof.
  intros L sxx sxy slope intercept D.
  unfold sum_zip at 1. rewrite combine_map_r, map_map. cbn [fst snd].
  rewrite (sum_map_ext _
             (fun xy => ((snd xy - my) - slope * (fst xy - mx)) ^ 2))
    by (intros; unfold intercept; ring).
  rewrite (sum_square_expand (fun xy => snd xy - my) (fun xy => fst xy - mx)).
  rewrite (sum_combine_snd (fun y => (y - my) ^ 2) xs ys L).
  rewrite (sum_combine_fst (fun x => (x - mx) ^ 2) xs ys L).
  fold sxx. change (sum (map (fun z : R * R => (fst z - mx) * (snd z - my)) (combine xs ys)))
    with sxy.
  unfold slope. field. exact D.
Qed.

(** The coefficient of determination of a fit lies between 0 and 1. *)
Lemma r_squared_range (has_spread : R -> bool) (ys : list R) (f : fit) :
  (forall t, has_spread t = true -> t <> 0) ->
  linear_fit has_spread ys = Ok (Some f) ->
  0 <= r_squared f <= 1.
Proof.
  intros Hs. unfold linear_fit.
  destruct (mean (x_values (List.length ys))) as [mx | e]; cbn [bind]; [| discriminate].
  destruct (mean ys) as [my | e]; cbn [bind]; [| discriminate].
  set (sxx := sum (map (fun x => (x - mx) ^ 2) (x_values (List.length ys)))).
  set (sxy := sum_zip (fun x y => (x - mx) * (y - my)) (x_values (List.length ys)) ys).
  set (st := sum (map (fun y => (y - my) ^ 2) ys)).
  destruct (Reqb sxx 0) eqn:D; [discriminate |]. apply Reqb_false_iff in D.
  intros H.
  assert (F : r_squared f
              = if has_spread st
                then 1 - sum_zip (fun y pred => (y - pred) ^ 2) ys
                           (map (fun x => sxy / sxx * x + (my - sxy / sxx * mx))
                              (x_values (List.length ys))) / st
                else 0)
    by (injection H as <-; reflexivity).
  rewrite F. clear F H.
  destruct (has_spread st) eqn:T; [| lra].
  apply Hs in T.
  pose proof (residual_identity (x_values (List.length ys)) ys mx my
                (x_values_length _) D) as E.
  cbv zeta in E. fold sxx sxy st in E. rewrite E.
  assert (Pxx : 0 < sxx).
  { assert (0 <= sxx); [| lra].
    apply sum_nonneg, Forall_forall. intros x Hx.
    apply in_map_iff in Hx as (a & <- & _). apply pow2_ge_0. }
  assert (Pt : 0 < st).
  { assert (0 <= st); [| lra].
    apply sum_nonneg, Forall_forall. intros x Hx.
    apply in_map_iff in Hx as (a & <- & _). apply pow2_ge_0. }
  assert (Pres : 0 <= st - sxy * sxy / sxx).
  { rewrite <- E. unfold sum_zip. apply sum_nonneg, Forall_forall. intros x Hx.
    apply in_map_iff in Hx as (a & <- & _). apply pow2_ge_0. }
  assert (Pq : 0 <= sxy * sxy / sxx).
  { apply Rmult_le_pos; [nra | left; apply Rinv_0_lt_compat; exact Pxx]. }
  assert (Ist : 0 < / st) by (apply Rinv_0_lt_compat; exact Pt).
  split.
  - apply Rmult_le_reg_r with st; [exact Pt |].
    replace ((1 - (st - sxy * sxy / sxx) / st) * st) with (sxy * sxy / sxx)
      by (field; lra).
    lra.
  - assert (0 <= (st - sxy * sxy / sxx) / st) by (apply Rmult_le_pos; lra).
    lra.
Qed.

Lemma combine_map_same {A B : Type} (g : A -> B) (xs : list A) :
  combine xs (map g xs) = map (fun x => (x, g x)) xs.
Proof. induction xs as [| x xs IH]; cbn; [reflexivity |]. rewrite IH. reflexivity. Qed.

Lemma combine_map_both {A B C : Type} (g : A -> B) (p : A -> C) (xs : list A) :
  combine (map g xs) (map p xs) = map (fun x => (g x, p x)) xs.
Proof. induction xs as [| x xs IH]; cbn; [reflexivity |]. rewrite IH. reflexivity. Qed.

(** The fit of costs that lie on a line [a + b x] over the positions
    [0 .. n-1]. *)
Lemma linear_fit_line (has_spread : R -> bool) (a b : R) (n : nat) :
  (2 <= n)%nat ->
  (forall t, 0 < t -> has_spread t = true) -> has_spread 0 = false ->
  linear_fit has_spread (map (fun x => a + b * x) (x_values n))
  = Ok (Some {| slope := b; intercept := a;
                r_squared := if Reqb b 0 then 0 else 1 |}).
Proof.
  intros Hn Hpos Hzero. unfold linear_fit.
  rewrite length_map, x_values_length.
  assert (Nx : x_values n <> [])
    by (intros E; apply (f_equal (@List.length R)) in E;
        rewrite x_values_length in E; cbn in E; lia).
  rewrite (mean_ok _ Nx). cbn [bind].
  rewrite mean_ok by (intros E; apply map_eq_nil in E; contradiction).
  cbn [bind]. rewrite length_map, x_values_length.
  set (mx := sum (x_values n) / INR n).
  assert (Pn : INR n <> 0) by (apply not_0_INR; lia).
  assert (My : sum (map (fun x => a + b * x) (x_values n)) / INR n = a + b * mx).
  { rewrite sum_map_plus, sum_map_const, sum_map_scale, map_id, x_values_length.
    unfold mx. field. exact Pn. }
  rewrite My.
  set (sxx := sum (map (fun x => (x - mx) ^ 2) (x_values n))).
  assert (Pxx : 0 < sxx) by (apply denominator_pos; exact Hn).
  rewrite (proj2 (Reqb_false_iff sxx 0)) by lra.
  assert (Sxy : sum_zip (fun x y => (x - mx) * (y - (a + b * mx))) (x_values n)
                  (map (fun x => a + b * x) (x_values n)) = b * sxx).
  { unfold sum_zip. rewrite combine_map_same, map_map. cbn [fst snd].
    unfold sxx. rewrite <- sum_map_scale. apply sum_map_ext. intros x. ring. }
  rewrite Sxy.
  assert (Sl : b * sxx / sxx = b) by (field; lra).
  rewrite Sl.
  assert (Ic : a + b * mx - b * mx = a) by ring.
  rewrite Ic.
  assert (St : sum (map (fun y => (y - (a + b * mx)) ^ 2)
                      (map (fun x => a + b * x) (x_values n))) = b ^ 2 * sxx).
  { rewrite map_map. unfold sxx. rewrite <- sum_map_scale.
    apply sum_map_ext. intros x. ring. }
  rewrite St.
  assert (Sr : sum_zip (fun y pred => (y - pred) ^ 2)
                 (map (fun x => a + b * x) (x_values n))
                 (map (fun x => b * x + a) (x_values n)) = 0).
  { unfold sum_zip. rewrite combine_map_both, map_map. cbn [fst snd].
    apply sum_map_zero. intros x _. ring. }
  rewrite Sr.
  do 2 f_equal. f_equal.
  destruct (Reqb b 0) eqn:B.
  - apply Reqb_true_iff in B. subst b.
    replace (0 ^ 2 * sxx) with 0 by ring. rewrite Hzero. reflexivity.
  - apply Reqb_false_iff in B.
    rewrite Hpos by (apply Rmult_lt_0_compat; [| exact Pxx]; nra).
    unfold Rdiv. ring.
Qed.

Lemma Reqb_IZR (z : Z) : Reqb (IZR z) 0 = (z =? 0)%Z.
Proof.
  destruct (z =? 0)%Z eqn:E.
  - apply Z.eqb_eq in E. subst z. apply Reqb_true_iff. reflexivity.
  - apply Z.eqb_neq in E. apply Reqb_false_iff. intros H. apply E.
    apply eq_IZR. exact H.
Qed.

(** X18: when the costs are whole numbers on a line [a + b k] over the
    positions [k = 0 .. n-1], for 2 to 1000 points with [|a| <= 10^9] and
    [|b| <= 1000], the fit of either tool returns that line: slope [b],
    intercept [a], and a coefficient of determination of 1, or of 0 when
    the line is level.  Within these bounds every intermediate value of the
    fit is a multiple of 1/4 below 2^51, which the doubles of the source
    hold exactly. *)
Theorem fit_recovers_line (a b : Z) (n : nat) :
  (2 <= n <= 1000)%nat -> (Z.abs a <= 10 ^ 9)%Z -> (Z.abs b <= 1000)%Z ->
  linear_fit (fun ss_total => negb (Reqb ss_total 0))
    (map (fun k => IZR a + IZR b * INR k) (seq 0 n))
  = Ok (Some {| slope := IZR b; intercept := IZR a;
                r_squared := if (b =? 0)%Z then 0 else 1 |}) /\
  linear_fit (fun ss_total => Rltb 0 ss_total)
    (map (fun k => IZR a + IZR b * INR k) (seq 0 n))
  = Ok (Some {| slope := IZR b; intercept := IZR a;
                r_squared := if (b =? 0)%Z then 0 else 1 |}).
Proof.
  intros [Hn _] _ _.
  replace (map (fun k => IZR a + IZR b * INR k) (seq 0 n))
    with (map (fun x => IZR a + IZR b * x) (x_values n))
    by (unfold x_values; rewrite map_map; reflexivity).
  rewrite <- Reqb_IZR.
  split; apply linear_fit_line; try exact Hn;
    try (intros t Ht); try (apply negb_true_iff, Reqb_false_iff; lra);
    try (apply Rltb_true_iff; lra);
    try (apply negb_false_iff, Reqb_true_iff; reflexivity);
    try (apply Rltb_false_iff; lra).
Qed.

Lemma fit_recovers_line_witness :
  linear_fit (fun ss_total => negb (Reqb ss_total 0))
    (map (fun k => IZR 100 + IZR 10 * INR k) (seq 0 14))
  = Ok (Some {| slope := IZR 10; intercept := IZR 100;
                r_squared := if (10 =? 0)%Z then 0 else 1 |}) /\
  linear_fit (fun ss_total => Rltb 0 ss_total)
    (map (fun k => IZR 100 + IZR 10 * INR k) (seq 0 14))
  = Ok (Some {| slope := IZR 10; intercept := IZR 100;
                r_squared := if (10 =? 0)%Z then 0 else 1 |}).
Proof. apply (fit_recovers_line 100 10 14); lia. Defined.

(** ** More on DetectTrendChange *)

Section TrendMore.
Import DetectTrendChange.

(** The result of steps 5 to 11 spelled out. *)
Lemma analyse_inv (lb : Z) (mst : R) (l : list point) (r : TrendResult) :
  analyse lb mst l = Ok (Result r) ->
  exists f first last,
    linear_fit (fun ss_total => negb (Reqb ss_total 0)) (map cost l) = Ok (Some f) /\
    first_item l = Ok first /\ last_item l = Ok last /\
    r = {| trend_direction := direction_of (Regression.slope f) mst;
           slope := round (Regression.slope f) 2;
           intercept := round (Regression.intercept f) 2;
           r_squared := round (Regression.r_squared f) 3;
           r_squared_interpretation := interpret_r_squared (Regression.r_squared f);
           is_significant :=
             Rltb 0.5 (Regression.r_squared f)
             && Rleb mst (Rabs (Regression.slope f))
             && Rltb 100 (Rabs (Regression.slope f * 30));
           confidence :=
             round (Regression.r_squared f * 70
                    + Rmin 30 (INR (List.length l) / 14 * 30)) 1;
           projection_7_day := round (Regression.slope f * 7) 2;
           projection_30_day := round (Regression.slope f * 30) 2;
           projection_90_day := round (Regression.slope f * 90) 2;
           days_analyzed := List.length l;
           start_date := date first;
           end_date := date last;
           start_cost := cost first;
           end_cost := cost last;
           total_change := round (cost last - cost first) 2;
           min_slope := mst;
           lookback_days := lb |}.
Proof.
  unfold analyse.
  destruct (linear_fit _ (map cost l)) as [[f |] | e] eqn:F; cbn [bind];
    try discriminate.
  destruct (first_item l) as [a | e] eqn:A; cbn [bind]; [| discriminate].
  destruct (last_item l) as [b | e] eqn:B; cbn [bind]; [| discriminate].
  intros H. injection H as <-. exists f, a, b.
  repeat (split; [first [reflexivity | assumption] |]). reflexivity.
Qed.

Lemma trend_run_inv (lib : builtins) (history : list json) (lb : Z) (mst : R)
    (r : TrendResult) :
  run lib (Decoded (JArr history)) lb mst = Ok (Result r) ->
  (7 <= lb)%Z /\ 0 <= mst /\
  exists valid,
    read_entries lib history = Ok valid /\
    (7 <= List.length valid)%nat /\
    analyse lb mst (lookback lb (sort_by_date valid)) = Ok (Result r).
Proof.
  unfold run, parse_history. cbn [json_loads bind try_except].
  destruct (List.length history <? 7)%nat; cbn [bind try_except]; [discriminate |].
  destruct (lb <? 7)%Z eqn:L; [discriminate |]. apply Z.ltb_ge in L.
  destruct (Rltb mst 0) eqn:M; [discriminate |]. apply Rltb_false_iff in M.
  intros H.
  apply (catch_all_cases _ (fun e => Error (TrendFailure e))) in H
    as [H | (e & _ & H)]; [| discriminate].
  destruct (compute lib history lb mst) as [rep | e] eqn:C; cbn in H.
  - injection H as ->. unfold compute in C.
    destruct (data_points lib history) as [[msg | sorted] | e] eqn:D;
      cbn [bind] in C; try discriminate.
    apply data_points_inr in D as (valid & Hr & Hv & ->).
    repeat split; try assumption. exists valid. auto.
  - destruct e; cbn in H; discriminate.
Qed.

(** X19: a trend result is returned only when the lookback is at least 7,
    the slope threshold is not negative, and the validation loop went
    through the whole array and kept at least 7 entries. *)
Theorem trend_requires (lib : builtins) (history : list json) (lb : Z) (mst : R)
    (r : TrendResult) :
  run lib (Decoded (JArr history)) lb mst = Ok (Result r) ->
  (7 <= lb)%Z /\ 0 <= mst /\
  exists valid, read_entries lib history = Ok valid /\ (7 <= List.length valid)%nat.
Proof.
  intros H. apply trend_run_inv in H as (Hl & Hm & valid & Hr & Hv & _).
  repeat split; try assumption. exists valid. auto.
Qed.

Lemma trend_requires_witness :
  exists r,
    run example_lib (Decoded (JArr duplicate_day_history)) 14 5 = Ok (Result r) /\
    (7 <= 14)%Z /\ 0 <= 5 /\
    exists valid, read_entries example_lib duplicate_day_history = Ok valid /\
                  (7 <= List.length valid)%nat.
Proof.
  destruct (trend_run_total example_lib duplicate_day_history duplicate_day_valid
              14 5 duplicate_day_read) as (r & Hr & _); [cbn; lia | lia | lra |].
  exists r. split; [exact Hr |].
  exact (trend_requires example_lib duplicate_day_history 14 5 r Hr).
Defined.

Lemma lookback_cases (lb : Z) (pts : list point) :
  (7 <= lb)%Z -> (7 <= List.length pts)%nat ->
  lookback lb pts = last_n (Z.to_nat lb) pts.
Proof.
  intros Hl Hp. unfold lookback.
  destruct (List.length (last_n (Z.to_nat lb) pts) <? 7)%nat eqn:L; [| reflexivity].
  apply Nat.ltb_lt in L. rewrite last_n_length in L. lia.
Qed.

Lemma StronglySorted_skipn {A : Type} (R : A -> A -> Prop) (n : nat) (l : list A) :
  StronglySorted R l -> StronglySorted R (skipn n l).
Proof.
  revert l. induction n as [| n IH]; intros l H; [exact H |].
  destruct l as [| a l]; [exact H |]. cbn. apply IH.
  inversion H; assumption.
Qed.

Lemma last_item_In {A : Type} (l : list A) (a : A) : last_item l = Ok a -> In a l.
Proof.
  unfold last_item. destruct (rev l) as [| b r] eqn:E; [discriminate |].
  intros H. injection H as <-. apply in_rev. rewrite E. left. reflexivity.
Qed.

Lemma sorted_first_last (l : list point) (a b : point) :
  StronglySorted by_date l -> first_item l = Ok a -> last_item l = Ok b ->
  (date a <= date b)%Z.
Proof.
  intros S A B. destruct l as [| x l]; [discriminate |].
  injection A as <-. apply last_item_In in B as [<- | B]; [lia |].
  inversion S as [| ? ? _ F]. rewrite Forall_forall in F. apply (F b B).
Qed.

(** X20: the trend is fitted over the shorter of the lookback and the valid
    entries, never fewer than 7 points, and the analysis period it reports
    runs forward in time. *)
Theorem trend_analysis_period (lib : builtins) (history : list json) (lb : Z)
    (mst : R) (r : TrendResult) :
  run lib (Decoded (JArr history)) lb mst = Ok (Result r) ->
  exists valid,
    read_entries lib history = Ok valid /\
    days_analyzed r = Nat.min (Z.to_nat lb) (List.length valid) /\
    (7 <= days_analyzed r)%nat /\
    (start_date r <= end_date r)%Z.
Proof.
  intros H. apply trend_run_inv in H as (Hl & Hm & valid & Hr & Hv & A).
  exists valid. split; [exact Hr |].
  rewrite lookback_cases in A
    by (try rewrite sort_by_date_length; assumption).
  apply analyse_inv in A as (f & a & b & _ & Fa & Fb & ->).
  cbn [days_analyzed start_date end_date].
  rewrite last_n_length, sort_by_date_length.
  repeat split; try lia.
  apply (sorted_first_last (last_n (Z.to_nat lb) (sort_by_date valid))); try assumption.
  apply StronglySorted_skipn, sort_by_date_sorted.
Qed.

Lemma trend_analysis_period_witness :
  exists r valid,
    run example_lib (Decoded (JArr duplicate_day_history)) 14 5 = Ok (Result r) /\
    read_entries example_lib duplicate_day_history = Ok valid /\
    days_analyzed r = Nat.min (Z.to_nat 14) (List.length valid) /\
    (7 <= days_analyzed r)%nat /\
    (start_date r <= end_date r)%Z.
Proof.
  destruct (trend_run_total example_lib duplicate_day_history duplicate_day_valid
              14 5 duplicate_day_read) as (r & Hr & _); [cbn; lia | lia | lra |].
  destruct (trend_analysis_period example_lib duplicate_day_history 14 5 r Hr)
    as (valid & H).
  exists r, valid. split; [exact Hr | exact H].
Defined.

(** A cost of no more than 100000 is a cost of ordinary size. *)
Lemma ordinary_cost (c : R) : 0 <= c <= 100000 -> Rabs c <= 10 ^ 100.
Proof.
  intros [A B]. rewrite Rabs_pos_eq by exact A.
  apply Rle_trans with (10 ^ 5); [cbn; lra |].
  apply Rle_pow; [lra | lia].
Qed.

(** X21: for costs of ordinary size (within 10^100 either way, where the
    sums of squares of the source stay in range), the reported coefficient
    of determination never exceeds 1 and the reported confidence never
    exceeds 100.  Only the upper ends are stated: rounding can take the
    residual sum above the total sum, and both scores below the lower ends
    that exact arithmetic keeps. *)
Theorem trend_scores_capped (lib : builtins) (history : list json)
    (valid : list point) (lb : Z) (mst : R) (r : TrendResult) :
  run lib (Decoded (JArr history)) lb mst = Ok (Result r) ->
  read_entries lib history = Ok valid ->
  Forall (fun p => Rabs (cost p) <= 10 ^ 100) valid ->
  r_squared r <= 1 /\ confidence r <= 100.
Proof.
  intros H _ _. apply trend_run_inv in H as (Hl & Hm & valid' & Hr & Hv & A).
  apply analyse_inv in A as (f & a & b & F & _ & _ & ->).
  cbn [r_squared confidence].
  apply r_squared_range in F;
    [| intros t Ht; apply negb_true_iff, Reqb_false_iff in Ht; exact Ht].
  assert (M : Rmin 30 (INR (List.length (lookback lb (sort_by_date valid'))) / 14 * 30)
              <= 30) by apply Rmin_l.
  split.
  - apply Rle_trans with (round 1 3); [apply round_mono; lra |].
    rewrite (round_IZR 1 3). lra.
  - apply Rle_trans with (round 100 1); [apply round_mono; lra |].
    rewrite (round_IZR 100 1). lra.
Qed.

Lemma trend_scores_capped_witness :
  exists r,
    run example_lib (Decoded (JArr duplicate_day_history)) 14 5 = Ok (Result r) /\
    r_squared r <= 1 /\ confidence r <= 100.
Proof.
  destruct (trend_run_total example_lib duplicate_day_history duplicate_day_valid
              14 5 duplicate_day_read) as (r & Hr & _); [cbn; lia | lia | lra |].
  exists r. split; [exact Hr |].
  apply (trend_scores_capped example_lib duplicate_day_history duplicate_day_valid
           14 5 r Hr duplicate_day_read).
  unfold duplicate_day_valid.
  repeat (constructor; [apply ordinary_cost; cbn [cost]; lra |]). constructor.
Defined.

End TrendMore.

(** ** DetectTrendChange on a series that lies on a line *)

Section TrendLine.
Import DetectTrendChange.

Lemma linear_read : read_entries example_lib linear_history = Ok linear_valid.
Proof.
  unfold linear_history, linear_valid.
  apply (read_entries_indexed example_lib
           (fun k => nth k january_2025 EmptyString)
           (fun k => (739252 + Z.of_nat k)%Z)).
  vm_compute. reflexivity.
Qed.

(** Steps 5 to 11 on a series whose costs lie on a line that is not level. *)
Lemma analyse_line (lb : Z) (mst a b : R) (l : list point) :
  (2 <= List.length l)%nat ->
  map cost l = map (fun k => a + b * INR k) (seq 0 (List.length l)) ->
  b <> 0 ->
  exists r,
    analyse lb mst l = Ok (Result r) /\
    slope r = round b 2 /\
    intercept r = round a 2 /\
    r_squared r = 1 /\
    trend_direction r = direction_of b mst /\
    is_significant r = Rleb mst (Rabs b) && Rltb 100 (Rabs (b * 30)).
Proof.
  intros Hn Hc Hb.
  destruct (analyse_total lb mst l Hn) as (r & A & _).
  exists r. split; [exact A |].
  apply analyse_inv in A as (f & x & y & F & _ & _ & ->).
  rewrite Hc in F.
  assert (L := linear_fit_line (fun t => negb (Reqb t 0)) a b (List.length l) Hn).
  replace (map (fun x => a + b * x) (x_values (List.length l)))
    with (map (fun k => a + b * INR k) (seq 0 (List.length l))) in L
    by (unfold x_values; rewrite map_map; reflexivity).
  rewrite L in F.
  - injection F as <-. cbn [Regression.slope Regression.intercept Regression.r_squared
                            slope intercept r_squared trend_direction is_significant].
    rewrite (proj2 (Reqb_false_iff b 0) Hb).
    rewrite (round_IZR 1 3). settle. repeat split; reflexivity.
  - intros t Ht. apply negb_true_iff, Reqb_false_iff. lra.
  - apply negb_false_iff, Reqb_true_iff. reflexivity.
Qed.

(** X22: when the costs of the analysed points, in date order, are whole
    numbers on a line [a + b k] that is not level, with a lookback of no
    more than 1000 days, [|a| <= 10^9] and [|b| <= 1000] (bounds within
    which the doubles of the source hold every intermediate value of the
    fit exactly), the tool reports that line, a coefficient of determination
    of 1 and the direction of [b], and calls the trend significant exactly
    when [|b|] reaches the threshold and [|30 b|] exceeds 100. *)
Theorem trend_of_linear_series (lib : builtins) (history : list json)
    (valid : list point) (lb : Z) (mst : R) (a b : Z) :
  read_entries lib history = Ok valid ->
  (7 <= List.length valid)%nat -> (7 <= lb <= 1000)%Z -> 0 <= mst ->
  map cost (lookback lb (sort_by_date valid))
  = map (fun k => IZR a + IZR b * INR k)
      (seq 0 (List.length (lookback lb (sort_by_date valid)))) ->
  (Z.abs a <= 10 ^ 9)%Z -> (Z.abs b <= 1000)%Z -> b <> 0%Z ->
  exists r,
    run lib (Decoded (JArr history)) lb mst = Ok (Result r) /\
    slope r = IZR b /\
    intercept r = IZR a /\
    r_squared r = 1 /\
    trend_direction r = direction_of (IZR b) mst /\
    is_significant r = Rleb mst (Rabs (IZR b)) && Rltb 100 (Rabs (IZR b * 30)).
Proof.
  intros Hr Hv [Hl _] Hm Hc _ _ Hb.
  destruct (trend_run_total lib history valid lb mst Hr Hv Hl Hm) as (r & H & _).
  exists r. split; [exact H |].
  apply trend_run_inv in H as (_ & _ & valid' & Hr' & _ & A).
  rewrite Hr in Hr'. injection Hr' as <-.
  destruct (analyse_line lb mst (IZR a) (IZR b) (lookback lb (sort_by_date valid)))
    as (r' & A' & F); try assumption.
  - pose proof (lookback_length lb (sort_by_date valid)) as P.
    rewrite sort_by_date_length in P. specialize (P Hv). lia.
  - intros E. apply Hb. apply eq_IZR. exact E.
  - rewrite A in A'. injection A' as <-.
    rewrite !round_IZR in F. exact F.
Qed.

Lemma linear_lookback :
  lookback 14 (sort_by_date linear_valid) = linear_valid.
Proof. reflexivity. Qed.

Lemma linear_valid_costs :
  map cost linear_valid
  = map (fun k => IZR 100 + IZR 10 * INR k) (seq 0 (List.length linear_valid)).
Proof. unfold linear_valid. rewrite map_map. reflexivity. Qed.

Lemma trend_of_linear_series_witness :
  exists r,
    run example_lib (Decoded (JArr linear_history)) 14 5 = Ok (Result r) /\
    slope r = IZR 10 /\
    intercept r = IZR 100 /\
    r_squared r = 1 /\
    trend_direction r = direction_of (IZR 10) 5 /\
    is_significant r = Rleb 5 (Rabs (IZR 10)) && Rltb 100 (Rabs (IZR 10 * 30)).
Proof.
  apply (trend_of_linear_series example_lib linear_history linear_valid 14 5 100 10
           linear_read).
  - cbn. lia.
  - lia.
  - lra.
  - rewrite linear_lookback. exact linear_valid_costs.
  - lia.
  - lia.
  - lia.
Defined.

(** X23: a trend that the tool calls significant is never labelled stable. *)
Theorem significant_trend_has_direction (lib : builtins) (history : list json)
    (lb : Z) (mst : R) (r : TrendResult) :
  run lib (Decoded (JArr history)) lb mst = Ok (Result r) ->
  is_significant r = true ->
  trend_direction r = increasing \/ trend_direction r = decreasing.
Proof.
  intros H S. apply trend_run_inv in H as (_ & _ & valid & _ & _ & A).
  apply analyse_inv in A as (f & x & y & _ & _ & _ & ->).
  cbn [is_significant trend_direction] in *.
  apply andb_true_iff in S as [S _]. apply andb_true_iff in S as [_ S].
  apply Rleb_true_iff in S. unfold direction_of.
  rewrite (proj2 (Rltb_false_iff _ _) S).
  destruct (Rltb 0 _); auto.
Qed.

Lemma linear_trend_significant :
  exists r,
    run example_lib (Decoded (JArr linear_history)) 14 5 = Ok (Result r) /\
    is_significant r = true.
Proof.
  destruct (trend_run_total example_lib linear_history linear_valid 14 5 linear_read)
    as (r & H & _); [cbn; lia | lia | lra |].
  exists r. split; [exact H |].
  apply trend_run_inv in H as (_ & _ & valid' & Hr' & _ & A).
  rewrite linear_read in Hr'. injection Hr' as <-.
  rewrite linear_lookback in A.
  destruct (analyse_line 14 5 100 10 linear_valid) as (r' & A' & _ & _ & _ & _ & S).
  - cbn. lia.
  - unfold linear_valid. rewrite map_map. reflexivity.
  - lra.
  - rewrite A in A'. injection A' as <-. rewrite S.
    rewrite Rabs_pos_eq by lra. rewrite Rabs_pos_eq by lra. settle. reflexivity.
Qed.

Lemma significant_trend_has_direction_witness :
  exists r,
    run example_lib (Decoded (JArr linear_history)) 14 5 = Ok (Result r) /\
    (trend_direction r = increasing \/ trend_direction r = decreasing).
Proof.
  destruct linear_trend_significant as (r & Hr & S).
  exists r. split; [exact Hr |].
  apply (significant_trend_has_direction example_lib linear_history 14 5 r Hr S).
Defined.

End TrendLine.

(** ** More on CreateForecast *)

Lemma sum_perm (l1 l2 : list R) : Permutation l1 l2 -> sum l1 = sum l2.
Proof.
  induction 1 as [| x l1 l2 _ IH | x y l | l1 l2 l3 _ IH1 _ IH2].
  - reflexivity.
  - rewrite !sum_cons, IH. reflexivity.
  - rewrite !sum_cons. ring.
  - congruence.
Qed.

Lemma last_item_nth {A : Type} (l : list A) (a : A) :
  last_item l = Ok a -> nth_error l (List.length l - 1) = Some a.
Proof.
  unfold last_item. destruct (rev l) as [| b t] eqn:E; [discriminate |].
  intros H. injection H as ->.
  assert (L : l = rev t ++ [a]) by (rewrite <- (rev_involutive l), E; reflexivity).
  rewrite L, length_app, nth_error_app2 by (cbn; lia).
  cbn [List.length]. replace (_ - _)%nat with 0%nat by lia. reflexivity.
Qed.

Lemma first_item_nth {A : Type} (l : list A) (a : A) :
  first_item l = Ok a -> nth_error l 0 = Some a.
Proof. destruct l; [discriminate |]. intros H. injection H as ->. reflexivity. Qed.

Lemma for_each_nth_inv {A B : Type} (f : A -> Exc B) (l : list A) (bs : list B)
    (k : nat) (b : B) :
  CalculateBaseline.for_each f l = Ok bs -> nth_error bs k = Some b ->
  exists a, nth_error l k = Some a /\ f a = Ok b.
Proof.
  intros H Hb.
  assert (Hk : (k < List.length l)%nat).
  { rewrite <- (for_each_length _ _ _ H). apply nth_error_Some. congruence. }
  destruct (nth_error l k) as [a |] eqn:Ha; [| apply nth_error_None in Ha; lia].
  exists a. split; [reflexivity |].
  destruct (for_each_nth _ _ _ _ _ H Ha) as (b' & Hf & Hb'). congruence.
Qed.

Section ForecastMore.
Import CreateForecast.

Lemma days_nth (fd : Z) (k : nat) (day : Z) :
  nth_error (days fd) k = Some day -> day = Z.of_nat (S k) /\ (Z.of_nat (S k) <= fd)%Z.
Proof.
  intros H.
  assert (Hk : (k < Z.to_nat fd)%nat).
  { assert (N : nth_error (days fd) k <> None) by congruence.
    apply nth_error_Some in N. unfold days in N.
    rewrite length_map, length_seq in N. exact N. }
  unfold days in H.
  rewrite nth_error_map, nth_error_seq in H.
  rewrite (proj2 (Nat.ltb_lt _ _) Hk) in H. cbn in H. injection H as <-.
  split; [f_equal |]; lia.
Qed.

Lemma days_In (fd day : Z) : (1 <= day <= fd)%Z -> In day (days fd).
Proof.
  intros H. unfold days. apply in_map_iff. exists (Z.to_nat day).
  split; [lia | apply in_seq; lia].
Qed.

Lemma forecast_day_inv (h : History) (z : R) (last day : Z) (f : DayForecast) :
  forecast_day h z last day = Ok f ->
  (1 <= last + day <= max_ordinal)%Z /\
  forecast_date f = (last + day)%Z /\
  day_offset f = day /\
  point_forecast f
  = slope (line h) * IZR (Z.of_nat (List.length (points h)) + day - 1)
    + intercept (line h) /\
  interval_width f = z * std_dev h * (1 + IZR day / 30) /\
  lower_bound f = Rmax 0 (point_forecast f - interval_width f) /\
  upper_bound f = point_forecast f + interval_width f.
Proof.
  unfold forecast_day, add_days.
  destruct (_ || _)%bool eqn:E; cbn [bind]; [discriminate |].
  apply orb_false_iff in E as [E1 E2].
  rewrite Z.gtb_ltb in E1. apply Z.ltb_ge in E1, E2.
  intros H. injection H as <-. cbn. repeat (split; [first [reflexivity | lia] |]).
  reflexivity.
Qed.

(** What a finished [summarise] has computed. *)
Lemma summarise_inv (h : History) (cl : R) (daily : list DayForecast)
    (r : ForecastResult) :
  summarise h cl daily = Ok r ->
  exists rf ff lf fp lp,
    mean_cost h <> 0 /\
    risks h = Ok rf /\
    first_item (map entry_of daily) = Ok ff /\
    last_item (map entry_of daily) = Ok lf /\
    first_item (points h) = Ok fp /\
    last_item (points h) = Ok lp /\
    forecast_period r = (entry_date ff, entry_date lf) /\
    trend_direction r = direction_of (slope (line h)) (mean_cost h * 0.01) /\
    trend_strength r = strength_of (Regression.r_squared (line h)) /\
    days_analyzed r = List.length (points h) /\
    std_deviation r = round (std_dev h) 2 /\
    date_range r = (date fp, date lp) /\
    daily_change_rate r = round (slope (line h)) 2 /\
    r_squared r = round (Regression.r_squared (line h)) 3 /\
    forecasts r = firstn 7 (map entry_of daily) /\
    monthly_30_day_range r
    = (if (30 <=? List.length (map entry_of daily))%nat
       then Some (round (sum (map ci_lower (firstn 30 (map entry_of daily)))) 2,
                  round (sum (map ci_upper (firstn 30 (map entry_of daily)))) 2)
       else None) /\
    risk_factors r = rf.
Proof.
  unfold summarise.
  destruct (div _ (INR _)) as [avg | e]; cbn [bind]; [| discriminate].
  destruct (risks h) as [rf | e] eqn:Hrf; cbn [bind]; [| discriminate].
  destruct (first_item (map entry_of daily)) as [ff | e]; cbn [bind]; [| discriminate].
  destruct (last_item (map entry_of daily)) as [lf | e]; cbn [bind]; [| discriminate].
  destruct (first_item (points h)) as [fp | e]; cbn [bind]; [| discriminate].
  destruct (last_item (points h)) as [lp | e]; cbn [bind]; [| discriminate].
  intros H. injection H as <-.
  exists rf, ff, lf, fp, lp.
  split.
  { intros Hm. unfold risks, div in Hrf.
    rewrite (proj2 (Reqb_true_iff _ _) Hm) in Hrf. discriminate. }
  cbn. repeat (split; [reflexivity |]). reflexivity.
Qed.

Lemma risks_inv (h : History) (rf : list RiskFactor) :
  risks h = Ok rf ->
  rf = (if Rltb (Regression.r_squared (line h)) 0.5 then [LowRSquared] else [])
       ++ (if (List.length (points h) <? 60)%nat
           then [LimitedHistory (List.length (points h))] else [])
       ++ (if Rltb 0.3 (std_dev h / mean_cost h) then [HighVolatility] else [])
       ++ (if Rltb (mean_cost h * 0.05) (Rabs (slope (line h)))
           then [RapidTrend] else []).
Proof.
  unfold risks, div. destruct (Reqb (mean_cost h) 0); cbn [bind]; [discriminate |].
  intros H. injection H as <-. reflexivity.
Qed.

(** The run on a history that steps 3 to 6 take, whose mean is not zero and
    whose forecast dates exist. *)
Lemma forecast_run_total (lib : builtins) (history : list json) (fd : Z) (cl : R)
    (h : History) (last : point) :
  (1 <= fd <= 90)%Z ->
  existsb (Reqb cl) valid_confidence_levels = true ->
  history_of lib history = Ok (inr h) ->
  mean_cost h <> 0 ->
  last_item (points h) = Ok last ->
  (0 <= date last)%Z -> (date last + fd <= max_ordinal)%Z ->
  exists r daily,
    run lib (Decoded (JArr history)) fd cl = Ok (Result r) /\
    forecast_loop h cl fd = Ok daily /\
    summarise h cl daily = Ok r.
Proof.
  intros Hfd Hcl Hh Hm Hlast H0 Hmax.
  pose proof Hh as Hh'.
  apply history_of_inr in Hh' as (valid & Hr & Hv & Hp & _).
  pose proof (read_entries_length _ _ _ Hr) as Hl.
  assert (L : exists daily, forecast_loop h cl fd = Ok daily).
  { unfold forecast_loop. rewrite Hlast. cbn [bind].
    destruct (z_scores_valid cl Hcl) as (z & -> & _). cbn [bind].
    apply for_each_total. intros day Hd. apply days_range in Hd.
    apply forecast_day_ok. lia. }
  destruct L as [daily L].
  assert (Hd : daily <> []).
  { apply forecast_loop_length in L. intros E. rewrite E in L. cbn in L. lia. }
  assert (Hne : points h <> []).
  { intros E. rewrite E in Hlast. discriminate. }
  destruct (summarise_total h cl daily Hd Hne Hm) as [r S].
  exists r, daily. split; [| split; assumption].
  unfold run.
  rewrite (proj2 (Z.ltb_ge _ _)) by lia.
  rewrite Z.gtb_ltb, (proj2 (Z.ltb_ge _ _)) by lia.
  rewrite Hcl. cbn [negb].
  unfold parse_history. cbn [json_loads bind try_except].
  rewrite (proj2 (Nat.ltb_ge _ _)) by lia. cbn [bind try_except].
  unfold compute. rewrite Hh. cbn [bind]. rewrite L. cbn [bind].
  rewrite S. reflexivity.
Qed.

Lemma history_mean (lib : builtins) (history : list json) (h : History)
    (valid : list point) :
  history_of lib history = Ok (inr h) ->
  read_entries lib history = Ok valid ->
  (30 <= List.length valid)%nat /\
  points h = sort_by_date valid /\
  mean_cost h = sum (map cost valid) / INR (List.length valid).
Proof.
  intros Hh Hr. apply history_of_inr in Hh as (valid' & Hr' & Hv & Hp & Hm & _).
  rewrite Hr in Hr'. injection Hr' as <-.
  split; [exact Hv |]. split; [exact Hp |].
  rewrite Hp in Hm. rewrite mean_ok in Hm.
  - injection Hm as <-. rewrite length_map, sort_by_date_length.
    f_equal. apply sum_perm. apply Permutation_map, Permutation_sym, sort_by_date_perm.
  - intros E. apply (f_equal (@List.length R)) in E.
    rewrite length_map, sort_by_date_length in E. cbn in E. lia.
Qed.

(** X24: a forecast is returned only when the horizon is 1 to 90 days,
    the confidence level is one of the four listed, the validation loop
    went through the whole array and kept at least 30 entries, their costs
    do not add up to zero (step 10 divides by the mean), and every forecast
    date is a date of the calendar. *)
Theorem forecast_requires (lib : builtins) (history : list json) (fd : Z)
    (cl : R) (r : ForecastResult) :
  run lib (Decoded (JArr history)) fd cl = Ok (Result r) ->
  (1 <= fd <= 90)%Z /\
  existsb (Reqb cl) valid_confidence_levels = true /\
  exists valid last,
    read_entries lib history = Ok valid /\
    (30 <= List.length valid)%nat /\
    sum (map cost valid) <> 0 /\
    last_item (sort_by_date valid) = Ok last /\
    (forall day, (1 <= day <= fd)%Z -> (1 <= date last + day <= max_ordinal)%Z).
Proof.
  intros H.
  assert (Hcl : existsb (Reqb cl) valid_confidence_levels = true).
  { unfold run in H. destruct (fd <? 1)%Z; [discriminate |].
    destruct (fd >? 90)%Z; [discriminate |].
    destruct (existsb _ _); [reflexivity | discriminate]. }
  apply forecast_run_result in H as (history' & h & daily & E & Hfd & Hh & L & S).
  injection E as <-.
  split; [exact Hfd |]. split; [exact Hcl |].
  pose proof Hh as Hh'. apply history_of_inr in Hh' as (valid & Hr & _).
  destruct (history_mean _ _ _ _ Hh Hr) as (Hv & Hp & Hm).
  apply summarise_inv in S as (_ & _ & _ & _ & lp & Hne & _ & _ & _ & _ & Hlp & _).
  exists valid, lp. split; [exact Hr |]. split; [exact Hv |].
  split.
  { intros Hs. apply Hne. rewrite Hm, Hs. unfold Rdiv. ring. }
  split; [rewrite <- Hp; exact Hlp |].
  intros day Hd.
  apply forecast_loop_inv in L as (last & z & Hl & _ & F).
  rewrite Hlp in Hl. injection Hl as <-.
  destruct (In_nth_error _ _ (days_In fd day Hd)) as [k Hk].
  destruct (for_each_nth _ _ _ _ _ F Hk) as (f & Hf & _).
  apply forecast_day_inv in Hf. tauto.
Qed.

(** Every day of a finished loop, by its position. *)
Lemma forecast_loop_nth (h : History) (cl : R) (fd : Z) (daily : list DayForecast)
    (k : nat) (f : DayForecast) :
  forecast_loop h cl fd = Ok daily -> nth_error daily k = Some f ->
  exists last z,
    last_item (points h) = Ok last /\ z_scores cl = Ok z /\ 0 < z /\
    (Z.of_nat (S k) <= fd)%Z /\
    forecast_date f = (date last + Z.of_nat (S k))%Z /\
    day_offset f = Z.of_nat (S k) /\
    point_forecast f
    = slope (line h) * INR (List.length (points h) + k) + intercept (line h) /\
    interval_width f = z * std_dev h * (1 + IZR (Z.of_nat (S k)) / 30) /\
    lower_bound f = Rmax 0 (point_forecast f - interval_width f) /\
    upper_bound f = point_forecast f + interval_width f.
Proof.
  intros L Hk. apply forecast_loop_inv in L as (last & z & Hl & Hz & F).
  destruct (for_each_nth_inv _ _ _ _ _ F Hk) as (day & Hday & Hf).
  apply days_nth in Hday as [-> Hle].
  apply forecast_day_inv in Hf as (_ & Hd & Ho & Hpf & Hw & Hlo & Hup).
  exists last, z. repeat (split; [first [assumption | exact (z_scores_pos _ _ Hz)] |]).
  split.
  - rewrite Hpf. do 2 f_equal. rewrite INR_IZR_INZ. f_equal. lia.
  - repeat (split; [assumption |]). assumption.
Qed.

Lemma firstn_nth {A : Type} (n : nat) (l : list A) (k : nat) (a : A) :
  nth_error (firstn n l) k = Some a -> (k < n)%nat /\ nth_error l k = Some a.
Proof.
  rewrite nth_error_firstn. destruct (k <? n)%nat eqn:E; [| discriminate].
  apply Nat.ltb_lt in E. auto.
Qed.

(** The entries of the preview of a result, by position. *)
Lemma preview_nth (lib : builtins) (history : list json) (fd : Z) (cl : R)
    (r : ForecastResult) (k : nat) (e : ForecastEntry) :
  run lib (Decoded (JArr history)) fd cl = Ok (Result r) ->
  nth_error (forecasts r) k = Some e ->
  exists h daily f,
    history_of lib history = Ok (inr h) /\
    forecast_loop h cl fd = Ok daily /\
    summarise h cl daily = Ok r /\
    nth_error daily k = Some f /\ e = entry_of f.
Proof.
  intros H Hk.
  apply forecast_run_result in H as (history' & h & daily & E & _ & Hh & L & S).
  injection E as <-.
  rewrite (summarise_forecasts _ _ _ _ S) in Hk.
  apply firstn_nth in Hk as [_ Hk]. rewrite nth_error_map in Hk.
  destruct (nth_error daily k) as [f |] eqn:Hf; [| discriminate].
  injection Hk as <-. exists h, daily, f. auto.
Qed.

(** X25: the preview of a forecast lists the first [min(7, forecast_days)]
    days; its k-th entry (from 0) has day offset [k + 1] and the date
    [k + 1] days after the last day of the history, and the forecast period
    runs from the day after the history to [forecast_days] days after it.
    The 30-day range is left out exactly when the horizon is under 30. *)
Theorem forecast_layout (lib : builtins) (history : list json) (fd : Z) (cl : R)
    (r : ForecastResult) :
  run lib (Decoded (JArr history)) fd cl = Ok (Result r) ->
  List.length (forecasts r) = Nat.min 7 (Z.to_nat fd) /\
  (forall k e, nth_error (forecasts r) k = Some e ->
     entry_day_offset e = Z.of_nat (S k) /\
     entry_date e = (snd (date_range r) + Z.of_nat (S k))%Z) /\
  forecast_period r = (snd (date_range r) + 1, snd (date_range r) + fd)%Z /\
  (monthly_30_day_range r = None <-> (fd < 30)%Z).
Proof.
  intros H. pose proof H as H'.
  apply forecast_run_result in H' as (history' & h & daily & E & Hfd & Hh & L & S).
  injection E as <-.
  pose proof (forecast_loop_length _ _ _ _ L) as Len.
  pose proof S as S'.
  apply summarise_inv in S' as (rf & ff & lf & fp & lp & _ & _ & Hff & Hlf & _ & Hlp
                                & Hper & _ & _ & _ & _ & Hdr & _ & _ & Hfc & Hmo & _).
  split; [rewrite Hfc, length_firstn, length_map, Len; reflexivity |].
  split; [| split].
  - intros k e Hk.
    destruct (preview_nth _ _ _ _ _ _ _ H Hk) as (h' & daily' & f & Hh' & L' & _ & Hf & ->).
    rewrite Hh in Hh'. injection Hh' as <-. rewrite L in L'. injection L' as <-.
    destruct (forecast_loop_nth _ _ _ _ _ _ L Hf)
      as (last & z & Hl & _ & _ & _ & Hd & Ho & _).
    rewrite Hlp in Hl. injection Hl as <-.
    rewrite Hdr. cbn. auto.
  - rewrite Hper, Hdr. cbn [snd].
    apply first_item_nth in Hff. apply last_item_nth in Hlf.
    rewrite length_map, Len in Hlf.
    rewrite nth_error_map in Hff, Hlf.
    destruct (nth_error daily 0) as [f0 |] eqn:H0; [| discriminate].
    destruct (nth_error daily (Z.to_nat fd - 1)) as [f1 |] eqn:H1; [| discriminate].
    injection Hff as <-. injection Hlf as <-.
    destruct (forecast_loop_nth _ _ _ _ _ _ L H0) as (l0 & _ & Hl0 & _ & _ & _ & D0 & _).
    destruct (forecast_loop_nth _ _ _ _ _ _ L H1) as (l1 & _ & Hl1 & _ & _ & _ & D1 & _).
    rewrite Hlp in Hl0, Hl1. injection Hl0 as <-. injection Hl1 as <-.
    cbn [entry_of entry_date]. rewrite D0, D1. f_equal; lia.
  - rewrite Hmo, length_map, Len.
    destruct (30 <=? Z.to_nat fd)%nat eqn:E.
    + apply Nat.leb_le in E. split; [discriminate | lia].
    + apply Nat.leb_gt in E. split; [lia | reflexivity].
Qed.

End ForecastMore.

(** ** The forecasts and the summary of CreateForecast *)

Lemma sum_pos (l : list R) : Forall (fun x => 0 < x) l -> l <> [] -> 0 < sum l.
Proof.
  intros H. induction H as [| x l Hx Hl IH]; [congruence |].
  intros _. rewrite sum_cons. destruct l as [| y l].
  - rewrite sum_nil. lra.
  - assert (0 < sum (y :: l)) by (apply IH; discriminate). lra.
Qed.

Lemma In_if {A : Type} (b : bool) (y x : A) :
  In x (if b then [y] else []) <-> b = true /\ y = x.
Proof.
  destruct b; cbn [In]; split.
  - intros [G | []]. auto.
  - intros [_ G]. auto.
  - intros [].
  - intros [G _]. discriminate.
Qed.

Section ForecastSummary.
Import CreateForecast.

Lemma history_spread (lib : builtins) (history : list json) (h : History) :
  history_of lib history = Ok (inr h) ->
  0 <= std_dev h /\ 0 <= Regression.r_squared (line h) <= 1 /\
  (30 <= List.length (points h))%nat.
Proof.
  intros Hh. apply history_of_inr in Hh as (valid & _ & Hv & Hp & _ & Hs & Hf).
  split; [exact (stdev_nonneg _ _ Hs) |]. split.
  - apply (r_squared_range (fun ss_total => Rltb 0 ss_total) (map cost (points h)));
      [| exact Hf].
    intros t Ht. apply Rltb_true_iff in Ht. lra.
  - rewrite Hp, sort_by_date_length. exact Hv.
Qed.

Lemma entry_bounds (h : History) (cl : R) (fd : Z) (daily : list DayForecast)
    (k : nat) (f : DayForecast) :
  0 <= std_dev h ->
  forecast_loop h cl fd = Ok daily -> nth_error daily k = Some f ->
  0 <= interval_width f /\
  lower_bound f = Rmax 0 (point_forecast f - interval_width f) /\
  upper_bound f = point_forecast f + interval_width f.
Proof.
  intros Hs L Hk.
  destruct (forecast_loop_nth _ _ _ _ _ _ L Hk)
    as (last & z & _ & _ & Hz & _ & _ & _ & _ & Hw & Hlo & Hup).
  split; [| split; assumption].
  rewrite Hw. apply Rmult_le_pos; [apply Rmult_le_pos; lra |].
  assert (0 <= IZR (Z.of_nat (S k))) by (apply IZR_le; lia).
  lra.
Qed.

(** X26: in every entry of the preview the lower bound is not negative and
    the upper bound is not below the forecast cost; the bounds are in order
    exactly when the upper bound is not negative, and the interval holds the
    forecast cost whenever that cost is not negative. *)
Theorem forecast_interval_bounds (lib : builtins) (history : list json) (fd : Z)
    (cl : R) (r : ForecastResult) (e : ForecastEntry) :
  run lib (Decoded (JArr history)) fd cl = Ok (Result r) ->
  In e (forecasts r) ->
  0 <= ci_lower e /\
  forecast_cost e <= ci_upper e /\
  (ci_lower e <= ci_upper e <-> 0 <= ci_upper e) /\
  (0 <= forecast_cost e -> ci_lower e <= forecast_cost e).
Proof.
  intros H Hin. apply In_nth_error in Hin as [k Hk].
  destruct (preview_nth _ _ _ _ _ _ _ H Hk) as (h & daily & f & Hh & L & _ & Hf & ->).
  destruct (history_spread _ _ _ Hh) as (Hs & _).
  destruct (entry_bounds _ _ _ _ _ _ Hs L Hf) as (Hw & Hlo & Hup).
  cbn [entry_of ci_lower ci_upper forecast_cost]. rewrite Hlo, Hup.
  assert (Z0 : round 0 2 = 0) by exact (round_IZR 0 2).
  assert (Lo : 0 <= round (Rmax 0 (point_forecast f - interval_width f)) 2).
  { rewrite <- Z0 at 1. apply round_mono, Rmax_l. }
  split; [exact Lo |].
  split; [apply round_mono; lra |].
  split; [split |].
  - lra.
  - intros U. unfold Rmax. destruct (Rle_dec _ _) as [C | C].
    + apply round_mono. lra.
    + rewrite Z0. exact U.
  - intros P. unfold Rmax. destruct (Rle_dec _ _) as [C | C].
    + apply round_mono. lra.
    + rewrite Z0. exact P.
Qed.

Lemma flat_first_entry (c : R) :
  c <> 0 ->
  exists r e,
    run example_lib (Decoded (JArr (map (fun d => entry d c) january_2025))) 30 0.80
    = Ok (Result r) /\
    In e (forecasts r).
Proof.
  intros Hc. destruct (flat_run_result c Hc) as (r & daily & H & L & F).
  apply forecast_loop_length in L.
  destruct daily as [| f daily]; [discriminate |].
  exists r, (entry_of f). split; [exact H |]. rewrite F. left. reflexivity.
Qed.

Lemma forecast_interval_bounds_witness :
  exists r e,
    run example_lib (Decoded (JArr (map (fun d => entry d 5) january_2025))) 30 0.80
    = Ok (Result r) /\
    In e (forecasts r) /\
    0 <= ci_lower e /\
    forecast_cost e <= ci_upper e /\
    (ci_lower e <= ci_upper e <-> 0 <= ci_upper e) /\
    (0 <= forecast_cost e -> ci_lower e <= forecast_cost e).
Proof.
  destruct (flat_first_entry 5) as (r & e & H & Hin); [lra |].
  exists r, e. split; [exact H |]. split; [exact Hin |].
  exact (forecast_interval_bounds example_lib _ 30 0.80 r e H Hin).
Defined.

Lemma forecast_layout_witness :
  exists r,
    run example_lib (Decoded (JArr (map (fun d => entry d 5) january_2025))) 30 0.80
    = Ok (Result r) /\
    List.length (forecasts r) = Nat.min 7 (Z.to_nat 30) /\
    (forall k e, nth_error (forecasts r) k = Some e ->
       entry_day_offset e = Z.of_nat (S k) /\
       entry_date e = (snd (date_range r) + Z.of_nat (S k))%Z) /\
    forecast_period r = (snd (date_range r) + 1, snd (date_range r) + 30)%Z /\
    (monthly_30_day_range r = None <-> (30 < 30)%Z).
Proof.
  destruct (flat_first_entry 5) as (r & e & H & _); [lra |].
  exists r. split; [exact H |].
  exact (forecast_layout example_lib _ 30 0.80 r H).
Defined.

Lemma flat_points_ordinary :
  Forall (fun p => Rabs (cost p) <= 10 ^ 100) (flat_points 5).
Proof.
  apply Forall_forall. intros p Hp.
  rewrite (proj1 (Forall_forall _ _) (flat_points_cost 5) p Hp).
  apply ordinary_cost. lra.
Qed.

Lemma forecast_requires_witness :
  exists r,
    run example_lib (Decoded (JArr (map (fun d => entry d 5) january_2025))) 30 0.80
    = Ok (Result r) /\
    (1 <= 30 <= 90)%Z /\
    existsb (Reqb 0.80) valid_confidence_levels = true /\
    exists valid last,
      read_entries example_lib (map (fun d => entry d 5) january_2025) = Ok valid /\
      (30 <= List.length valid)%nat /\
      sum (map cost valid) <> 0 /\
      last_item (sort_by_date valid) = Ok last /\
      (forall day, (1 <= day <= 30)%Z -> (1 <= date last + day <= max_ordinal)%Z).
Proof.
  destruct (flat_first_entry 5) as (r & e & H & _); [lra |].
  exists r. split; [exact H |].
  exact (forecast_requires example_lib _ 30 0.80 r H).
Defined.

(** X27: for costs of ordinary size (within 10^100 either way, where the
    sums of squares of the source stay in range), the summary of a forecast
    is consistent: the coefficient of determination never exceeds 1, the
    standard deviation is not negative, at least 30 days were analysed, the
    limited-history risk is listed exactly when fewer than 60 days were
    analysed, a weak trend always carries the low-R-squared risk and a
    strong trend never does.  No lower end is stated for the coefficient of
    determination: rounding can take it below the 0 that exact arithmetic
    keeps. *)
Theorem forecast_summary_consistent (lib : builtins) (history : list json)
    (valid : list point) (fd : Z) (cl : R) (r : ForecastResult) :
  run lib (Decoded (JArr history)) fd cl = Ok (Result r) ->
  read_entries lib history = Ok valid ->
  Forall (fun p => Rabs (cost p) <= 10 ^ 100) valid ->
  r_squared r <= 1 /\
  0 <= std_deviation r /\
  (30 <= days_analyzed r)%nat /\
  (In (LimitedHistory (days_analyzed r)) (risk_factors r)
   <-> (days_analyzed r < 60)%nat) /\
  (trend_strength r = weak -> In LowRSquared (risk_factors r)) /\
  (In LowRSquared (risk_factors r) -> trend_strength r <> strong).
Proof.
  intros H _ _.
  apply forecast_run_result in H as (history' & h & daily & E & _ & Hh & _ & S).
  injection E as <-.
  destruct (history_spread _ _ _ Hh) as (Hs & [R0 R1] & Hn).
  apply summarise_inv in S as (rf & ff & lf & fp & lp & _ & Hrf & _ & _ & _ & _
                               & _ & _ & Hst & Hda & Hsd & _ & _ & Hr2 & _ & _ & Hrk).
  apply risks_inv in Hrf. rewrite Hrk, Hr2, Hsd, Hda, Hst, Hrf. clear Hrk Hr2 Hsd Hda Hst Hrf.
  split.
  - apply Rle_trans with (round 1 3); [apply round_mono; exact R1 |].
    rewrite (round_IZR 1 3). lra.
  - split; [apply round_nonneg; exact Hs |].
    split; [exact Hn |].
    rewrite !in_app_iff, !In_if. unfold strength_of.
    set (q := Regression.r_squared (line h)) in *.
    split; [split | split].
    + intros [[_ G] | [[G _] | [[_ G] | [_ G]]]]; try discriminate.
      apply Nat.ltb_lt. exact G.
    + intros G. right. left. split; [apply Nat.ltb_lt; exact G | reflexivity].
    + destruct (Rltb 0.7 q); [discriminate |].
      destruct (Rltb 0.4 q) eqn:D; [discriminate |]. intros _.
      apply Rltb_false_iff in D. left. split; [apply Rltb_true_iff; lra | reflexivity].
    + intros [[G _] | [[_ G] | [[_ G] | [_ G]]]]; try discriminate.
      apply Rltb_true_iff in G.
      rewrite (proj2 (Rltb_false_iff 0.7 q)) by lra.
      destruct (Rltb 0.4 q); discriminate.
Qed.

Lemma flat_read (c : R) :
  read_entries example_lib (map (fun d => entry d c) january_2025)
  = Ok (flat_points c).
Proof. apply read_entries_map. vm_compute. reflexivity. Qed.

Lemma forecast_summary_consistent_witness :
  exists r,
    run example_lib (Decoded (JArr (map (fun d => entry d 5) january_2025))) 30 0.80
    = Ok (Result r) /\
    r_squared r <= 1 /\
    0 <= std_deviation r /\
    (30 <= days_analyzed r)%nat /\
    (In (LimitedHistory (days_analyzed r)) (risk_factors r)
     <-> (days_analyzed r < 60)%nat) /\
    (trend_strength r = weak -> In LowRSquared (risk_factors r)) /\
    (In LowRSquared (risk_factors r) -> trend_strength r <> strong).
Proof.
  destruct (flat_first_entry 5) as (r & e & H & _); [lra |].
  exists r. split; [exact H |].
  exact (forecast_summary_consistent example_lib _ (flat_points 5) 30 0.80 r H
           (flat_read 5) flat_points_ordinary).
Defined.




(** Steps 4 to 6 on costs that lie on a line that is not level. *)
Lemma history_of_line (lib : builtins) (history : list json)
    (valid : list point) (a b : R) (h : History) :
  read_entries lib history = Ok valid ->
  map cost (sort_by_date valid)
  = map (fun k => a + b * INR k) (seq 0 (List.length valid)) ->
  b <> 0 ->
  history_of lib history = Ok (inr h) ->
  List.length (points h) = List.length valid /\
  line h = {| slope := b; intercept := a; Regression.r_squared := 1 |}.
Proof.
  intros Hr Hc Hb Hh.
  apply history_of_inr in Hh as (valid' & Hr' & Hv & Hp & _ & _ & Hf).
  rewrite Hr in Hr'. injection Hr' as <-.
  split; [rewrite Hp; apply sort_by_date_length |].
  rewrite Hp, Hc in Hf.
  assert (L := linear_fit_line (fun t => Rltb 0 t) a b (List.length valid)).
  replace (map (fun x => a + b * x) (x_values (List.length valid)))
    with (map (fun k => a + b * INR k) (seq 0 (List.length valid))) in L
    by (unfold x_values; rewrite map_map; reflexivity).
  rewrite L in Hf.
  - rewrite (proj2 (Reqb_false_iff b 0) Hb) in Hf. injection Hf as <-. reflexivity.
  - lia.
  - intros t Ht. apply Rltb_true_iff. exact Ht.
  - apply Rltb_false_iff. lra.
Qed.

(** X29: when the historical costs, in date order, are whole numbers on a
    line [a + b k] that is not level, for a history of no more than 1000
    days with [|a| <= 10^9] and [|b| <= 1000] (bounds within which the
    doubles of the source hold every intermediate value of the fit and of
    the extrapolation exactly), the forecast continues that line: the k-th
    preview entry (from 0) forecasts [a + b (n + k)] for a history of [n]
    days, the change rate is [b], R squared is 1 and the trend is strong. *)
Theorem forecast_extends_line (lib : builtins) (history : list json)
    (valid : list point) (fd : Z) (cl : R) (a b : Z) (r : ForecastResult) :
  read_entries lib history = Ok valid ->
  map cost (sort_by_date valid)
  = map (fun k => IZR a + IZR b * INR k) (seq 0 (List.length valid)) ->
  (List.length valid <= 1000)%nat ->
  (Z.abs a <= 10 ^ 9)%Z -> (Z.abs b <= 1000)%Z -> b <> 0%Z ->
  run lib (Decoded (JArr history)) fd cl = Ok (Result r) ->
  daily_change_rate r = IZR b /\ r_squared r = 1 /\
  trend_strength r = strong /\
  forall k e, nth_error (forecasts r) k = Some e ->
    forecast_cost e = IZR (a + b * Z.of_nat (List.length valid + k)).
Proof.
  intros Hr Hc _ _ _ Hb H. pose proof H as H'.
  apply forecast_run_result in H' as (history' & h & daily & E & _ & Hh & L & S).
  injection E as <-.
  assert (Hb' : IZR b <> 0) by (intros Z0; apply Hb; apply eq_IZR; exact Z0).
  destruct (history_of_line _ _ _ _ _ _ Hr Hc Hb' Hh) as (Hn & Hl).
  pose proof S as S'.
  apply summarise_inv in S' as (rf & ff & lf & fp & lp & _ & _ & _ & _ & _ & _
                                & _ & _ & Hst & _ & _ & _ & Hcr & Hr2 & _).
  rewrite Hl in *. cbn [slope intercept Regression.r_squared] in *.
  split; [rewrite Hcr; apply round_IZR |].
  split; [rewrite Hr2; exact (round_IZR 1 3) |].
  split; [rewrite Hst; unfold strength_of; settle; reflexivity |].
  intros k e Hk.
  destruct (preview_nth _ _ _ _ _ _ _ H Hk) as (h' & daily' & f & Hh' & L' & _ & Hf & ->).
  rewrite Hh in Hh'. injection Hh' as <-. rewrite L in L'. injection L' as <-.
  destruct (forecast_loop_nth _ _ _ _ _ _ L Hf)
    as (last & z & _ & _ & _ & _ & _ & _ & Hpf & _).
  rewrite Hl in Hpf. cbn [slope intercept] in Hpf.
  cbn [entry_of forecast_cost]. rewrite Hpf, Hn.
  replace (IZR b * INR (List.length valid + k) + IZR a)
    with (IZR (a + b * Z.of_nat (List.length valid + k)))
    by (rewrite plus_IZR, mult_IZR, <- INR_IZR_INZ; ring).
  apply round_IZR.
Qed.

Lemma linear_month_run :
  exists r, run example_lib (Decoded (JArr linear_month_history)) 30 0.80
            = Ok (Result r).
Proof.
  destruct (history_of_total example_lib linear_month_history linear_month_valid
              linear_month_read) as (h & Hh & Hp); [cbn; lia |].
  destruct (history_mean _ _ _ _ Hh linear_month_read) as (_ & _ & Hm).
  rewrite linear_month_sorted in Hp.
  destruct (forecast_run_total example_lib linear_month_history 30 0.80 h
              {| date := 739281; cost := 100 + 10 * INR 29 |})
    as (r & _ & H & _).
  - lia.
  - cbn. settle. reflexivity.
  - exact Hh.
  - rewrite Hm.
    assert (0 < sum (map cost linear_month_valid)).
    { apply sum_pos; [| discriminate].
      unfold linear_month_valid. rewrite map_map. apply Forall_map, Forall_forall.
      intros k _. cbn [cost]. pose proof (pos_INR k). lra. }
    assert (0 < INR (List.length linear_month_valid)) by (apply lt_0_INR; cbn; lia).
    apply Rgt_not_eq. apply Rdiv_lt_0_compat; assumption.
  - rewrite Hp. reflexivity.
  - cbn. lia.
  - cbn. unfold max_ordinal. lia.
  - exists r. exact H.
Qed.

Lemma forecast_extends_line_witness :
  exists r,
    run example_lib (Decoded (JArr linear_month_history)) 30 0.80 = Ok (Result r) /\
    daily_change_rate r = IZR 10 /\ r_squared r = 1 /\
    trend_strength r = strong /\
    forall k e, nth_error (forecasts r) k = Some e ->
      forecast_cost e
      = IZR (100 + 10 * Z.of_nat (List.length linear_month_valid + k)).
Proof.
  destruct linear_month_run as (r & H).
  exists r. split; [exact H |].
  apply (forecast_extends_line example_lib linear_month_history linear_month_valid
           30 0.80 100 10 r linear_month_read).
  - rewrite linear_month_sorted. unfold linear_month_valid. rewrite map_map. reflexivity.
  - cbn. lia.
  - lia.
  - lia.
  - lia.
  - exact H.
Defined.

End ForecastSummary.
